(** * Blood donor system: matching engine, donor availability, certificate
      lifecycle and inventory status

    A shallow embedding of the backend's Mongoose models and Express
    controllers.  A document carries the schema paths that the modelled
    operations read or write.  Collections are lists of documents in
    natural order, a
    query is the boolean predicate its filter object denotes, [populate]
    is a lookup in the referenced collection (and yields [None] for a
    dangling reference, as Mongoose yields [null]), and a controller is a
    function from the request and the world to a response and a world.
    Dates are milliseconds since the epoch, and the clock stands still
    while one handler runs: every [new Date()] of a call reads the same
    [now].  Strings are the UTF-8 bytes of the JavaScript strings.  A
    lost database connection is not modelled.

    [save] of a loaded document validates the paths of the document
    again.  The validators of the donor and donation schemas do not read
    the clock, so a stored document that passed them passes them again,
    and the models of those [save]s check the paths a handler assigns.
    The request schema's validator of [requiredBy] does read the clock,
    and [BloodRequest.save] runs the validators at the time of the
    save. *)

From Stdlib Require Import ZArith QArith List String Ascii Bool Lia.
From Stdlib Require Import DecimalString Qabs OrderedTypeEx.
From Stdlib Require Import Sorting.Sorted Sorting.Permutation.
Import ListNotations.
Open Scope string_scope.
Open Scope Z_scope.

(** ** Common vocabulary *)

Definition ObjectId := string.
Definition Date := Z.

(** A GeoJSON point, [[longitude, latitude]]. *)
Definition Coordinates := (Q * Q)%type.

Definition msPerDay : Z := 24 * 60 * 60 * 1000.

(** [if (s)] on an optional string: [undefined], [null] and the empty
    string are falsy. *)
Definition truthy (s : option string) : bool :=
  match s with
  | Some v => negb (String.eqb v "")
  | None => false
  end.

(** The [$in] operator on a string field. *)
Definition mongo_in (v : string) (vs : list string) : bool :=
  existsb (String.eqb v) vs.

(** The eight values of every [bloodType] enum. *)
Definition bloodTypes : list string :=
  ["A+"; "A-"; "B+"; "B-"; "AB+"; "AB-"; "O+"; "O-"].

(** Lookup of an own property of an object literal. *)
Fixpoint property {A : Type} (k : string) (o : list (string * A)) : option A :=
  match o with
  | [] => None
  | (k', v) :: o' => if String.eqb k k' then Some v else property k o'
  end.

(** [String(n)] and [n.toString(36).toUpperCase()] of a timestamp. *)
Definition toString10 (n : Z) : string :=
  NilZero.string_of_int (Z.to_int n).

Definition digit36 (d : N) : ascii :=
  if (d <? 10)%N then ascii_of_N (48 + d) else ascii_of_N (55 + d).

Fixpoint toString36_loop (fuel : nat) (n : N) (acc : string) : string :=
  match fuel with
  | O => acc
  | S fuel' =>
      let acc' := String (digit36 (n mod 36)) acc in
      if (n / 36 =? 0)%N then acc' else toString36_loop fuel' (n / 36) acc'
  end.

Definition toString36 (n : Z) : string :=
  toString36_loop (S (N.to_nat (N.log2 (Z.to_N n)))) (Z.to_N n) "".

(** ** Local time of [Date] objects

    ECMAScript's [LocalTZA(t, isUTC)] is the offset of the host's time
    zone from UTC in milliseconds: at the instant [t] when [isUTC] is
    true, and at the local time value [t] otherwise (a local time that a
    clock change skips or repeats is read with the offset before the
    change).  The zone is the host's and is a parameter. *)

Section LocalTime.
Variable LocalTZA : Z -> bool -> Z.

Definition LocalTime (t : Date) : Z := t + LocalTZA t true.

Definition UTC (t : Z) : Date := t - LocalTZA t false.

(** [d.setDate(d.getDate() + n)]: the local time value of [d] is taken
    apart, [MakeDay] with the day of the month raised by [n] is the day
    number raised by [n], the time within the day is kept, and the
    result is read back as a local time.  Time values stay inside the
    range [TimeClip] accepts. *)
Definition setDate_getDate_plus (n : Z) (d : Date) : Date :=
  UTC (LocalTime d + n * msPerDay).
End LocalTime.

(** ** [String.prototype.trim], on UTF-8 bytes

    The code points ECMAScript strips: tab, line feed, vertical tab, form
    feed, carriage return, space, U+00A0, U+1680, U+2000 to U+200A,
    U+2028, U+2029, U+202F, U+205F, U+3000 and U+FEFF. *)

Definition whiteSpace : list (list ascii) :=
  map (map ascii_of_nat)
    [ [9]; [10]; [11]; [12]; [13]; [32]; [194; 160]; [225; 154; 128];
      [226; 128; 128]; [226; 128; 129]; [226; 128; 130]; [226; 128; 131];
      [226; 128; 132]; [226; 128; 133]; [226; 128; 134]; [226; 128; 135];
      [226; 128; 136]; [226; 128; 137]; [226; 128; 138]; [226; 128; 168];
      [226; 128; 169]; [226; 128; 175]; [226; 129; 159]; [227; 128; 128];
      [239; 187; 191] ]%nat.

(** The rest of [s] after the prefix [p], when [s] starts with [p]. *)
Fixpoint strip_prefix (p s : list ascii) : option (list ascii) :=
  match p, s with
  | [], _ => Some s
  | a :: p', b :: s' => if Ascii.eqb a b then strip_prefix p' s' else None
  | _ :: _, [] => None
  end.

Definition strip_one (prefixes : list (list ascii)) (s : list ascii)
  : option (list ascii) :=
  fold_right (fun p rest => match strip_prefix p s with
                            | Some r => Some r
                            | None => rest
                            end) None prefixes.

Fixpoint strip_all (fuel : nat) (prefixes : list (list ascii))
         (s : list ascii) : list ascii :=
  match fuel with
  | O => s
  | S fuel' => match strip_one prefixes s with
               | Some r => strip_all fuel' prefixes r
               | None => s
               end
  end.

Definition trimStart (s : list ascii) : list ascii :=
  strip_all (List.length s) whiteSpace s.

Definition trimEnd (s : list ascii) : list ascii :=
  rev (strip_all (List.length s) (map (@rev ascii) whiteSpace) (rev s)).

Definition trim (s : string) : string :=
  string_of_list_ascii (trimEnd (trimStart (list_ascii_of_string s))).

(** ** Sorting, as the database does it for [.sort] and [$near]

    Documents that compare equal stay in the order of the input; the
    database promises no order among them, and no statement below
    depends on one. *)

Section Sorting.
Context {A : Type}.
Variable before : A -> A -> bool.

Fixpoint insert_sorted (x : A) (l : list A) : list A :=
  match l with
  | [] => [x]
  | y :: l' => if before x y then x :: l else y :: insert_sorted x l'
  end.

Definition sort_by (l : list A) : list A :=
  fold_right insert_sorted [] l.
End Sorting.

(** The [$near] operator with [$maxDistance]: the documents within the
  radius, nearest first.  The geodesic distance in metres is computed by
  the database's 2dsphere index and is a parameter here. *)
Section Near.
Context {A : Type}.
Variable distance : Coordinates -> Coordinates -> Q.
Variable location : A -> Coordinates.

Definition within (centre : Coordinates) (maxDistance : Z) (d : A) : bool :=
  Qle_bool (distance centre (location d)) (inject_Z maxDistance).

Definition nearer (centre : Coordinates) (a b : A) : bool :=
  Qle_bool (distance centre (location a)) (distance centre (location b)).

Definition near_order (centre : Coordinates) (l : list A) : list A :=
  sort_by (nearer centre) l.
End Near.

(** ** models/User.js (the fields the controllers select) *)

Module User.
Record t := mk {
  _id : ObjectId;
  fullName : string;
  email : string;
  role : string
}.

Definition findById (users : list t) (id : ObjectId) : option t :=
  find (fun u => String.eqb (_id u) id) users.
End User.

(** ** models/Donor.js *)

Module Donor.
Record t := mk {
  _id : ObjectId;
  user : ObjectId;
  bloodType : string;
  age : Z;
  weight : Z;
  lastDonationDate : option Date;
  isAvailable : bool;
  location : Coordinates;
  isVerified : bool;
  donationCount : Z;
  totalVolumeDonated : Z
}.

(** A donor document after [.populate('user', ...)]. *)
Record populated := mkPopulated {
  doc : t;
  populated_user : option User.t
}.

Definition populate (users : list User.t) (d : t) : populated :=
  mkPopulated d (User.findById users (user d)).

Section Eligibility.
Variable LocalTZA : Z -> bool -> Z.

(** Virtual [nextEligibleDonationDate]: [setDate(getDate() + 56)] moves
    the date 56 calendar days on in the host's local time. *)
Definition nextEligibleDonationDate (now : Date) (d : t) : Date :=
  match lastDonationDate d with
  | None => now
  | Some lastDonation => setDate_getDate_plus LocalTZA 56 lastDonation
  end.

Definition isEligibleToDonate (now : Date) (d : t) : bool :=
  if negb (isAvailable d) then false
  else match lastDonationDate d with
       | None => true
       | Some _ => nextEligibleDonationDate now d <=? now
       end.

Definition set_isAvailable (b : bool) (d : t) : t :=
  mk (_id d) (user d) (bloodType d) (age d) (weight d) (lastDonationDate d)
     b (location d) (isVerified d) (donationCount d) (totalVolumeDonated d).

(** [updateAvailability], before its [save]. *)
Definition updateAvailability (now : Date) (d : t) : t :=
  set_isAvailable (isEligibleToDonate now d) d.
End Eligibility.

Definition findById (donors : list t) (id : ObjectId) : option t :=
  find (fun d => String.eqb (_id d) id) donors.

(** [Donor.findOne({ user: id })]. *)
Definition findOneByUser (donors : list t) (id : ObjectId) : option t :=
  find (fun d => String.eqb (user d) id) donors.

(** [save] of a loaded document: the stored document with the same
    [_id] is replaced.  No validator of the schema reads the clock; the
    handlers that assign validated paths check them before they call
    this. *)
Definition save (d : t) (donors : list t) : list t :=
  map (fun d' => if String.eqb (_id d') (_id d) then d else d') donors.

Section FindNearby.
Variable distance : Coordinates -> Coordinates -> Q.

(** The filter object built by [findNearby]. *)
Definition nearby_query (coordinates : Coordinates) (maxDistance : Z)
           (bloodType' : option string) (d : t) : bool :=
  within distance location coordinates maxDistance d
  && Bool.eqb (isAvailable d) true
  && (if truthy bloodType'
      then match bloodType' with
           | Some b => String.eqb (bloodType d) b
           | None => true
           end
      else true).

Definition findNearby (users : list User.t) (donors : list t)
           (coordinates : Coordinates) (maxDistance : Z)
           (bloodType' : option string) : list populated :=
  map (populate users)
      (near_order distance location coordinates
         (filter (nearby_query coordinates maxDistance bloodType') donors)).
End FindNearby.
End Donor.


(** ** models/BloodRequest.js *)

Module BloodRequest.
Record t := mk {
  _id : ObjectId;
  requester : ObjectId;
  patientName : string;
  bloodType : string;
  unitsNeeded : Z;
  urgency : string;
  requiredBy : Date;
  location : Coordinates;
  status : string;
  unitsFulfilled : Z
}.

(** A request document after [.populate('requester', ...)]. *)
Record populated := mkPopulated {
  doc : t;
  populated_requester : option User.t
}.

Definition populate (users : list User.t) (r : t) : populated :=
  mkPopulated r (User.findById users (requester r)).

Definition set_status (s : string) (r : t) : t :=
  mk (_id r) (requester r) (patientName r) (bloodType r) (unitsNeeded r)
     (urgency r) (requiredBy r) (location r) s (unitsFulfilled r).

Definition set_unitsFulfilled (n : Z) (r : t) : t :=
  mk (_id r) (requester r) (patientName r) (bloodType r) (unitsNeeded r)
     (urgency r) (requiredBy r) (location r) (status r) n.

Definition isExpired (now : Date) (r : t) : bool :=
  requiredBy r <? now.

Definition findById (requests : list t) (id : ObjectId) : option t :=
  find (fun r => String.eqb (_id r) id) requests.

(** The schema's validators on the modelled paths, run by [create] and
    by every [save]; [now] is the [new Date()] of the [requiredBy]
    validator.  The [trim] of [patientName] is a setter: it has been
    applied where the path was assigned. *)
Definition validate (now : Date) (r : t) : bool :=
  negb (String.eqb (patientName r) "")
  && mongo_in (bloodType r) bloodTypes
  && (1 <=? unitsNeeded r) && (unitsNeeded r <=? 10)
  && mongo_in (urgency r) ["low"; "medium"; "high"; "critical"]
  && (now <? requiredBy r)
  && mongo_in (status r)
       ["active"; "partially_fulfilled"; "fulfilled"; "expired"; "cancelled"].

(** [save] of a loaded document: the validators run on the whole
    document, and the stored document with the same [_id] is replaced;
    [None] is the thrown validation error. *)
Definition save (now : Date) (r : t) (requests : list t) : option (list t) :=
  if validate now r
  then Some (map (fun r' => if String.eqb (_id r') (_id r) then r else r')
                 requests)
  else None.

(** The status [updateStatus] assigns. *)
Definition updateStatus_status (now : Date) (r : t) : t :=
  if isExpired now r && String.eqb (status r) "active"
  then set_status "expired" r
  else if unitsNeeded r <=? unitsFulfilled r
  then set_status "fulfilled" r
  else if 0 <? unitsFulfilled r
  then set_status "partially_fulfilled" r
  else r.

(** [updateStatus]: the assignment, then [return this.save()]; the
    document as saved and the collection, or [None] when [save] throws. *)
Definition updateStatus (now : Date) (r : t) (requests : list t)
  : option (t * list t) :=
  let r' := updateStatus_status now r in
  match save now r' requests with
  | Some stored => Some (r', stored)
  | None => None
  end.

(** The table inside [getCompatibleBloodTypes]. *)
Definition compatibility : list (string * list string) :=
  [ ("O-", ["O-"; "O+"; "A-"; "A+"; "B-"; "B+"; "AB-"; "AB+"]);
    ("O+", ["O+"; "A+"; "B+"; "AB+"]);
    ("A-", ["A-"; "A+"; "AB-"; "AB+"]);
    ("A+", ["A+"; "AB+"]);
    ("B-", ["B-"; "B+"; "AB-"; "AB+"]);
    ("B+", ["B+"; "AB+"]);
    ("AB-", ["AB-"; "AB+"]);
    ("AB+", ["AB+"]) ].

(** [compatibility[donorBloodType] || []]; keys outside the table's own
    eight give the empty list.  (For a name that every object inherits,
    such as [__proto__], the lookup in the code does not give
    [undefined]; those names are listed further down, and the statements
    about an unknown donor type leave them out.) *)
Definition getCompatibleBloodTypes (donorBloodType : string) : list string :=
  match property donorBloodType compatibility with
  | Some types => types
  | None => []
  end.

(** [.sort({ urgency: -1, requiredBy: 1 })]: [urgency] is stored as a
    string, which the database compares byte by byte; larger strings come
    first, and among equal strings earlier dates come first. *)
Definition sort_order (a b : t) : bool :=
  match String.compare (urgency a) (urgency b) with
  | Gt => true
  | Lt => false
  | Eq => requiredBy a <=? requiredBy b
  end.

Section FindNearby.
Variable distance : Coordinates -> Coordinates -> Q.

(** The filter object built by [findNearby]; [now] is [new Date()]. *)
Definition nearby_query (now : Date) (coordinates : Coordinates)
           (maxDistance : Z) (bloodType' : option string) (r : t) : bool :=
  within distance location coordinates maxDistance r
  && mongo_in (status r) ["active"; "partially_fulfilled"]
  && (now <? requiredBy r)
  && (if truthy bloodType'
      then match bloodType' with
           | Some b => mongo_in (bloodType r) (getCompatibleBloodTypes b)
           | None => true
           end
      else true).

Definition findNearby (now : Date) (users : list User.t) (requests : list t)
           (coordinates : Coordinates) (maxDistance : Z)
           (bloodType' : option string) : list populated :=
  map (populate users)
      (sort_by sort_order
         (near_order distance location coordinates
            (filter (nearby_query now coordinates maxDistance bloodType')
                    requests))).
End FindNearby.
End BloodRequest.

(** ** models/Donation.js *)

Module Donation.
Record DonationCenter := mkCenter {
  name : string;
  city : string;
  state : string
}.

Record Certification := mkCertification {
  certificateGenerated : bool;
  certificateId : option string;
  generatedAt : option Date
}.

Record t := mk {
  _id : ObjectId;
  donor : ObjectId;
  bloodRequest : ObjectId;
  donationDate : Date;
  volumeDonated : Z;
  bloodType : string;
  donationCenter : DonationCenter;
  status : string;
  overallResult : string;   (* testResults.overallResult *)
  certification : Certification
}.

(** A donation after [.populate('donor').populate('bloodRequest')]. *)
Record populated := mkPopulated {
  doc : t;
  populated_donor : option Donor.t;
  populated_bloodRequest : option BloodRequest.t
}.

Definition populate (donors : list Donor.t) (requests : list BloodRequest.t)
           (d : t) : populated :=
  mkPopulated d (Donor.findById donors (donor d))
              (BloodRequest.findById requests (bloodRequest d)).

Definition set_status (s : string) (d : t) : t :=
  mk (_id d) (donor d) (bloodRequest d) (donationDate d) (volumeDonated d)
     (bloodType d) (donationCenter d) s (overallResult d) (certification d).

Definition set_certification (c : Certification) (d : t) : t :=
  mk (_id d) (donor d) (bloodRequest d) (donationDate d) (volumeDonated d)
     (bloodType d) (donationCenter d) (status d) (overallResult d) c.

Definition findById (donations : list t) (id : ObjectId) : option t :=
  find (fun d => String.eqb (_id d) id) donations.

Definition save (d : t) (donations : list t) : list t :=
  map (fun d' => if String.eqb (_id d') (_id d) then d else d') donations.
End Donation.

(** ** models/BloodInventory.js *)

Module BloodInventory.
Record t := mk {
  _id : ObjectId;
  locationName : string;
  bloodType : string;
  unitsAvailable : Z;
  unitsReserved : Z;
  minimumThreshold : Z;
  maxCapacity : Z;
  expiryDate : Date;
  collectionDate : Date;
  status : string;
  notes : string
}.

Definition set_status (s : string) (i : t) : t :=
  mk (_id i) (locationName i) (bloodType i) (unitsAvailable i)
     (unitsReserved i) (minimumThreshold i) (maxCapacity i) (expiryDate i)
     (collectionDate i) s (notes i).

(** The [pre('save')] middleware; [now] is [new Date()]. *)
Definition pre_save (now : Date) (i : t) : t :=
  if expiryDate i <=? now then set_status "Expired" i
  else if unitsAvailable i =? 0 then set_status "Out of Stock" i
  else if unitsAvailable i <=? minimumThreshold i then set_status "Low Stock" i
  else if 0 <? unitsReserved i then set_status "Reserved" i
  else set_status "Available" i.

(** The schema's validators on the modelled paths. *)
Definition validate (now : Date) (i : t) : bool :=
  negb (String.eqb (locationName i) "")
  && mongo_in (bloodType i) bloodTypes
  && (0 <=? unitsAvailable i) && (0 <=? unitsReserved i)
  && (0 <=? minimumThreshold i) && (1 <=? maxCapacity i)
  && (now <? expiryDate i) && (collectionDate i <=? now)
  && mongo_in (status i)
       ["Available"; "Low Stock"; "Out of Stock"; "Expired"; "Reserved"].

(** [BloodInventory.create]: validation, then the save middleware, then
    the insert; [None] is the thrown validation error. *)
Definition create (now : Date) (i : t) (inventory : list t) : option (list t) :=
  if validate now i then Some (inventory ++ [pre_save now i])%list else None.

(** The update document of [findByIdAndUpdate], path by path. *)
Record update := mkUpdate {
  set_unitsAvailable : option Z;
  set_unitsReserved : option Z;
  set_minimumThreshold : option Z;
  set_expiryDate : option Date;
  set_notes : option string
}.

Definition or_else {A : Type} (o : option A) (a : A) : A :=
  match o with Some v => v | None => a end.

Definition apply_update (u : update) (i : t) : t :=
  mk (_id i) (locationName i) (bloodType i)
     (or_else (set_unitsAvailable u) (unitsAvailable i))
     (or_else (set_unitsReserved u) (unitsReserved i))
     (or_else (set_minimumThreshold u) (minimumThreshold i))
     (maxCapacity i)
     (or_else (set_expiryDate u) (expiryDate i))
     (collectionDate i) (status i)
     (or_else (set_notes u) (notes i)).

Definition holds {A : Type} (p : A -> bool) (o : option A) : bool :=
  match o with Some v => p v | None => true end.

(** [runValidators: true] runs the validators of the paths being set. *)
Definition validate_update (now : Date) (u : update) : bool :=
  holds (Z.leb 0) (set_unitsAvailable u)
  && holds (Z.leb 0) (set_unitsReserved u)
  && holds (Z.leb 0) (set_minimumThreshold u)
  && holds (Z.ltb now) (set_expiryDate u).

(** [findByIdAndUpdate(id, update, { new: true, runValidators: true })]:
    an update query, on which save middleware does not run. *)
Definition findByIdAndUpdate (now : Date) (id : ObjectId) (u : update)
           (inventory : list t) : option (list t) :=
  if validate_update now u
  then Some (map (fun i => if String.eqb (_id i) id
                           then apply_update u i else i) inventory)
  else None.
End BloodInventory.

(** ** The world the controllers run in *)

Module Email.
(** The mail options handed to the transporter (the HTML body is a
    template of the same data and is left out). *)
Record t := mk {
  to : string;
  subject : string
}.
End Email.

Module Certificate.
Record DonationDetails := mkDetails {
  donationDate : Date;
  bloodType : string;
  volumeDonated : Z;
  donationCenter : Donation.DonationCenter
}.

(** The object serialised into [qrCode.data]. *)
Record QrData := mkQr {
  qr_certificateId : string;
  qr_verificationCode : string;
  qr_verificationUrl : string;
  qr_donorName : option string;
  qr_donationDate : Date;
  qr_bloodType : string
}.

Record t := mk {
  _id : ObjectId;
  certificateId : string;
  donor : ObjectId;           (* ref User *)
  donation : ObjectId;        (* ref Donation *)
  title : string;
  description : string;
  donationDetails : DonationDetails;
  qrCode : option QrData;
  verificationCode : string;  (* verificationDetails.verificationCode *)
  status : string;
  generatedAt : Date
}.

(** A certificate after [.populate('donor', ...).populate('donation', ...)]. *)
Record populated := mkPopulated {
  doc : t;
  populated_donor : option User.t;
  populated_donation : option Donation.t
}.

Definition populate (users : list User.t) (donations : list Donation.t)
           (c : t) : populated :=
  mkPopulated c (User.findById users (donor c))
              (Donation.findById donations (donation c)).

Definition set_qrCode (q : QrData) (c : t) : t :=
  mk (_id c) (certificateId c) (donor c) (donation c) (title c)
     (description c) (donationDetails c) (Some q) (verificationCode c)
     (status c) (generatedAt c).

(** [Certificate.findOne({ donation: id })]. *)
Definition findOneByDonation (certificates : list t) (id : ObjectId)
  : option t :=
  find (fun c => String.eqb (donation c) id) certificates.

(** Static [verifyCertificate]: the filter names both the code and the
    status ['issued']. *)
Definition verifyCertificate (users : list User.t)
           (donations : list Donation.t) (certificates : list t)
           (verificationCode' : string) : option populated :=
  option_map (populate users donations)
    (find (fun c => String.eqb (verificationCode c) verificationCode'
                    && String.eqb (status c) "issued") certificates).

(** Virtual [fullVerificationUrl]. *)
Definition fullVerificationUrl (frontendUrl : option string) (c : t) : string :=
  ((if truthy frontendUrl
    then match frontendUrl with Some u => u | None => "" end
    else "http://localhost:5173") ++ "/verify/" ++ verificationCode c)%string.

(** [generateQRCode], before its [save]; [donorName] is
    [this.donor.fullName], undefined while [donor] is an unpopulated id. *)
Definition generateQRCode (frontendUrl : option string)
           (donorName : option string) (c : t) : t :=
  set_qrCode (mkQr (certificateId c) (verificationCode c)
                   (fullVerificationUrl frontendUrl c) donorName
                   (donationDate (donationDetails c))
                   (bloodType (donationDetails c))) c.

Definition save (c : t) (certificates : list t) : list t :=
  map (fun c' => if String.eqb (_id c') (_id c) then c else c') certificates.

(** The three unique indexes of the collection. *)
Definition violates_unique (c : t) (certificates : list t) : bool :=
  existsb (fun c' => String.eqb (certificateId c') (certificateId c)
                     || String.eqb (verificationCode c') (verificationCode c)
                     || String.eqb (donation c') (donation c)) certificates.

(** What [Certificate.create] is given. *)
Record input := mkInput {
  in_certificateId : option string;
  in_donor : ObjectId;
  in_donation : ObjectId;
  in_title : string;
  in_description : string;
  in_donationDetails : DonationDetails;
  in_verificationCode : option string
}.

(** The [pre('save')] middleware on a new document: an identifier that
    was not provided is generated from [Date.now()] and [Math.random()];
    [random5] and [random8] are the two random suffixes drawn. *)
Definition pre_save_certificateId (now : Date) (random5 : string)
           (i : input) : string :=
  if truthy (in_certificateId i)
  then match in_certificateId i with Some v => v | None => "" end
  else ("CERT-" ++ toString10 now ++ "-" ++ random5)%string.

Definition pre_save_verificationCode (now : Date) (random8 : string)
           (i : input) : string :=
  if truthy (in_verificationCode i)
  then match in_verificationCode i with Some v => v | None => "" end
  else (toString36 now ++ random8)%string.

(** The [required] validators of the schema on the modelled paths: a
    required string must be given and not empty. *)
Definition validate (i : input) : bool :=
  truthy (in_certificateId i)
  && negb (String.eqb (in_title i) "")
  && negb (String.eqb (in_description i) "")
  && negb (String.eqb (bloodType (in_donationDetails i)) "")
  && truthy (in_verificationCode i).

(** [Certificate.create]: schema defaults, validation, the schema's
    [pre('save')] middleware, then the insert, which the unique indexes
    may refuse.  Validation is the first thing [save] does, before the
    middleware the schema adds; [None] is the thrown error. *)
Definition create (now : Date) (newId : ObjectId) (random5 random8 : string)
           (i : input) (certificates : list t) : option (t * list t) :=
  if validate i
  then
    let c := mk newId (pre_save_certificateId now random5 i) (in_donor i)
                (in_donation i) (in_title i) (in_description i)
                (in_donationDetails i) None
                (pre_save_verificationCode now random8 i) "issued" now in
    if violates_unique c certificates then None
    else Some (c, (certificates ++ [c])%list)
  else None.
End Certificate.

Record World := mkWorld {
  users : list User.t;
  donors : list Donor.t;
  requests : list BloodRequest.t;
  donations : list Donation.t;
  certificates : list Certificate.t;
  console : list string;      (* console.log / console.error calls, each by
                                 its leading string argument *)
  outbox : list Email.t       (* messages handed to the mail transporter *)
}.

Definition with_donors (ds : list Donor.t) (w : World) : World :=
  mkWorld (users w) ds (requests w) (donations w) (certificates w)
          (console w) (outbox w).

Definition with_requests (rs : list BloodRequest.t) (w : World) : World :=
  mkWorld (users w) (donors w) rs (donations w) (certificates w)
          (console w) (outbox w).

Definition with_donations (ds : list Donation.t) (w : World) : World :=
  mkWorld (users w) (donors w) (requests w) ds (certificates w)
          (console w) (outbox w).

Definition with_certificates (cs : list Certificate.t) (w : World) : World :=
  mkWorld (users w) (donors w) (requests w) (donations w) cs
          (console w) (outbox w).

Definition log (line : string) (w : World) : World :=
  mkWorld (users w) (donors w) (requests w) (donations w) (certificates w)
          (console w ++ [line])%list (outbox w).

Definition hand_over (m : Email.t) (w : World) : World :=
  mkWorld (users w) (donors w) (requests w) (donations w) (certificates w)
          (console w) (outbox w ++ [m])%list.

(** ** utils/emailService.js

    Whether the transporter's [sendMail] resolves is outside the program
    and is the parameter [transport].  An [async] function's outcome is
    [true] when its promise resolves and [false] when it rejects. *)

Module emailService.
Section Transport.
Variable transport : Email.t -> bool.

Definition sendEmail (m : Email.t) (w : World) : bool * World :=
  let w1 := hand_over m (log "📧 Attempting to send email to:" w) in
  if transport m
  then (true, log "✅ Email sent successfully:" w1)
  else (false,
        log "Error details:"
          (log "Error code:" (log "❌ Email sending failed:" w1))).

(** Building the message reads [donor.user.fullName], which throws when
    the populated [user] is [null]. *)
Definition sendDonorNotification (donor : Donor.populated)
           (bloodRequest : BloodRequest.t) (w : World) : bool * World :=
  match Donor.populated_user donor with
  | None => (false, w)
  | Some u =>
      sendEmail (Email.mk (User.email u)
                   ("🚨 Urgent: " ++ BloodRequest.bloodType bloodRequest
                                  ++ " Blood Donation Needed")) w
  end.

Definition sendRequestConfirmation (requester : User.t)
           (bloodRequest : BloodRequest.t) (w : World) : bool * World :=
  sendEmail (Email.mk (User.email requester)
               "Blood Donation Request Confirmation") w.

Definition sendCertificateEmail (donor : User.t)
           (certificate : Certificate.t) (w : World) : bool * World :=
  sendEmail (Email.mk (User.email donor)
               "🏆 Your Blood Donation Certificate is Ready!") w.
End Transport.
End emailService.

(** ** Responses *)

Record VerificationData := mkVerification {
  isValid : bool;
  v_certificateId : string;
  donorName : string;
  v_donationDate : Date;
  v_bloodType : string;
  v_volumeDonated : Z;
  v_donationCenter : string;
  issuedDate : Date;
  v_status : string
}.

(** The JSON body next to [success]: [error.message] of a failure, or
    [message] and [data] of a success. *)
Inductive Payload :=
| Failure (message : string)
| FailureNextEligible (message : string) (nextEligibleDate : Date)
| NearbyDonors (donors : list Donor.populated) (searchRadius : Z)
               (bloodType : string)
| NearbyRequests (requests : list BloodRequest.populated) (searchRadius : Z)
                 (bloodType : string)
| RequestCreated (message : string) (bloodRequest : BloodRequest.populated)
| AvailabilityUpdated (message : string) (isAvailable : bool)
                      (nextEligibleDate : Date)
| DonorUpdated (message : string) (donor : Donor.populated)
| DonationCompleted (message : string) (donation : Donation.populated)
| CertificateGenerated (message : string) (certificate : Certificate.t)
| Verified (message : string) (verification : VerificationData).

Record Response := mkResponse {
  statusCode : Z;
  success : bool;
  payload : Payload
}.

Definition failure (code : Z) (message : string) : Response :=
  mkResponse code false (Failure message).

(** [req.query] of the nearby searches, with numeric strings parsed. *)
Record NearbyQuery := mkNearbyQuery {
  latitude : option Q;
  longitude : option Q;
  maxDistance : option Z;
  q_bloodType : option string
}.

(** [b || 'all']. *)
Definition or_all (b : option string) : string :=
  if truthy b then match b with Some v => v | None => "all" end else "all".

(** ** controllers/donorController.js

    A handler takes the time [now] at which it runs, the authenticated
    [req.user] where the route is protected, the parsed request and the
    world, and gives the response and the world it leaves.  An exception
    that reaches the handler's outer [catch] is its status-500 branch. *)

Module donorController.
(** The paths of [allowedUpdates] that the donor model above carries. *)
Record DonorUpdate := mkDonorUpdate {
  upd_age : option Z;
  upd_weight : option Z;
  upd_lastDonationDate : option (option Date);
  upd_isAvailable : option bool;
  upd_location : option Coordinates
}.

(** [Object.assign(donor, updates)]. *)
Definition assign (u : DonorUpdate) (d : Donor.t) : Donor.t :=
  Donor.mk (Donor._id d) (Donor.user d) (Donor.bloodType d)
    (match upd_age u with Some v => v | None => Donor.age d end)
    (match upd_weight u with Some v => v | None => Donor.weight d end)
    (match upd_lastDonationDate u with
     | Some v => v | None => Donor.lastDonationDate d end)
    (match upd_isAvailable u with Some v => v | None => Donor.isAvailable d end)
    (match upd_location u with Some v => v | None => Donor.location d end)
    (Donor.isVerified d) (Donor.donationCount d) (Donor.totalVolumeDonated d).

(** The donor schema's validators on the paths being modified. *)
Definition validate (u : DonorUpdate) : bool :=
  match upd_age u with Some a => (18 <=? a) && (a <=? 65) | None => true end
  && match upd_weight u with Some k => 50 <=? k | None => true end.

Section Handlers.
Variable distance : Coordinates -> Coordinates -> Q.

Definition getNearbyDonors (q : NearbyQuery) (w : World) : Response :=
  match latitude q, longitude q with
  | Some lat, Some lng =>
      let radius := match maxDistance q with Some m => m | None => 50000 end in
      mkResponse 200 true
        (NearbyDonors
           (Donor.findNearby distance (users w) (donors w) (lng, lat) radius
                             (q_bloodType q))
           radius (or_all (q_bloodType q)))
  | _, _ => failure 400 "Latitude and longitude are required"
  end.
End Handlers.

Definition updateDonor (req_user : User.t) (body : DonorUpdate) (w : World)
  : Response * World :=
  match Donor.findOneByUser (donors w) (User._id req_user) with
  | None => (failure 404 "Donor profile not found", w)
  | Some donor =>
      let donor' := assign body donor in
      if validate body
      then (mkResponse 200 true
              (DonorUpdated "Donor profile updated successfully"
                            (Donor.populate (users w) donor')),
            with_donors (Donor.save donor' (donors w)) w)
      else (failure 500 "Server error while updating donor profile",
            log "Update donor error:" w)
  end.

Section Availability.
Variable LocalTZA : Z -> bool -> Z.

Definition updateDonorAvailability (now : Date) (req_user : User.t)
           (isAvailable : bool) (w : World) : Response * World :=
  match Donor.findOneByUser (donors w) (User._id req_user) with
  | None => (failure 404 "Donor profile not found", w)
  | Some donor =>
      if isAvailable && negb (Donor.isEligibleToDonate LocalTZA now donor)
      then (mkResponse 400 false
              (FailureNextEligible
                 "Cannot set as available. Must wait 8 weeks from last donation."
                 (Donor.nextEligibleDonationDate LocalTZA now donor)),
            w)
      else
        let donor' := Donor.set_isAvailable isAvailable donor in
        (mkResponse 200 true
           (AvailabilityUpdated
              ("Availability updated to "
                 ++ (if isAvailable then "available" else "unavailable"))
              (Donor.isAvailable donor')
              (Donor.nextEligibleDonationDate LocalTZA now donor')),
         with_donors (Donor.save donor' (donors w)) w)
  end.
End Availability.
End donorController.

(** ** controllers/requestController.js *)

Module requestController.
(** [req.body] of a creation, as the request form fills it. *)
Record RequestBody := mkRequestBody {
  b_patientName : string;
  b_bloodType : string;
  b_unitsNeeded : Z;
  b_urgency : option string;
  b_requiredBy : Date;
  b_location : Coordinates
}.

(** The document [BloodRequest.create] builds from
    [{ requester: req.user.id, ...req.body }], the schema's setters
    ([trim] on [patientName]) and the schema defaults. *)
Definition new_request (newId : ObjectId) (req_user : User.t)
           (body : RequestBody) : BloodRequest.t :=
  BloodRequest.mk newId (User._id req_user) (trim (b_patientName body))
    (b_bloodType body) (b_unitsNeeded body)
    (match b_urgency body with Some u => u | None => "medium" end)
    (b_requiredBy body) (b_location body) "active" 0.

Section Handlers.
Variable distance : Coordinates -> Coordinates -> Q.
Variable transport : Email.t -> bool.

(** One element of [notificationPromises]:
    [sendDonorNotification(donor, bloodRequest).catch(error =>
       console.error(`Failed to notify donor ${donor.user.email}:`, error))].
    With a [null] populated user the callback throws in its turn; the
    promise then stays rejected and [Promise.allSettled] absorbs it. *)
Definition notify (bloodRequest : BloodRequest.t) (donor : Donor.populated)
           (w : World) : World :=
  let (sent, w1) :=
    emailService.sendDonorNotification transport donor bloodRequest w in
  if sent then w1
  else match Donor.populated_user donor with
       | Some u => log ("Failed to notify donor " ++ User.email u ++ ":") w1
       | None => w1
       end.

(** [donors.slice(0, 20).map(...)] followed by [Promise.allSettled].
    Each send reaches [transporter.sendMail] before it first suspends, so
    the messages are handed over in list order.  The console lines of the
    concurrent sends may interleave otherwise than they are written here
    (one send after the other): what is stated of the console below is
    stated up to the order of its lines. *)
Definition notifyDonors (bloodRequest : BloodRequest.t)
           (nearby : list Donor.populated) (w : World) : World :=
  fold_left (fun w' donor => notify bloodRequest donor w')
            (firstn 20 nearby) w.

Definition createBloodRequest (now : Date) (newId : ObjectId)
           (req_user : User.t) (body : RequestBody) (w : World)
  : Response * World :=
  let bloodRequest := new_request newId req_user body in
  if BloodRequest.validate now bloodRequest
  then
    let w1 := with_requests (requests w ++ [bloodRequest])%list w in
    let populated := BloodRequest.populate (users w1) bloodRequest in
    (* confirmation email to the requester *)
    let (confirmed, w2) :=
      emailService.sendRequestConfirmation transport req_user bloodRequest w1 in
    let w3 := if confirmed then w2
              else log "Failed to send confirmation email:" w2 in
    (* nearby compatible donors *)
    let nearby :=
      Donor.findNearby distance (users w3) (donors w3)
        (BloodRequest.location bloodRequest) 50000
        (Some (BloodRequest.bloodType bloodRequest)) in
    let w4 := notifyDonors bloodRequest nearby w3 in
    (mkResponse 201 true
       (RequestCreated "Blood request created successfully" populated),
     w4)
  else (failure 500 "Server error while creating blood request",
        log "Create blood request error:" w).

Definition getNearbyRequests (now : Date) (q : NearbyQuery)
           (w : World) : Response :=
  match latitude q, longitude q with
  | Some lat, Some lng =>
      let radius := match maxDistance q with
                    | Some m => m | None => 50000 end in
      mkResponse 200 true
        (NearbyRequests
           (BloodRequest.findNearby distance now (users w) (requests w)
              (lng, lat) radius (q_bloodType q))
           radius (or_all (q_bloodType q)))
  | _, _ => failure 400 "Latitude and longitude are required"
  end.
End Handlers.
End requestController.

(** ** controllers/donationController.js *)

Module donationController.

Section Completion.
Variable LocalTZA : Z -> bool -> Z.

Definition completeDonation (now : Date) (id : ObjectId) (w : World)
  : Response * World :=
  match Donation.findById (donations w) id with
  | None => (failure 404 "Donation not found", w)
  | Some found =>
      let donation := Donation.populate (donors w) (requests w) found in
      if String.eqb (Donation.status found) "completed"
      then (failure 400 "Donation is already completed", w)
      else
        (* donation.status = 'completed'; await donation.save() *)
        let completed := Donation.set_status "completed" found in
        let w1 := with_donations (Donation.save completed (donations w)) w in
        let crash := (failure 500 "Server error while completing donation",
                      log "Complete donation error:" w1) in
        match Donation.populated_donor donation with
        | None => crash
        | Some donor =>
            let donor1 :=
              Donor.mk (Donor._id donor) (Donor.user donor)
                (Donor.bloodType donor) (Donor.age donor) (Donor.weight donor)
                (Some (Donation.donationDate found))
                (Donor.isAvailable donor) (Donor.location donor)
                (Donor.isVerified donor) (Donor.donationCount donor + 1)
                (Donor.totalVolumeDonated donor + Donation.volumeDonated found) in
            let donor2 := Donor.updateAvailability LocalTZA now donor1 in
            let w2 := with_donors (Donor.save donor2 (donors w1)) w1 in
            match Donation.populated_bloodRequest donation with
            | None => (fst crash, log "Complete donation error:" w2)
            | Some bloodRequest =>
                let request1 :=
                  BloodRequest.set_unitsFulfilled
                    (BloodRequest.unitsFulfilled bloodRequest + 1) bloodRequest in
                (* await bloodRequest.updateStatus() *)
                match BloodRequest.updateStatus now request1 (requests w2) with
                | None => (fst crash, log "Complete donation error:" w2)
                | Some (request2, stored) =>
                    (mkResponse 200 true
                       (DonationCompleted "Donation completed successfully"
                          (Donation.mkPopulated completed (Some donor2)
                                                (Some request2))),
                     with_requests stored w2)
                end
            end
        end
  end.
End Completion.

Section Handlers.
Variable transport : Email.t -> bool.

Definition generateCertificate (now : Date) (newId : ObjectId)
           (random5 random8 : string) (frontendUrl : option string)
           (req_user : User.t) (id : ObjectId) (w : World)
  : Response * World :=
  let crash := (failure 500 "Server error while generating certificate",
                log "Generate certificate error:" w) in
  match Donation.findById (donations w) id with
  | None => (failure 404 "Donation not found", w)
  | Some donation =>
      match Donation.populated_donor
              (Donation.populate (donors w) (requests w) donation) with
      | None => crash
      | Some donor =>
          if negb (String.eqb (Donor.user donor) (User._id req_user))
          then (failure 403
                  "Not authorized to generate certificate for this donation", w)
          else if negb (String.eqb (Donation.status donation) "completed")
                  || negb (String.eqb (Donation.overallResult donation) "safe")
          then (failure 400
                  "Certificate can only be generated for completed and safe donations",
                w)
          else
            match Certificate.findOneByDonation (certificates w)
                    (Donation._id donation) with
            | Some _ =>
                (failure 400 "Certificate already exists for this donation", w)
            | None =>
                let details :=
                  Certificate.mkDetails (Donation.donationDate donation)
                    (Donation.bloodType donation)
                    (Donation.volumeDonated donation)
                    (Donation.donationCenter donation) in
                let input :=
                  Certificate.mkInput None (User._id req_user)
                    (Donation._id donation) "Blood Donation Certificate"
                    ("This certificate is awarded to " ++ User.fullName req_user
                       ++ " for their generous blood donation.")
                    details None in
                match Certificate.create now newId random5 random8 input
                        (certificates w) with
                | None => crash
                | Some (created, stored) =>
                    let certificate :=
                      Certificate.generateQRCode frontendUrl None created in
                    let w1 :=
                      with_certificates (Certificate.save certificate stored) w in
                    let donation' :=
                      Donation.set_certification
                        (Donation.mkCertification true
                           (Some (Certificate.certificateId certificate))
                           (Some now)) donation in
                    let w2 :=
                      with_donations (Donation.save donation' (donations w1)) w1 in
                    let (sent, w3) :=
                      emailService.sendCertificateEmail transport req_user
                        certificate w2 in
                    let w4 :=
                      if sent
                      then log "ðŸ“§ Certificate email sent successfully to:" w3
                      else log "âŒ Failed to send certificate email:" w3 in
                    (mkResponse 201 true
                       (CertificateGenerated
                          "Certificate generated successfully and email sent"
                          certificate),
                     w4)
                end
            end
      end
  end.
End Handlers.
End donationController.

(** ** controllers/certificateController.js *)

Module certificateController.

Definition verifyCertificate (verificationCode : string) (w : World)
  : Response * World :=
  match Certificate.verifyCertificate (users w) (donations w) (certificates w)
          verificationCode with
  | None =>
      (failure 404 "Certificate not found or invalid verification code", w)
  | Some certificate =>
      let c := Certificate.doc certificate in
      match Certificate.populated_donor certificate with
      | None =>
          (* certificate.donor.fullName on a null donor *)
          (failure 500 "Server error during certificate verification",
           log "Verify certificate error:" w)
      | Some donor =>
          (mkResponse 200 true
             (Verified "Certificate verified successfully"
                (mkVerification true
                   (Certificate.certificateId c)
                   (User.fullName donor)
                   (Certificate.donationDate (Certificate.donationDetails c))
                   (Certificate.bloodType (Certificate.donationDetails c))
                   (Certificate.volumeDonated (Certificate.donationDetails c))
                   (Donation.name
                      (Certificate.donationCenter (Certificate.donationDetails c)))
                   (Certificate.generatedAt c)
                   (Certificate.status c))),
           w)
      end
  end.
End certificateController.

(** ** The specification's compatibility table

    Row by row as the specification prints it, to be compared with the
    table in the code. *)

Definition spec_compatibility_row (donorType : string) : list string :=
  if String.eqb donorType "O-"
  then ["O-"; "O+"; "A-"; "A+"; "B-"; "B+"; "AB-"; "AB+"]
  else if String.eqb donorType "O+" then ["O+"; "A+"; "B+"; "AB+"]
  else if String.eqb donorType "A-" then ["A-"; "A+"; "AB-"; "AB+"]
  else if String.eqb donorType "A+" then ["A+"; "AB+"]
  else if String.eqb donorType "B-" then ["B-"; "B+"; "AB-"; "AB+"]
  else if String.eqb donorType "B+" then ["B+"; "AB+"]
  else if String.eqb donorType "AB-" then ["AB-"; "AB+"]
  else if String.eqb donorType "AB+" then ["AB+"]
  else [].

(** The specification's urgency ranking, [critical > high > medium > low]. *)
Definition spec_urgency_rank (urgency : string) : Z :=
  if String.eqb urgency "critical" then 3
  else if String.eqb urgency "high" then 2
  else if String.eqb urgency "medium" then 1
  else 0.

(** A list is in the specification's order when every element is followed
    only by elements of lower urgency, or of equal urgency and a deadline
    that is not earlier. *)
Definition spec_before (a b : BloodRequest.t) : Prop :=
  spec_urgency_rank (BloodRequest.urgency b)
    < spec_urgency_rank (BloodRequest.urgency a)
  \/ (spec_urgency_rank (BloodRequest.urgency a)
        = spec_urgency_rank (BloodRequest.urgency b)
      /\ BloodRequest.requiredBy a <= BloodRequest.requiredBy b).

(** The order the code's sort key gives. *)
Definition code_before (a b : BloodRequest.t) : Prop :=
  BloodRequest.sort_order a b = true.

(** ** Sample data

    A small world on which the statements below are evaluated. *)

(** A stand-in for the index's geodesic distance: about 111 km per degree
    along each axis. *)
Definition grid_metres (a b : Coordinates) : Q :=
  (111000 * (Qabs (fst a - fst b) + Qabs (snd a - snd b)))%Q.

Definition sample_now : Date := 1700000000000.

(** A host on UTC, and a host with the clock changes of New York between
    March 2023 and November 2024: five hours behind UTC, four in summer.
    A local time that a change skips or repeats is read with the offset
    before the change. *)
Definition utc (t : Z) (isUTC : bool) : Z := 0.

Definition msPerHour : Z := 60 * 60 * 1000.

Definition new_york_changes : list Date :=
  [1678604400000; 1699164000000; 1710054000000; 1730613600000].

Definition new_york (t : Z) (isUTC : bool) : Z :=
  let est := -5 * msPerHour in
  let edt := -4 * msPerHour in
  let passed (change : Date) :=
    if isUTC then change <=? t else change + edt <=? t in
  if Nat.even (List.length (filter passed new_york_changes)) then est else edt.

Definition delhi : Coordinates := ((7721 # 100)%Q, (2857 # 100)%Q).
Definition noida : Coordinates := ((7725 # 100)%Q, (2860 # 100)%Q).
Definition agra : Coordinates := ((7801 # 100)%Q, (2717 # 100)%Q).

Definition asha : User.t := User.mk "u1" "Asha Rao" "asha@example.com" "user".
Definition ravi : User.t := User.mk "u2" "Ravi Nair" "ravi@example.com" "user".
Definition meera : User.t := User.mk "u3" "Meera Das" "meera@example.com" "user".
Definition sample_users : list User.t := [asha; ravi; meera].

Definition donor_ravi : Donor.t :=
  Donor.mk "d1" "u2" "O-" 30 70 None true delhi true 0 0.

Definition donor_meera : Donor.t :=
  Donor.mk "d2" "u3" "A+" 41 62 (Some (sample_now - 1 * msPerDay)) false
           noida true 3 1350.

Definition sample_donors : list Donor.t := [donor_ravi; donor_meera].

(** An available donor who gave on 15 October 2023. *)
Definition donor_october : Donor.t :=
  Donor.mk "d3" "u1" "B+" 28 65 (Some (sample_now - 30 * msPerDay)) true
           delhi true 1 450.

Definition request_critical : BloodRequest.t :=
  BloodRequest.mk "r1" "u1" "Patient One" "A+" 2 "critical"
    (sample_now + 1 * msPerDay) noida "active" 0.

Definition request_medium : BloodRequest.t :=
  BloodRequest.mk "r2" "u1" "Patient Two" "AB-" 1 "medium"
    (sample_now + 2 * msPerDay) delhi "partially_fulfilled" 0.

Definition request_far : BloodRequest.t :=
  BloodRequest.mk "r3" "u1" "Patient Three" "B+" 1 "high"
    (sample_now + 3 * msPerDay) agra "active" 0.

Definition request_closed : BloodRequest.t :=
  BloodRequest.mk "r4" "u1" "Patient Four" "O-" 1 "high"
    (sample_now + 3 * msPerDay) delhi "fulfilled" 1.

Definition sample_requests : list BloodRequest.t :=
  [request_critical; request_medium; request_far; request_closed].

Definition stock_free : BloodInventory.t :=
  BloodInventory.mk "i1" "City Blood Bank" "O+" 10 0 5 40
    (sample_now + 20 * msPerDay) (sample_now - 2 * msPerDay) "Available" "".

Definition stock_held : BloodInventory.t :=
  BloodInventory.mk "i2" "General Hospital" "B-" 10 3 5 25
    (sample_now + 20 * msPerDay) (sample_now - 9 * msPerDay) "Low Stock"
    "three units held for surgery".

Definition stock_held_elsewhere : BloodInventory.t :=
  BloodInventory.mk "i3" "Mobile Unit 4" "AB+" 10 3 5 12
    (sample_now + 20 * msPerDay) (sample_now - 1 * msPerDay) "Out of Stock" "".

(** A donation made today and one made sixty days ago, both still
    scheduled. *)
Definition sample_center : Donation.DonationCenter :=
  Donation.mkCenter "City Blood Bank" "New Delhi" "Delhi".

Definition no_certification : Donation.Certification :=
  Donation.mkCertification false None None.

Definition donation_today : Donation.t :=
  Donation.mk "n1" "d1" "r1" sample_now 450 "O-" sample_center
    "scheduled" "pending" no_certification.

Definition donation_old : Donation.t :=
  Donation.mk "n2" "d1" "r2" (sample_now - 60 * msPerDay) 450 "O-"
    sample_center "scheduled" "pending" no_certification.

Definition donation_safe : Donation.t :=
  Donation.mk "n3" "d1" "r1" (sample_now - 3 * msPerDay) 450 "O-"
    sample_center "completed" "safe" no_certification.

Definition sample_donations : list Donation.t :=
  [donation_today; donation_old; donation_safe].

(** A donation of 1 February 2024, noon UTC, for a request of that
    spring, and a moment half an hour short of 56 times 24 hours
    later. *)
Definition donation_february : Donation.t :=
  Donation.mk "n4" "d1" "r5" 1706788800000 450 "O-" sample_center
    "scheduled" "pending" no_certification.

Definition february_now : Date :=
  1706788800000 + 56 * msPerDay - 30 * 60 * 1000.

Definition request_spring : BloodRequest.t :=
  BloodRequest.mk "r5" "u1" "Patient Six" "O-" 2 "high"
    (1706788800000 + 90 * msPerDay) delhi "active" 0.

Definition sample_world : World :=
  mkWorld sample_users sample_donors sample_requests sample_donations [] [] [].

Definition february_world : World :=
  mkWorld sample_users sample_donors [request_spring] [donation_february]
          [] [] [].

(** A profile update that only switches availability on. *)
Definition switch_on : donorController.DonorUpdate :=
  donorController.mkDonorUpdate None None None (Some true) None.

(** A mail transporter that always fails, and one that always delivers. *)
Definition transport_down (m : Email.t) : bool := false.
Definition transport_up (m : Email.t) : bool := true.

Definition certificate_issued : Certificate.t :=
  Certificate.mk "c1" "CERT-1699000000000-K3F9Q" "u2" "n3"
    "Blood Donation Certificate"
    "This certificate is awarded to Ravi Nair for their generous blood donation."
    (Certificate.mkDetails (sample_now - 3 * msPerDay) "O-" 450 sample_center)
    None "LOJ2F5A89XK2M4PQ" "issued" (sample_now - 2 * msPerDay).

Definition certificate_revoked : Certificate.t :=
  Certificate.mk "c2" "CERT-1698000000000-Z81MD" "u3" "n9"
    "Blood Donation Certificate"
    "This certificate is awarded to Meera Das for their generous blood donation."
    (Certificate.mkDetails (sample_now - 30 * msPerDay) "A+" 450 sample_center)
    None "LO2J9QW4T7YB1C6D" "revoked" (sample_now - 29 * msPerDay).

Definition world_with_certificates : World :=
  with_certificates [certificate_issued; certificate_revoked] sample_world.

(** ** Integrity of the certificate collection

    The unique index on [verificationDetails.verificationCode]. *)

Definition unique_codes (w : World) : Prop :=
  NoDup (map Certificate.verificationCode (certificates w)).

(** The reduced view the verification endpoint gives of a certificate. *)
Definition public_view (c : Certificate.t) (donor : User.t) : VerificationData :=
  mkVerification true (Certificate.certificateId c) (User.fullName donor)
    (Certificate.donationDate (Certificate.donationDetails c))
    (Certificate.bloodType (Certificate.donationDetails c))
    (Certificate.volumeDonated (Certificate.donationDetails c))
    (Donation.name (Certificate.donationCenter (Certificate.donationDetails c)))
    (Certificate.generatedAt c) (Certificate.status c).

Definition not_found : Response :=
  failure 404 "Certificate not found or invalid verification code".

Definition server_error : Response :=
  failure 500 "Server error during certificate verification".

(** ** The notification fan-out, as a list of messages *)

Definition donor_notification (bloodRequest : BloodRequest.t) (u : User.t)
  : Email.t :=
  Email.mk (User.email u)
    ("🚨 Urgent: " ++ BloodRequest.bloodType bloodRequest
                   ++ " Blood Donation Needed").

Definition request_confirmation (requester : User.t) : Email.t :=
  Email.mk (User.email requester) "Blood Donation Request Confirmation".

(** The console calls of one [sendEmail]. *)
Definition sendEmail_log (transport : Email.t -> bool) (m : Email.t)
  : list string :=
  "📧 Attempting to send email to:"
  :: (if transport m then ["✅ Email sent successfully:"]
      else ["❌ Email sending failed:"; "Error code:"; "Error details:"]).

(** The console calls around the confirmation, and around the
    notification of one donor; the latter has none for a donor whose
    user is [null]. *)
Definition confirmation_log (transport : Email.t -> bool) (requester : User.t)
  : list string :=
  (sendEmail_log transport (request_confirmation requester)
   ++ (if transport (request_confirmation requester) then []
       else ["Failed to send confirmation email:"]))%list.

Definition notification_log (transport : Email.t -> bool)
           (bloodRequest : BloodRequest.t) (d : Donor.populated)
  : list string :=
  match Donor.populated_user d with
  | Some u =>
      (sendEmail_log transport (donor_notification bloodRequest u)
       ++ (if transport (donor_notification bloodRequest u) then []
           else [("Failed to notify donor " ++ User.email u ++ ":")%string]))%list
  | None => []
  end.

(** The messages for the donors of a list whose user resolves, in order. *)
Definition notifications (bloodRequest : BloodRequest.t)
           (l : list Donor.populated) : list Email.t :=
  flat_map (fun d => match Donor.populated_user d with
                     | Some u => [donor_notification bloodRequest u]
                     | None => []
                     end) l.

Definition sample_body : requestController.RequestBody :=
  requestController.mkRequestBody "Patient Five" "O-" 2 (Some "high")
    (sample_now + 2 * msPerDay) noida.

(** Twenty-five available O- donors in Delhi, each with a user. *)
Definition crowd_user (n : nat) : User.t :=
  User.mk ("cu" ++ toString10 (Z.of_nat n)) "Crowd Donor"
          ("donor" ++ toString10 (Z.of_nat n) ++ "@example.com") "user".

Definition crowd_donor (n : nat) : Donor.t :=
  Donor.mk ("cd" ++ toString10 (Z.of_nat n)) ("cu" ++ toString10 (Z.of_nat n))
           "O-" 30 70 None true delhi true 0 0.

Definition crowd_world : World :=
  mkWorld (asha :: map crowd_user (seq 1 25)) (map crowd_donor (seq 1 25))
          [] [] [] [] [].

(** ** Further vocabulary for the statements below *)

(** The property names every object literal inherits from
    [Object.prototype]: indexing the compatibility table with one of
    them does not give [undefined]. *)
Definition object_prototype_keys : list string :=
  ["constructor"; "toString"; "toLocaleString"; "valueOf"; "hasOwnProperty";
   "isPrototypeOf"; "propertyIsEnumerable"; "__proto__"; "__defineGetter__";
   "__defineSetter__"; "__lookupGetter__"; "__lookupSetter__"].

(** [a] may give to [b], by the table of [getCompatibleBloodTypes]. *)
Definition gives (a b : string) : bool :=
  mongo_in b (BloodRequest.getCompatibleBloodTypes a).

(** ** Further handlers

    Their answers: a refusal with its status and [error.message], or a
    success with its status, [message] and [data]. *)

Inductive Reply (A : Type) : Type :=
| Refused (status : Z) (message : string)
| Accepted (status : Z) (message : string) (data : A).
Arguments Refused {A} status message.
Arguments Accepted {A} status message data.

Definition reply_status {A : Type} (r : Reply A) : Z :=
  match r with
  | Refused status _ => status
  | Accepted status _ _ => status
  end.

Definition with_users (us : list User.t) (w : World) : World :=
  mkWorld us (donors w) (requests w) (donations w) (certificates w)
          (console w) (outbox w).

(** [doc.deleteOne()]: the first stored document the filter matches
    goes. *)
Fixpoint deleteOne {A : Type} (matches : A -> bool) (l : list A) : list A :=
  match l with
  | [] => []
  | x :: l' => if matches x then l' else x :: deleteOne matches l'
  end.

(** *** controllers/userController.js *)

Definition deleteUser (req_user : User.t) (id : ObjectId) (w : World)
  : Reply unit * World :=
  match User.findById (users w) id with
  | None => (Refused 404 "User not found", w)
  | Some user =>
      if String.eqb (User.role user) "admin"
         && negb (String.eqb (User._id req_user) (User._id user))
      then (Refused 403 "Cannot delete another admin user", w)
      else (Accepted 200 "User deleted successfully" tt,
            with_users
              (deleteOne (fun u => String.eqb (User._id u) (User._id user))
                         (users w)) w)
  end.

(** *** controllers/requestController.js, the owner's operations *)




Definition deleteBloodRequest (req_user : User.t) (id : ObjectId) (w : World)
  : Reply unit * World :=
  match BloodRequest.findById (requests w) id with
  | None => (Refused 404 "Blood request not found", w)
  | Some bloodRequest =>
      if negb (String.eqb (BloodRequest.requester bloodRequest)
                          (User._id req_user))
      then (Refused 403 "Not authorized to delete this request", w)
      else (Accepted 200 "Blood request deleted successfully" tt,
            with_requests
              (deleteOne (fun r => String.eqb (BloodRequest._id r)
                                              (BloodRequest._id bloodRequest))
                         (requests w)) w)
  end.

(** *** controllers/donationController.js, the read operations *)

(** A donation populated as [getDonation] asks: the donor with its user,
    and the blood request. *)
Record DonationView := mkDonationView {
  view_doc : Donation.t;
  view_donor : Donor.populated;
  view_bloodRequest : BloodRequest.t
}.

(** Reading [donation.donor.user._id] throws on a [null] donor and on a
    [null] user, and [donation.bloodRequest.requester] on a [null]
    request; both are read before the three flags are combined. *)
Definition getDonation (req_user : User.t) (id : ObjectId) (w : World)
  : Reply DonationView * World :=
  let crash := (Refused 500 "Server error while fetching donation",
                log "Get donation error:" w) in
  match Donation.findById (donations w) id with
  | None => (Refused 404 "Donation not found", w)
  | Some donation =>
      match Donor.findById (donors w) (Donation.donor donation) with
      | None => crash
      | Some donor =>
          match User.findById (users w) (Donor.user donor) with
          | None => crash
          | Some owner =>
              match BloodRequest.findById (requests w)
                      (Donation.bloodRequest donation) with
              | None => crash
              | Some bloodRequest =>
                  let isOwner := String.eqb (User._id owner) (User._id req_user) in
                  let isRequester :=
                    String.eqb (BloodRequest.requester bloodRequest)
                               (User._id req_user) in
                  let isAdmin := String.eqb (User.role req_user) "admin" in
                  if negb isOwner && negb isRequester && negb isAdmin
                  then (Refused 403 "Not authorized to view this donation", w)
                  else (Accepted 200 ""
                          (mkDonationView donation
                             (Donor.mkPopulated donor (Some owner))
                             bloodRequest),
                        w)
              end
          end
      end
  end.

(** [parseInt(req.query.page) || 1]: [None] is an absent or non-numeric
    parameter. *)
Definition or_default (parsed : option Z) (default : Z) : Z :=
  match parsed with
  | Some n => if n =? 0 then default else n
  | None => default
  end.

(** [Math.ceil(total / limit)], exact on counts of documents. *)
Definition ceil_div (total limit : Z) : Z := - ((- total) / limit).

Record Pagination := mkPagination {
  currentPage : Z;
  totalPages : Z;
  totalCount : Z;
  hasNextPage : bool;
  hasPrevPage : bool
}.

(** [.skip(skip).limit(limit)] on a sorted result.  The database takes a
    negative limit by its absolute value (in one batch). *)
Definition skip_limit {A : Type} (skip limit : Z) (l : list A) : list A :=
  firstn (Z.to_nat (Z.abs limit)) (skipn (Z.to_nat skip) l).

(** [.sort({ donationDate: -1 })]. *)
Definition newest_first (a b : Donation.t) : bool :=
  Donation.donationDate b <=? Donation.donationDate a.

Definition donations_of (donor : Donor.t) (w : World) : list Donation.t :=
  sort_by newest_first
    (filter (fun d => String.eqb (Donation.donor d) (Donor._id donor))
            (donations w)).

(** A donation after [.populate('bloodRequest', ...)]. *)
Definition with_request (w : World) (d : Donation.t)
  : Donation.t * option BloodRequest.t :=
  (d, BloodRequest.findById (requests w) (Donation.bloodRequest d)).

(** A negative [skip] is refused by the database and reaches the
    handler's [catch]. *)
Definition getMyDonations (req_user : User.t) (page' limit' : option Z)
           (w : World)
  : Reply (list (Donation.t * option BloodRequest.t) * Pagination) * World :=
  let page := or_default page' 1 in
  let limit := or_default limit' 10 in
  let skip := (page - 1) * limit in
  match Donor.findOneByUser (donors w) (User._id req_user) with
  | None =>
      (Accepted 200 "" ([], mkPagination page 0 0 false false), w)
  | Some donor =>
      if skip <? 0
      then (Refused 500 "Server error while fetching your donations",
            log "Get my donations error:" w)
      else
        let all := donations_of donor w in
        let total := Z.of_nat (List.length all) in
        (Accepted 200 ""
           (map (with_request w) (skip_limit skip limit all),
            mkPagination page (ceil_div total limit) total
                         (page <? ceil_div total limit) (1 <? page)),
         w)
  end.

(** *** controllers/certificateController.js, sending the certificate *)

Definition certificate_findById (cs : list Certificate.t) (id : ObjectId)
  : option Certificate.t :=
  find (fun c => String.eqb (Certificate._id c) id) cs.

Section SendCertificate.
Variable transport : Email.t -> bool.

(** Here the send is awaited outside any inner [try]: a failed send
    reaches the handler's [catch]. *)
Definition sendCertificateEmailEndpoint (req_user : User.t) (id : ObjectId)
           (w : World) : Reply unit * World :=
  match certificate_findById (certificates w) id with
  | None => (Refused 404 "Certificate not found", w)
  | Some certificate =>
      match User.findById (users w) (Certificate.donor certificate) with
      | None =>
          (Refused 500 "Server error while sending certificate email",
           log "Send certificate email error:" w)
      | Some donor =>
          if negb (String.eqb (User._id donor) (User._id req_user))
             && negb (String.eqb (User.role req_user) "admin")
          then (Refused 403 "Not authorized to send this certificate", w)
          else
            let (sent, w1) :=
              emailService.sendCertificateEmail transport donor certificate w in
            if sent
            then (Accepted 200 "Certificate email sent successfully" tt, w1)
            else (Refused 500 "Server error while sending certificate email",
                  log "Send certificate email error:" w1)
      end
  end.
End SendCertificate.

(** *** models/BloodInventory.js, the schema default and a virtual *)

(** The [default] function of the [status] path, used when a document
    is built without a status. *)
Definition default_status (now : Date) (i : BloodInventory.t) : string :=
  if BloodInventory.unitsAvailable i =? 0 then "Out of Stock"
  else if BloodInventory.unitsAvailable i <=? BloodInventory.minimumThreshold i
  then "Low Stock"
  else if BloodInventory.expiryDate i <=? now then "Expired"
  else "Available".

(** Virtual [actualAvailable]. *)
Definition actualAvailable (i : BloodInventory.t) : Z :=
  Z.max 0 (BloodInventory.unitsAvailable i - BloodInventory.unitsReserved i).

(** *** Sample data for the further statements *)

Definition admin_user : User.t :=
  User.mk "u9" "Site Admin" "admin@example.com" "admin".

Definition second_admin : User.t :=
  User.mk "u8" "Second Admin" "admin2@example.com" "admin".

Definition world_with_admins : World :=
  with_users [asha; ravi; meera; admin_user; second_admin]
             world_with_certificates.

(** The world after the admin has deleted the user "u2": the donor
    profile and the certificate of that user stay behind. *)
Definition world_after_deletion : World :=
  snd (deleteUser admin_user "u2" world_with_admins).

(** *** What [completeDonation] writes *)

(** The donor and the request as [completeDonation] leaves them. *)
Definition credited (LocalTZA : Z -> bool -> Z) (now : Date)
           (donation : Donation.t) (donor : Donor.t) : Donor.t :=
  Donor.updateAvailability LocalTZA now
    (Donor.mk (Donor._id donor) (Donor.user donor) (Donor.bloodType donor)
       (Donor.age donor) (Donor.weight donor)
       (Some (Donation.donationDate donation)) (Donor.isAvailable donor)
       (Donor.location donor) (Donor.isVerified donor)
       (Donor.donationCount donor + 1)
       (Donor.totalVolumeDonated donor + Donation.volumeDonated donation)).

(** What [completeDonation] has written when it reaches the request. *)
Definition completeDonation_before_request (LocalTZA : Z -> bool -> Z)
           (now : Date) (w : World) (found : Donation.t) (donor : Donor.t)
  : World :=
  with_donors (Donor.save (credited LocalTZA now found donor) (donors w))
    (with_donations
       (Donation.save (Donation.set_status "completed" found) (donations w))
       w).

Definition advanced (now : Date) (r : BloodRequest.t) : BloodRequest.t :=
  BloodRequest.updateStatus_status now
    (BloodRequest.set_unitsFulfilled (BloodRequest.unitsFulfilled r + 1) r).

Definition inventory_findById (inventory : list BloodInventory.t)
           (id : ObjectId) : option BloodInventory.t :=
  find (fun i => String.eqb (BloodInventory._id i) id) inventory.

(** An update that only sets the units available to zero. *)
Definition sell_out : BloodInventory.update :=
  BloodInventory.mkUpdate (Some 0) None None None None.


(** *** controllers/donorController.js, deleting the own profile *)

Definition deleteDonor (req_user : User.t) (w : World) : Reply unit * World :=
  match Donor.findOneByUser (donors w) (User._id req_user) with
  | None => (Refused 404 "Donor profile not found", w)
  | Some donor =>
      (Accepted 200 "Donor profile deleted successfully" tt,
       with_donors
         (deleteOne (fun d => String.eqb (Donor._id d) (Donor._id donor))
                    (donors w)) w)
  end.

(** * Properties *)

(** ** Sorting and membership *)

Section SortingFacts.
Context {A : Type}.
Variable before : A -> A -> bool.

Lemma insert_sorted_perm (x : A) (l : list A) :
  Permutation (x :: l) (insert_sorted before x l).
Proof.
  induction l as [|y l IH]; simpl.
  - apply Permutation_refl.
  - destruct (before x y).
    + apply Permutation_refl.
    + eapply perm_trans; [apply perm_swap|].
      apply perm_skip, IH.
Qed.

Lemma sort_by_perm (l : list A) : Permutation l (sort_by before l).
Proof.
  induction l as [|x l IH]; simpl.
  - apply perm_nil.
  - eapply perm_trans; [apply perm_skip, IH|].
    apply insert_sorted_perm.
Qed.

Lemma In_sort_by (x : A) (l : list A) : In x (sort_by before l) <-> In x l.
Proof.
  split; intro H.
  - eapply Permutation_in; [apply Permutation_sym, sort_by_perm|exact H].
  - eapply Permutation_in; [apply sort_by_perm|exact H].
Qed.

Hypothesis before_total : forall a b, before a b = true \/ before b a = true.
Hypothesis before_trans :
  forall a b c, before a b = true -> before b c = true -> before a c = true.

Lemma insert_sorted_sorted (x : A) (l : list A) :
  StronglySorted (fun a b => before a b = true) l ->
  StronglySorted (fun a b => before a b = true) (insert_sorted before x l).
Proof.
  induction 1 as [|y l Hs IH Hall]; simpl.
  - constructor; constructor.
  - destruct (before x y) eqn:E.
    + constructor.
      * constructor; assumption.
      * constructor; [exact E|].
        eapply Forall_impl; [|exact Hall].
        intros z Hz. eapply before_trans; eassumption.
    + constructor; [exact IH|].
      assert (Hyx : before y x = true).
      { destruct (before_total x y) as [H|H]; [congruence|exact H]. }
      rewrite Forall_forall. intros z Hz.
      apply (Permutation_in _ (Permutation_sym (insert_sorted_perm x l))) in Hz.
      destruct Hz as [<-|Hz]; [exact Hyx|].
      rewrite Forall_forall in Hall. apply Hall, Hz.
Qed.

Lemma sort_by_sorted (l : list A) :
  StronglySorted (fun a b => before a b = true) (sort_by before l).
Proof.
  induction l as [|x l IH]; simpl.
  - constructor.
  - apply insert_sorted_sorted, IH.
Qed.
End SortingFacts.

Lemma mongo_in_In (v : string) (vs : list string) :
  mongo_in v vs = true <-> In v vs.
Proof.
  unfold mongo_in. rewrite existsb_exists. split.
  - intros [x [Hx E]]. apply String.eqb_eq in E. subst x. exact Hx.
  - intro H. exists v. split; [exact H|apply String.eqb_refl].
Qed.

Lemma truthy_bloodType (T : string) : In T bloodTypes -> truthy (Some T) = true.
Proof.
  intro H. simpl in H.
  repeat (destruct H as [<-|H]; [reflexivity|]). contradiction.
Qed.

Lemma compatible_row_as_specified (T : string) :
  In T bloodTypes ->
  BloodRequest.getCompatibleBloodTypes T = spec_compatibility_row T.
Proof.
  intro H. simpl in H.
  repeat (destruct H as [<-|H]; [reflexivity|]). contradiction.
Qed.

(** ** Matching engine *)

Section MatchingFacts.
Variable distance : Coordinates -> Coordinates -> Q.

Lemma In_request_findNearby now users requests coordinates maxDistance bt p :
  In p (BloodRequest.findNearby distance now users requests coordinates
          maxDistance bt)
  <-> exists r, p = BloodRequest.populate users r /\ In r requests
        /\ BloodRequest.nearby_query distance now coordinates maxDistance bt r
           = true.
Proof.
  unfold BloodRequest.findNearby, near_order. rewrite in_map_iff.
  split.
  - intros [r [E H]]. rewrite !In_sort_by, filter_In in H.
    exists r. intuition.
  - intros [r [E [H1 H2]]]. exists r. split; [now symmetry|].
    rewrite !In_sort_by, filter_In. now split.
Qed.

Lemma In_donor_findNearby users donors coordinates maxDistance bt p :
  In p (Donor.findNearby distance users donors coordinates maxDistance bt)
  <-> exists d, p = Donor.populate users d /\ In d donors
        /\ Donor.nearby_query distance coordinates maxDistance bt d = true.
Proof.
  unfold Donor.findNearby, near_order. rewrite in_map_iff.
  split.
  - intros [d [E H]]. rewrite In_sort_by, filter_In in H.
    exists d. intuition.
  - intros [d [E [H1 H2]]]. exists d. split; [now symmetry|].
    rewrite In_sort_by, filter_In. now split.
Qed.

(** The blood-type conjunct of the request filter, for a donor type of
    the enum, is membership of the specified row. *)
Lemma request_bloodType_filter now coordinates maxDistance T r :
  In T bloodTypes ->
  BloodRequest.nearby_query distance now coordinates maxDistance (Some T) r
  = within distance BloodRequest.location coordinates maxDistance r
    && mongo_in (BloodRequest.status r) ["active"; "partially_fulfilled"]
    && (now <? BloodRequest.requiredBy r)
    && mongo_in (BloodRequest.bloodType r) (spec_compatibility_row T).
Proof.
  intro HT. unfold BloodRequest.nearby_query.
  rewrite (truthy_bloodType T HT), (compatible_row_as_specified T HT).
  reflexivity.
Qed.
End MatchingFacts.

(** C1.  For a donor blood type [T] of the eight, the row the code looks
    up is the specified row; [findNearby] with [donorBloodType = T]
    returns only requests whose blood type lies in that row; and a stored
    request within the radius, of an eligible status and with a future
    deadline, whose blood type lies in the row, is returned. *)
Theorem C1_findNearbyRequests_compatibility_row
  (distance : Coordinates -> Coordinates -> Q) (now : Date)
  (users : list User.t) (requests : list BloodRequest.t)
  (coordinates : Coordinates) (maxDistance : Z) (T : string)
  (HT : In T bloodTypes) :
  BloodRequest.getCompatibleBloodTypes T = spec_compatibility_row T
  /\ (forall p,
        In p (BloodRequest.findNearby distance now users requests coordinates
                maxDistance (Some T)) ->
        In (BloodRequest.bloodType (BloodRequest.doc p))
           (spec_compatibility_row T))
  /\ (forall r,
        In r requests ->
        within distance BloodRequest.location coordinates maxDistance r = true ->
        In (BloodRequest.status r) ["active"; "partially_fulfilled"] ->
        now < BloodRequest.requiredBy r ->
        In (BloodRequest.bloodType r) (spec_compatibility_row T) ->
        In (BloodRequest.populate users r)
           (BloodRequest.findNearby distance now users requests coordinates
              maxDistance (Some T))).
Proof.
  split; [exact (compatible_row_as_specified T HT)|]. split.
  - intros p Hp. apply In_request_findNearby in Hp.
    destruct Hp as [r [-> [_ Hq]]].
    rewrite (request_bloodType_filter _ _ _ _ _ _ HT) in Hq.
    apply andb_prop in Hq. destruct Hq as [_ Hb].
    apply mongo_in_In in Hb. exact Hb.
  - intros r Hr Hw Hs Hd Hb. apply In_request_findNearby.
    exists r. split; [reflexivity|]. split; [exact Hr|].
    rewrite (request_bloodType_filter _ _ _ _ _ _ HT), Hw.
    apply mongo_in_In in Hs. apply mongo_in_In in Hb. rewrite Hs, Hb.
    apply Z.ltb_lt in Hd. rewrite Hd. reflexivity.
Qed.

(** What the two nearby endpoints answer when both coordinates are given. *)
Lemma getNearbyDonors_answer distance q w lat lng :
  latitude q = Some lat -> longitude q = Some lng ->
  exists radius,
    payload (donorController.getNearbyDonors distance q w)
    = NearbyDonors
        (Donor.findNearby distance (users w) (donors w) (lng, lat) radius
           (q_bloodType q))
        radius (or_all (q_bloodType q)).
Proof.
  intros Hlat Hlng. unfold donorController.getNearbyDonors.
  rewrite Hlat, Hlng. eexists. reflexivity.
Qed.

Lemma getNearbyRequests_answer distance now q w lat lng :
  latitude q = Some lat -> longitude q = Some lng ->
  exists radius,
    payload (requestController.getNearbyRequests distance now q w)
    = NearbyRequests
        (BloodRequest.findNearby distance now (users w) (requests w) (lng, lat)
           radius (q_bloodType q))
        radius (or_all (q_bloodType q)).
Proof.
  intros Hlat Hlng. unfold requestController.getNearbyRequests.
  rewrite Hlat, Hlng. eexists. reflexivity.
Qed.

(** C6.  Every request returned by [findNearby] has status ['active'] or
    ['partially_fulfilled'] and a [requiredBy] strictly after the time of
    the query; a stored request of another status, or whose [requiredBy]
    is not after that time, is not returned, wherever it lies and whatever
    its blood type. *)
Theorem C6_findNearbyRequests_only_open_future
  (distance : Coordinates -> Coordinates -> Q) (now : Date)
  (users : list User.t) (requests : list BloodRequest.t)
  (coordinates : Coordinates) (maxDistance : Z) (bt : option string) :
  (forall p,
     In p (BloodRequest.findNearby distance now users requests coordinates
             maxDistance bt) ->
     In (BloodRequest.status (BloodRequest.doc p))
        ["active"; "partially_fulfilled"]
     /\ now < BloodRequest.requiredBy (BloodRequest.doc p))
  /\ (forall r,
        ~ In (BloodRequest.status r) ["active"; "partially_fulfilled"]
        \/ BloodRequest.requiredBy r <= now ->
        ~ In (BloodRequest.populate users r)
             (BloodRequest.findNearby distance now users requests coordinates
                maxDistance bt)).
Proof.
  assert (Hq : forall r,
             BloodRequest.nearby_query distance now coordinates maxDistance bt r
             = true ->
             In (BloodRequest.status r) ["active"; "partially_fulfilled"]
             /\ now < BloodRequest.requiredBy r).
  { intros r H. unfold BloodRequest.nearby_query in H.
    apply andb_prop in H. destruct H as [H _].
    apply andb_prop in H. destruct H as [H Hd].
    apply andb_prop in H. destruct H as [_ Hs].
    split; [now apply mongo_in_In|now apply Z.ltb_lt]. }
  split.
  - intros p Hp. apply In_request_findNearby in Hp.
    destruct Hp as [r [-> [_ H]]]. simpl. apply Hq, H.
  - intros r Hbad Hin. apply In_request_findNearby in Hin.
    destruct Hin as [r' [E [_ H]]].
    assert (r = r') by (injection E; auto). subst r'.
    destruct (Hq r H) as [Hs Hd].
    destruct Hbad as [Hbad|Hbad]; [exact (Hbad Hs)|lia].
Qed.

(** C5.  Every donor returned by [Donor.findNearby] is a stored donor
    that is available and lies within the requested radius of the point,
    and when a blood type (any non-empty string) is supplied the donor
    has exactly that blood type. *)
Theorem C5_findNearbyDonors_available_in_radius_exact_type
  (distance : Coordinates -> Coordinates -> Q)
  (users : list User.t) (donors : list Donor.t)
  (coordinates : Coordinates) (maxDistance : Z) (bt : option string)
  (p : Donor.populated)
  (Hp : In p (Donor.findNearby distance users donors coordinates maxDistance bt)) :
  In (Donor.doc p) donors
  /\ Donor.isAvailable (Donor.doc p) = true
  /\ (distance coordinates (Donor.location (Donor.doc p))
        <= inject_Z maxDistance)%Q
  /\ (forall T, bt = Some T -> T <> "" ->
                Donor.bloodType (Donor.doc p) = T).
Proof.
  apply In_donor_findNearby in Hp. destruct Hp as [d [-> [Hd Hq]]]. simpl.
  unfold Donor.nearby_query in Hq.
  apply andb_prop in Hq. destruct Hq as [Hq Hb].
  apply andb_prop in Hq. destruct Hq as [Hw Ha].
  split; [exact Hd|]. split; [now apply Bool.eqb_prop in Ha|].
  split; [now apply Qle_bool_iff in Hw|].
  intros T -> HT. apply String.eqb_neq in HT. simpl in Hb.
  rewrite HT in Hb. now apply String.eqb_eq in Hb.
Qed.

(** ** Result order of the request search *)

Lemma compare_refl (a : string) : String.compare a a = Eq.
Proof.
  pose proof (String.compare_antisym a a) as H.
  destruct (String.compare a a); simpl in H; congruence.
Qed.

Lemma compare_Gt_Lt (a b : string) :
  String.compare a b = Gt <-> String.compare b a = Lt.
Proof.
  rewrite (String.compare_antisym b a).
  destruct (String.compare a b); simpl; split; congruence.
Qed.

Lemma compare_Lt_trans (a b c : string) :
  String.compare a b = Lt -> String.compare b c = Lt -> String.compare a c = Lt.
Proof.
  intros H1 H2. apply String_as_OT.cmp_lt.
  apply String_as_OT.cmp_lt in H1. apply String_as_OT.cmp_lt in H2.
  eapply String_as_OT.lt_trans; eassumption.
Qed.

Lemma sort_order_total (a b : BloodRequest.t) :
  BloodRequest.sort_order a b = true \/ BloodRequest.sort_order b a = true.
Proof.
  unfold BloodRequest.sort_order.
  rewrite (String.compare_antisym (BloodRequest.urgency b)
                                  (BloodRequest.urgency a)).
  destruct (String.compare (BloodRequest.urgency a) (BloodRequest.urgency b));
    simpl; auto.
  destruct (Z.leb_spec (BloodRequest.requiredBy a) (BloodRequest.requiredBy b));
    [left; reflexivity|right; apply Z.leb_le; lia].
Qed.

Lemma sort_order_trans (a b c : BloodRequest.t) :
  BloodRequest.sort_order a b = true -> BloodRequest.sort_order b c = true ->
  BloodRequest.sort_order a c = true.
Proof.
  unfold BloodRequest.sort_order.
  destruct (String.compare (BloodRequest.urgency a) (BloodRequest.urgency b))
    eqn:Eab; try discriminate;
  destruct (String.compare (BloodRequest.urgency b) (BloodRequest.urgency c))
    eqn:Ebc; try discriminate; intros H1 H2.
  - apply String.compare_eq_iff in Eab. apply String.compare_eq_iff in Ebc.
    rewrite Eab, Ebc.
    rewrite compare_refl.
    apply Z.leb_le. apply Z.leb_le in H1. apply Z.leb_le in H2. lia.
  - apply String.compare_eq_iff in Eab. rewrite Eab, Ebc. reflexivity.
  - apply String.compare_eq_iff in Ebc. rewrite <- Ebc, Eab. reflexivity.
  - apply compare_Gt_Lt in Eab. apply compare_Gt_Lt in Ebc.
    pose proof (compare_Lt_trans _ _ _ Ebc Eab) as H.
    apply compare_Gt_Lt in H. rewrite H. reflexivity.
Qed.

(** Whatever the collection, the result is in the order of the code's
    sort key: the byte order of the [urgency] strings, larger first, then
    [requiredBy], earlier first. *)
Lemma findNearby_in_code_order
  (distance : Coordinates -> Coordinates -> Q) (now : Date)
  (users : list User.t) (requests : list BloodRequest.t)
  (coordinates : Coordinates) (maxDistance : Z) (bt : option string) :
  StronglySorted code_before
    (map BloodRequest.doc
       (BloodRequest.findNearby distance now users requests coordinates
          maxDistance bt)).
Proof.
  unfold BloodRequest.findNearby. rewrite map_map. simpl. rewrite map_id.
  apply sort_by_sorted; [exact sort_order_total|exact sort_order_trans].
Qed.

(** Requests of equal urgency do come out by ascending [requiredBy]. *)
Lemma code_before_equal_urgency (a b : BloodRequest.t) :
  BloodRequest.urgency a = BloodRequest.urgency b ->
  code_before a b -> BloodRequest.requiredBy a <= BloodRequest.requiredBy b.
Proof.
  unfold code_before, BloodRequest.sort_order. intros E H.
  rewrite E, compare_refl in H.
  now apply Z.leb_le.
Qed.

(** C4.  On two open requests near Delhi, one ['critical'] and one
    ['medium'], the search for an O- donor lists the ['medium'] request
    first: the two come out in the byte order of their urgency strings,
    which is not the specified order [critical > high > medium > low]. *)
Theorem C4_findNearbyRequests_urgency_in_string_order :
  map BloodRequest.doc
    (BloodRequest.findNearby grid_metres sample_now sample_users
       [request_critical; request_medium] delhi 50000 (Some "O-"))
  = [request_medium; request_critical]
  /\ ~ StronglySorted spec_before [request_medium; request_critical].
Proof.
  split; [vm_compute; reflexivity|].
  intro H. inversion H as [|x l _ Hall]; subst.
  inversion Hall as [|y l' Hb _]; subst.
  destruct Hb as [Hb|[Hb _]]; vm_compute in Hb; discriminate.
Qed.

(** ** The matching statements on the sample world *)

Lemma C1_compatibility_row_sample :
  In "AB-" bloodTypes
  /\ BloodRequest.getCompatibleBloodTypes "AB-" = ["AB-"; "AB+"]
  /\ In (BloodRequest.bloodType request_medium) (spec_compatibility_row "AB-")
  /\ In (BloodRequest.populate sample_users request_medium)
        (BloodRequest.findNearby grid_metres sample_now sample_users
           sample_requests delhi 50000 (Some "AB-")).
Proof.
  assert (HT : In "AB-" bloodTypes) by (simpl; auto 10).
  destruct (C1_findNearbyRequests_compatibility_row grid_metres sample_now
              sample_users sample_requests delhi 50000 "AB-" HT)
    as [Hrow [Honly Hall]].
  split; [exact HT|]. split; [exact Hrow|].
  assert (Hin : In (BloodRequest.populate sample_users request_medium)
                   (BloodRequest.findNearby grid_metres sample_now sample_users
                      sample_requests delhi 50000 (Some "AB-"))).
  { apply Hall.
    - simpl; auto.
    - vm_compute; reflexivity.
    - simpl; auto.
    - vm_compute; reflexivity.
    - simpl; auto. }
  split; [exact (Honly _ Hin)|exact Hin].
Defined.

Lemma C5_nearby_donor_sample :
  In donor_ravi sample_donors
  /\ Donor.isAvailable donor_ravi = true
  /\ (grid_metres delhi (Donor.location donor_ravi) <= inject_Z 50000)%Q
  /\ (forall T, Some "O-" = Some T -> T <> "" ->
                Donor.bloodType donor_ravi = T).
Proof.
  apply (C5_findNearbyDonors_available_in_radius_exact_type grid_metres
           sample_users sample_donors delhi 50000 (Some "O-")
           (Donor.populate sample_users donor_ravi)).
  vm_compute. left. reflexivity.
Defined.

Lemma C6_open_future_sample :
  (In (BloodRequest.status request_medium) ["active"; "partially_fulfilled"]
   /\ sample_now < BloodRequest.requiredBy request_medium)
  /\ ~ In (BloodRequest.populate sample_users request_closed)
          (BloodRequest.findNearby grid_metres sample_now sample_users
             sample_requests delhi 50000 (Some "O-")).
Proof.
  destruct (C6_findNearbyRequests_only_open_future grid_metres sample_now
              sample_users sample_requests delhi 50000 (Some "O-"))
    as [Hin Hout].
  split.
  - apply (Hin (BloodRequest.populate sample_users request_medium)).
    vm_compute. left. reflexivity.
  - apply Hout. left. simpl. intros [H|[H|[]]]; discriminate H.
Defined.

(** ** Inventory status *)

(** C9, as the code has it.  The save middleware recomputes [status]
    from [unitsAvailable], [unitsReserved], [minimumThreshold],
    [expiryDate] and the time of the save: two records that agree on
    these four fields and are saved at the same time end with the same
    status, whatever their other fields, the stored status included. *)
Theorem C9_pre_save_status_function_of_four_fields
  (now : Date) (i j : BloodInventory.t)
  (Havailable : BloodInventory.unitsAvailable i = BloodInventory.unitsAvailable j)
  (Hreserved : BloodInventory.unitsReserved i = BloodInventory.unitsReserved j)
  (Hthreshold :
     BloodInventory.minimumThreshold i = BloodInventory.minimumThreshold j)
  (Hexpiry : BloodInventory.expiryDate i = BloodInventory.expiryDate j) :
  BloodInventory.status (BloodInventory.pre_save now i)
  = BloodInventory.status (BloodInventory.pre_save now j).
Proof.
  unfold BloodInventory.pre_save.
  rewrite Havailable, Hreserved, Hthreshold, Hexpiry.
  destruct (BloodInventory.expiryDate j <=? now); [reflexivity|].
  destruct (BloodInventory.unitsAvailable j =? 0); [reflexivity|].
  destruct (BloodInventory.unitsAvailable j <=? BloodInventory.minimumThreshold j);
    [reflexivity|].
  destruct (0 <? BloodInventory.unitsReserved j); reflexivity.
Qed.

Lemma C9_four_fields_sample :
  BloodInventory.status (BloodInventory.pre_save sample_now stock_held)
  = BloodInventory.status (BloodInventory.pre_save sample_now stock_held_elsewhere).
Proof.
  apply C9_pre_save_status_function_of_four_fields; reflexivity.
Defined.

(** Two records that agree on [unitsAvailable], [minimumThreshold] and
    [expiryDate] and differ in [unitsReserved] are saved with different
    statuses; and one record saved before and after its expiry date is
    saved with different statuses. *)
Lemma C9_status_depends_on_unitsReserved :
  BloodInventory.unitsAvailable stock_free
    = BloodInventory.unitsAvailable stock_held
  /\ BloodInventory.minimumThreshold stock_free
     = BloodInventory.minimumThreshold stock_held
  /\ BloodInventory.expiryDate stock_free = BloodInventory.expiryDate stock_held
  /\ BloodInventory.status (BloodInventory.pre_save sample_now stock_free)
     = "Available"
  /\ BloodInventory.status (BloodInventory.pre_save sample_now stock_held)
     = "Reserved"
  /\ BloodInventory.status
       (BloodInventory.pre_save (sample_now + 30 * msPerDay) stock_free)
     = "Expired".
Proof. repeat split; vm_compute; reflexivity. Qed.

(** The creation path stores what the middleware computed. *)
Lemma create_stores_pre_save now i inventory stored :
  BloodInventory.create now i inventory = Some stored ->
  stored = (inventory ++ [BloodInventory.pre_save now i])%list.
Proof.
  unfold BloodInventory.create.
  destruct (BloodInventory.validate now i); intro H; [|discriminate H].
  now injection H as <-.
Qed.

(** The update path is an update query: the stored status stays as it
    was, whatever the new quantities are. *)
Lemma findByIdAndUpdate_keeps_status now id u inventory stored i :
  BloodInventory.findByIdAndUpdate now id u inventory = Some stored ->
  In i stored ->
  exists i0, In i0 inventory
             /\ BloodInventory.status i = BloodInventory.status i0.
Proof.
  unfold BloodInventory.findByIdAndUpdate.
  destruct (BloodInventory.validate_update now u); intro H; [|discriminate H].
  injection H as <-. rewrite in_map_iff. intros [i0 [E Hi0]].
  exists i0. split; [exact Hi0|].
  destruct (String.eqb (BloodInventory._id i0) id); subst i; reflexivity.
Qed.

(** ** Donor availability *)

Lemma findOneByUser_user donors id d :
  Donor.findOneByUser donors id = Some d -> Donor.user d = id.
Proof.
  intro H. apply find_some in H. destruct H as [_ H].
  now apply String.eqb_eq in H.
Qed.

Lemma findById_id donors id d :
  Donor.findById donors id = Some d -> Donor._id d = id.
Proof.
  intro H. apply find_some in H. destruct H as [_ H].
  now apply String.eqb_eq in H.
Qed.

(** After [save], the query that loaded the document finds the saved
    version. *)
Lemma findOneByUser_save donors id d d' :
  Donor.findOneByUser donors id = Some d ->
  Donor.user d' = id -> Donor._id d' = Donor._id d ->
  Donor.findOneByUser (Donor.save d' donors) id = Some d'.
Proof.
  unfold Donor.findOneByUser, Donor.save. intros H Hu Hi.
  induction donors as [|a l IH]; simpl in *; [discriminate H|].
  destruct (String.eqb (Donor.user a) id) eqn:Ea.
  - injection H as ->. rewrite Hi, String.eqb_refl.
    rewrite Hu, String.eqb_refl. reflexivity.
  - destruct (String.eqb (Donor._id a) (Donor._id d')).
    + rewrite Hu, String.eqb_refl. reflexivity.
    + rewrite Ea. apply IH, H.
Qed.

Lemma findById_save donors id d d' :
  Donor.findById donors id = Some d -> Donor._id d' = Donor._id d ->
  Donor.findById (Donor.save d' donors) id = Some d'.
Proof.
  intros H Hi. pose proof (findById_id _ _ _ H) as Hd.
  assert (Hd' : Donor._id d' = id) by congruence.
  unfold Donor.findById, Donor.save in *. rewrite Hd'. clear Hi Hd.
  induction donors as [|a l IH]; simpl in *; [discriminate H|].
  destruct (String.eqb (Donor._id a) id) eqn:Ea.
  - rewrite Hd', String.eqb_refl. reflexivity.
  - rewrite Ea. apply IH, H.
Qed.

(** C10.  For a donor whose [isAvailable] is false, a request to set
    [isAvailable = true] is answered with the must-wait-8-weeks error and
    the world is left as it was, whatever the time and the last donation
    date; and whatever value is requested, the donor is still unavailable
    after the call. *)
Theorem C10_updateDonorAvailability_cannot_reopen
  (LocalTZA : Z -> bool -> Z)
  (now : Date) (req_user : User.t) (w : World) (donor : Donor.t)
  (Hfound : Donor.findOneByUser (donors w) (User._id req_user) = Some donor)
  (Hunavailable : Donor.isAvailable donor = false) :
  Donor.isEligibleToDonate LocalTZA now donor = false
  /\ donorController.updateDonorAvailability LocalTZA now req_user true w
     = (mkResponse 400 false
          (FailureNextEligible
             "Cannot set as available. Must wait 8 weeks from last donation."
             (Donor.nextEligibleDonationDate LocalTZA now donor)),
        w)
  /\ forall requested,
       exists donor',
         Donor.findOneByUser
           (donors (snd (donorController.updateDonorAvailability
                           LocalTZA now req_user requested w)))
           (User._id req_user) = Some donor'
         /\ Donor.isAvailable donor' = false.
Proof.
  assert (He : Donor.isEligibleToDonate LocalTZA now donor = false).
  { unfold Donor.isEligibleToDonate. rewrite Hunavailable. reflexivity. }
  split; [exact He|].
  unfold donorController.updateDonorAvailability. rewrite Hfound, He.
  split; [reflexivity|].
  intros [|]; simpl.
  - exists donor. split; [exact Hfound|exact Hunavailable].
  - exists (Donor.set_isAvailable false donor). split; [|reflexivity].
    apply findOneByUser_save with (d := donor); [exact Hfound| |reflexivity].
    simpl. eapply findOneByUser_user, Hfound.
Qed.

Lemma C10_cannot_reopen_sample :
  Donor.isEligibleToDonate utc (sample_now + 100 * msPerDay) donor_meera = false
  /\ fst (donorController.updateDonorAvailability utc
            (sample_now + 100 * msPerDay) meera true sample_world)
     = mkResponse 400 false
         (FailureNextEligible
            "Cannot set as available. Must wait 8 weeks from last donation."
            (sample_now + 55 * msPerDay)).
Proof.
  destruct (C10_updateDonorAvailability_cannot_reopen utc
              (sample_now + 100 * msPerDay) meera sample_world donor_meera)
    as [He [Hr _]]; [reflexivity|reflexivity|].
  split; [exact He|]. rewrite Hr. reflexivity.
Defined.

Lemma completeDonation_donors LocalTZA now id w found donor :
  Donation.findById (donations w) id = Some found ->
  String.eqb (Donation.status found) "completed" = false ->
  Donor.findById (donors w) (Donation.donor found) = Some donor ->
  donors (snd (donationController.completeDonation LocalTZA now id w))
  = Donor.save
      (Donor.updateAvailability LocalTZA now
         (Donor.mk (Donor._id donor) (Donor.user donor) (Donor.bloodType donor)
            (Donor.age donor) (Donor.weight donor)
            (Some (Donation.donationDate found)) (Donor.isAvailable donor)
            (Donor.location donor) (Donor.isVerified donor)
            (Donor.donationCount donor + 1)
            (Donor.totalVolumeDonated donor + Donation.volumeDonated found)))
      (donors w).
Proof.
  intros Hf Hs Hd. unfold donationController.completeDonation.
  rewrite Hf, Hs. simpl. rewrite Hd.
  destruct (BloodRequest.findById (requests w) (Donation.bloodRequest found));
    [|reflexivity].
  destruct (BloodRequest.updateStatus now _ _) as [[request2 stored]|];
    reflexivity.
Qed.

(** Where the zone's offset is the same at both ends, [n] calendar days
    are [n] times 24 hours; otherwise they differ from it by the clock
    change. *)
Lemma setDate_getDate_plus_same_offset LocalTZA n d :
  LocalTZA (LocalTime LocalTZA d + n * msPerDay) false = LocalTZA d true ->
  setDate_getDate_plus LocalTZA n d = d + n * msPerDay.
Proof.
  unfold setDate_getDate_plus, UTC, LocalTime. intro H.
  unfold LocalTime in H. rewrite H. lia.
Qed.

Lemma setDate_getDate_plus_bounds LocalTZA n d h :
  (forall a b x y, Z.abs (LocalTZA a x - LocalTZA b y) <= h) ->
  d + n * msPerDay - h <= setDate_getDate_plus LocalTZA n d
  <= d + n * msPerDay + h.
Proof.
  intro H. unfold setDate_getDate_plus, UTC, LocalTime.
  specialize (H d (d + LocalTZA d true + n * msPerDay) true false). lia.
Qed.

(** C7, as the code has it.  When [completeDonation] completes a
    donation, the donor's [lastDonationDate] becomes the donation's date
    and [isAvailable] is recomputed: it stays true only for a donor who
    was available and whose donation date, moved 56 calendar days on in
    the host's local time by [setDate(getDate() + 56)], has been
    reached; so it is false whenever the time is before that date.  When
    [updateDonorAvailability] answers with success and leaves the donor
    available, the donor was available before and the last donation, if
    there is one, has reached that date.  The date is the last donation
    plus 56 times 24 hours where the zone's offset is the same at both
    ends, and within the size of the zone's clock changes of it
    otherwise. *)
Theorem C7_availability_after_completion_and_checked_update
  (LocalTZA : Z -> bool -> Z) :
  (forall now id w found donor,
     Donation.findById (donations w) id = Some found ->
     String.eqb (Donation.status found) "completed" = false ->
     Donor.findById (donors w) (Donation.donor found) = Some donor ->
     exists donor',
       Donor.findById
         (donors (snd (donationController.completeDonation LocalTZA now id w)))
         (Donation.donor found) = Some donor'
       /\ Donor.lastDonationDate donor' = Some (Donation.donationDate found)
       /\ Donor.isAvailable donor'
          = Donor.isAvailable donor
            && (setDate_getDate_plus LocalTZA 56 (Donation.donationDate found)
                <=? now)
       /\ (now < setDate_getDate_plus LocalTZA 56 (Donation.donationDate found) ->
           Donor.isAvailable donor' = false))
  /\ (forall now req_user requested w donor donor',
        Donor.findOneByUser (donors w) (User._id req_user) = Some donor ->
        statusCode (fst (donorController.updateDonorAvailability LocalTZA
                           now req_user requested w)) = 200 ->
        Donor.findOneByUser
          (donors (snd (donorController.updateDonorAvailability LocalTZA
                          now req_user requested w)))
          (User._id req_user) = Some donor' ->
        Donor.isAvailable donor' = true ->
        Donor.isAvailable donor = true
        /\ Donor.lastDonationDate donor' = Donor.lastDonationDate donor
        /\ match Donor.lastDonationDate donor with
           | None => True
           | Some lastDonation =>
               setDate_getDate_plus LocalTZA 56 lastDonation <= now
           end)
  /\ (forall lastDonation,
        (LocalTZA (LocalTime LocalTZA lastDonation + 56 * msPerDay) false
         = LocalTZA lastDonation true ->
         setDate_getDate_plus LocalTZA 56 lastDonation
         = lastDonation + 56 * msPerDay)
        /\ (forall h,
              (forall a b x y, Z.abs (LocalTZA a x - LocalTZA b y) <= h) ->
              lastDonation + 56 * msPerDay - h
              <= setDate_getDate_plus LocalTZA 56 lastDonation
              <= lastDonation + 56 * msPerDay + h)).
Proof.
  split; [|split].
  - intros now id w found donor Hf Hs Hd.
    rewrite (completeDonation_donors LocalTZA now id w found donor Hf Hs Hd).
    eexists. split.
    + apply findById_save with (d := donor); [exact Hd|reflexivity].
    + assert (Ha : Donor.isAvailable
                     (Donor.updateAvailability LocalTZA now
                        (Donor.mk (Donor._id donor) (Donor.user donor)
                           (Donor.bloodType donor) (Donor.age donor)
                           (Donor.weight donor)
                           (Some (Donation.donationDate found))
                           (Donor.isAvailable donor) (Donor.location donor)
                           (Donor.isVerified donor) (Donor.donationCount donor + 1)
                           (Donor.totalVolumeDonated donor
                            + Donation.volumeDonated found)))
                   = Donor.isAvailable donor
                     && (setDate_getDate_plus LocalTZA 56
                           (Donation.donationDate found) <=? now)).
      { unfold Donor.updateAvailability, Donor.isEligibleToDonate,
          Donor.nextEligibleDonationDate.
        cbn [Donor.isAvailable Donor.set_isAvailable Donor.lastDonationDate].
        destruct (Donor.isAvailable donor); reflexivity. }
      split; [reflexivity|]. split; [exact Ha|].
      intro Hlt. rewrite Ha.
      replace (setDate_getDate_plus LocalTZA 56 (Donation.donationDate found)
               <=? now) with false
        by (symmetry; apply Z.leb_gt; exact Hlt).
      apply andb_false_r.
  - intros now req_user requested w donor donor' Hf.
    unfold donorController.updateDonorAvailability. rewrite Hf.
    destruct requested; cbn [andb negb].
    + destruct (Donor.isEligibleToDonate LocalTZA now donor) eqn:He;
        cbn [negb fst snd statusCode donors with_donors]; [|discriminate].
      intros _ Hf' _.
      rewrite (findOneByUser_save (donors w) (User._id req_user) donor
                 (Donor.set_isAvailable true donor) Hf) in Hf';
        [|simpl; eapply findOneByUser_user, Hf|reflexivity].
      injection Hf' as <-.
      unfold Donor.isEligibleToDonate, Donor.nextEligibleDonationDate in He.
      destruct (Donor.isAvailable donor); [|discriminate He].
      split; [reflexivity|]. split; [reflexivity|].
      destruct (Donor.lastDonationDate donor); [|exact I].
      cbn [negb] in He. now apply Z.leb_le in He.
    + cbn [fst snd statusCode donors with_donors]. intros _ Hf' Ha.
      rewrite (findOneByUser_save (donors w) (User._id req_user) donor
                 (Donor.set_isAvailable false donor) Hf) in Hf';
        [|simpl; eapply findOneByUser_user, Hf|reflexivity].
      injection Hf' as <-. discriminate Ha.
  - intro lastDonation. split.
    + apply setDate_getDate_plus_same_offset.
    + intro h. apply setDate_getDate_plus_bounds.
Qed.

Lemma C7_completion_sample :
  (exists donor',
     Donor.findById
       (donors (snd (donationController.completeDonation utc sample_now "n1"
                       sample_world))) "d1" = Some donor'
     /\ Donor.lastDonationDate donor' = Some sample_now
     /\ Donor.isAvailable donor' = false)
  /\ (Donor.isAvailable donor_ravi = true
      /\ Donor.lastDonationDate donor_ravi = None)
  /\ setDate_getDate_plus utc 56 sample_now = sample_now + 56 * msPerDay.
Proof.
  destruct (C7_availability_after_completion_and_checked_update utc)
    as [Hc [Hu Hd]].
  split; [|split].
  - destruct (Hc sample_now "n1" sample_world donation_today donor_ravi)
      as [donor' [Hf [Hl [_ Ha]]]]; [reflexivity|reflexivity|reflexivity|].
    exists donor'. split; [exact Hf|]. split; [exact Hl|].
    apply Ha. reflexivity.
  - destruct (Hu sample_now ravi true sample_world donor_ravi
                (Donor.set_isAvailable true donor_ravi))
      as [Ha [_ _]]; [reflexivity|reflexivity|reflexivity|reflexivity|].
    split; [exact Ha|reflexivity].
  - destruct (Hd sample_now) as [Hsame _]. apply Hsame. reflexivity.
Defined.

(** Completing a donation dated sixty days back leaves an available donor
    available; the profile update sets [isAvailable] to true for a donor
    whose last donation was one day ago; and on a host in New York,
    completing a donation of 1 February 2024 half an hour before 56
    times 24 hours have passed leaves an available donor available,
    because the clocks went forward in between. *)
Lemma C7_available_within_56_days :
  (statusCode (fst (donationController.completeDonation utc sample_now "n2"
                      sample_world)) = 200
   /\ option_map Donor.isAvailable
        (Donor.findById
           (donors (snd (donationController.completeDonation utc sample_now "n2"
                           sample_world))) "d1")
      = Some true)
  /\ (statusCode (fst (donorController.updateDonor meera switch_on
                         sample_world)) = 200
      /\ option_map
           (fun d => (Donor.isAvailable d, Donor.lastDonationDate d))
           (Donor.findOneByUser
              (donors (snd (donorController.updateDonor meera switch_on
                              sample_world))) "u3")
         = Some (true, Some (sample_now - 1 * msPerDay)))
  /\ (february_now - Donation.donationDate donation_february < 56 * msPerDay
      /\ option_map
           (fun d => (Donor.isAvailable d, Donor.lastDonationDate d))
           (Donor.findById
              (donors (snd (donationController.completeDonation new_york
                              february_now "n4" february_world))) "d1")
         = Some (true, Some (Donation.donationDate donation_february))).
Proof. repeat split; vm_compute; reflexivity. Qed.

(** ** Certificate issuance *)

Lemma findOneByDonation_exists certificates id c :
  In c certificates -> Certificate.donation c = id ->
  Certificate.findOneByDonation certificates id <> None.
Proof.
  intros Hin E Hnone. unfold Certificate.findOneByDonation in Hnone.
  pose proof (find_none _ _ Hnone c Hin) as H. simpl in H.
  rewrite E, String.eqb_refl in H. discriminate H.
Qed.

(** C2, as the code has it.  For a stored donation that is not completed,
    or not tested safe, or already has a certificate, [generateCertificate]
    never succeeds and leaves the certificate collection as it was.  The
    answer is the 400 precondition error, and the whole world is
    untouched, when the requesting user is the donation's donor; it is
    the 403 authorization error when the requester is someone else. *)
Theorem C2_generateCertificate_rejects_unqualified_donation
  (transport : Email.t -> bool) (now : Date) (newId : ObjectId)
  (random5 random8 : string) (frontendUrl : option string)
  (req_user : User.t) (id : ObjectId) (w : World) (donation : Donation.t)
  (Hfound : Donation.findById (donations w) id = Some donation)
  (Hunqualified :
     Donation.status donation <> "completed"
     \/ Donation.overallResult donation <> "safe"
     \/ exists c, In c (certificates w)
                  /\ Certificate.donation c = Donation._id donation) :
  let r := donationController.generateCertificate transport now newId random5
             random8 frontendUrl req_user id w in
  success (fst r) = false
  /\ certificates (snd r) = certificates w
  /\ forall donor,
       Donor.findById (donors w) (Donation.donor donation) = Some donor ->
       (Donor.user donor = User._id req_user ->
        statusCode (fst r) = 400 /\ snd r = w)
       /\ (Donor.user donor <> User._id req_user ->
           statusCode (fst r) = 403 /\ snd r = w).
Proof.
  assert (Hblocked :
            negb (String.eqb (Donation.status donation) "completed")
            || negb (String.eqb (Donation.overallResult donation) "safe") = true
            \/ Certificate.findOneByDonation (certificates w)
                 (Donation._id donation) <> None).
  { destruct Hunqualified as [H|[H|[c [Hin E]]]].
    - left. apply String.eqb_neq in H. rewrite H. reflexivity.
    - left. apply String.eqb_neq in H. rewrite H. apply orb_true_r.
    - right. eapply findOneByDonation_exists; eassumption. }
  unfold donationController.generateCertificate. rewrite Hfound. simpl.
  destruct (Donor.findById (donors w) (Donation.donor donation)) as [donor|].
  - destruct (String.eqb (Donor.user donor) (User._id req_user)) eqn:Eu; simpl.
    + apply String.eqb_eq in Eu.
      assert (Hr : forall r : Response * World,
                 statusCode (fst r) = 400 -> success (fst r) = false ->
                 snd r = w ->
                 success (fst r) = false
                 /\ certificates (snd r) = certificates w
                 /\ forall donor0, Some donor = Some donor0 ->
                      (Donor.user donor0 = User._id req_user ->
                       statusCode (fst r) = 400 /\ snd r = w)
                      /\ (Donor.user donor0 <> User._id req_user ->
                          statusCode (fst r) = 403 /\ snd r = w)).
      { intros r H400 Hs Hw. split; [exact Hs|]. split; [now rewrite Hw|].
        intros donor0 E. injection E as <-. split; [now split|].
        intro Hne. contradiction. }
      destruct (negb (String.eqb (Donation.status donation) "completed")
                || negb (String.eqb (Donation.overallResult donation) "safe"))
        eqn:Eg.
      * apply Hr; reflexivity.
      * destruct Hblocked as [Hg|Hg]; [discriminate Hg|].
        destruct (Certificate.findOneByDonation (certificates w)
                    (Donation._id donation)); [|contradiction].
        apply Hr; reflexivity.
    + apply String.eqb_neq in Eu.
      split; [reflexivity|]. split; [reflexivity|].
      intros donor0 E. injection E as <-. split; [contradiction|now split].
  - split; [reflexivity|]. split; [reflexivity|]. intros donor0 E. discriminate E.
Qed.

Lemma C2_pending_donation_sample :
  Donation.overallResult donation_today = "pending"
  /\ statusCode
       (fst (donationController.generateCertificate transport_up sample_now
               "c9" "7QK2M" "X4P9T1ZB" None ravi "n1" sample_world)) = 400
  /\ snd (donationController.generateCertificate transport_up sample_now
            "c9" "7QK2M" "X4P9T1ZB" None ravi "n1" sample_world)
     = sample_world.
Proof.
  assert (Hu : Donation.status donation_today <> "completed"
               \/ Donation.overallResult donation_today <> "safe"
               \/ exists c, In c (certificates sample_world)
                            /\ Certificate.donation c
                               = Donation._id donation_today).
  { left. discriminate. }
  destruct (C2_generateCertificate_rejects_unqualified_donation transport_up
              sample_now "c9" "7QK2M" "X4P9T1ZB" None ravi "n1" sample_world
              donation_today eq_refl Hu) as [_ [_ H]].
  destruct (H donor_ravi eq_refl) as [Hdonor _].
  destruct (Hdonor eq_refl) as [H400 Hw].
  split; [reflexivity|]. split; [exact H400|exact Hw].
Defined.

(** A user who is not the donation's donor asks for a certificate of a
    scheduled donation whose tests are pending: the answer is the 403
    authorization error, not the precondition error. *)
Lemma C2_non_donor_gets_authorization_error :
  Donation.status donation_today = "scheduled"
  /\ Donation.overallResult donation_today = "pending"
  /\ donationController.generateCertificate transport_up sample_now
       "c9" "7QK2M" "X4P9T1ZB" None asha "n1" sample_world
     = (failure 403 "Not authorized to generate certificate for this donation",
        sample_world).
Proof. repeat split. Qed.

(** ** Certificate verification *)

Lemma NoDup_map_injective {A B : Type} (f : A -> B) (l : list A) (a b : A) :
  NoDup (map f l) -> In a l -> In b l -> f a = f b -> a = b.
Proof.
  induction l as [|x l IH]; simpl; intros Hnd Ha Hb E; [contradiction|].
  inversion Hnd as [|y l' Hnotin Hnd']; subst.
  destruct Ha as [->|Ha], Hb as [->|Hb].
  - reflexivity.
  - exfalso. apply Hnotin. rewrite E. now apply in_map.
  - exfalso. apply Hnotin. rewrite <- E. now apply in_map.
  - now apply IH.
Qed.

Lemma find_issued_spec certificates code :
  match find (fun c => String.eqb (Certificate.verificationCode c) code
                       && String.eqb (Certificate.status c) "issued")
             certificates with
  | Some c => In c certificates /\ Certificate.verificationCode c = code
              /\ Certificate.status c = "issued"
  | None => forall c, In c certificates ->
                      Certificate.verificationCode c = code ->
                      Certificate.status c <> "issued"
  end.
Proof.
  destruct (find _ certificates) as [c|] eqn:E.
  - apply find_some in E. destruct E as [Hin H].
    apply andb_prop in H. destruct H as [H1 H2].
    apply String.eqb_eq in H1. apply String.eqb_eq in H2. now repeat split.
  - intros c Hin Hc Hs. pose proof (find_none _ _ E c Hin) as H. simpl in H.
    rewrite Hc, Hs, !String.eqb_refl in H. discriminate H.
Qed.

(** What the handler answers, by cases on the lookup. *)
Lemma verifyCertificate_cases code w :
  match find (fun c => String.eqb (Certificate.verificationCode c) code
                       && String.eqb (Certificate.status c) "issued")
             (certificates w) with
  | None => certificateController.verifyCertificate code w = (not_found, w)
  | Some c =>
      match User.findById (users w) (Certificate.donor c) with
      | Some donor =>
          certificateController.verifyCertificate code w
          = (mkResponse 200 true
               (Verified "Certificate verified successfully"
                         (public_view c donor)), w)
      | None =>
          certificateController.verifyCertificate code w
          = (server_error, log "Verify certificate error:" w)
      end
  end.
Proof.
  unfold certificateController.verifyCertificate, Certificate.verifyCertificate.
  destruct (find _ (certificates w)) as [c|]; simpl; [|reflexivity].
  destruct (User.findById (users w) (Certificate.donor c)); reflexivity.
Qed.

(** Under the unique index, the lookup finds the issued certificate that
    carries the code. *)
Lemma find_issued_unique w code c :
  unique_codes w -> In c (certificates w) ->
  Certificate.verificationCode c = code -> Certificate.status c = "issued" ->
  find (fun c => String.eqb (Certificate.verificationCode c) code
                 && String.eqb (Certificate.status c) "issued")
       (certificates w) = Some c.
Proof.
  intros Hunique Hin Hcode Hs.
  pose proof (find_issued_spec (certificates w) code) as Hf.
  destruct (find _ (certificates w)) as [c'|].
  - destruct Hf as [Hin' [Hcode' _]]. f_equal.
    apply (NoDup_map_injective Certificate.verificationCode (certificates w));
      [exact Hunique|exact Hin'|exact Hin|congruence].
  - exfalso. exact (Hf c Hin Hcode Hs).
Qed.

(** C3.  [verifyCertificate] answers with the success payload only if a
    certificate with the given code exists and is ['issued'], and the
    payload is then the reduced view of that certificate.  Under the
    unique index on the code, an issued certificate whose donor is a
    stored user is answered with its reduced view; but an issued
    certificate whose donor is no longer stored is answered with the 500
    server error, because [certificate.donor.fullName] is read from a
    [null] donor: there the certificate exists and is issued, and the
    handler does not succeed.  The code of a revoked certificate and a
    code of no certificate get the same answer, the generic not-found
    failure, and leave the world as it was. *)
Theorem C3_verifyCertificate_fails_when_donor_is_gone (w : World) :
  (forall code v,
     fst (certificateController.verifyCertificate code w)
     = mkResponse 200 true (Verified "Certificate verified successfully" v) ->
     exists c donor,
       In c (certificates w) /\ Certificate.verificationCode c = code
       /\ Certificate.status c = "issued"
       /\ User.findById (users w) (Certificate.donor c) = Some donor
       /\ v = public_view c donor)
  /\ (unique_codes w ->
      forall code c,
        In c (certificates w) ->
        Certificate.verificationCode c = code ->
        Certificate.status c = "issued" ->
        match User.findById (users w) (Certificate.donor c) with
        | Some donor =>
            certificateController.verifyCertificate code w
            = (mkResponse 200 true
                 (Verified "Certificate verified successfully"
                           (public_view c donor)), w)
        | None =>
            certificateController.verifyCertificate code w
            = (server_error, log "Verify certificate error:" w)
        end)
  /\ (unique_codes w ->
      forall revoked missing c,
        In c (certificates w) ->
        Certificate.verificationCode c = revoked ->
        Certificate.status c = "revoked" ->
        (forall c', In c' (certificates w) ->
                    Certificate.verificationCode c' <> missing) ->
        certificateController.verifyCertificate revoked w
        = certificateController.verifyCertificate missing w
        /\ certificateController.verifyCertificate missing w = (not_found, w)).
Proof.
  split; [|split].
  - intros code v H.
    pose proof (verifyCertificate_cases code w) as Hc.
    pose proof (find_issued_spec (certificates w) code) as Hf.
    destruct (find _ (certificates w)) as [c|].
    + destruct Hf as [Hin [Hcode Hs]].
      destruct (User.findById (users w) (Certificate.donor c)) as [donor|] eqn:Ed.
      * rewrite Hc in H. simpl in H. injection H as <-.
        exists c, donor. now repeat split.
      * rewrite Hc in H. discriminate H.
    + rewrite Hc in H. discriminate H.
  - intros Hunique code c Hin Hcode Hs.
    pose proof (verifyCertificate_cases code w) as Hc.
    rewrite (find_issued_unique w code c Hunique Hin Hcode Hs) in Hc.
    exact Hc.
  - intros Hunique revoked missing c Hin Hcode Hs Hmissing.
    assert (H1 : certificateController.verifyCertificate revoked w
                 = (not_found, w)).
    { pose proof (verifyCertificate_cases revoked w) as Hc.
      pose proof (find_issued_spec (certificates w) revoked) as Hf.
      destruct (find _ (certificates w)) as [c'|]; [|exact Hc].
      destruct Hf as [Hin' [Hcode' Hs']].
      assert (c' = c).
      { apply (NoDup_map_injective Certificate.verificationCode
                 (certificates w)); [exact Hunique|exact Hin'|exact Hin|].
        congruence. }
      subst c'. rewrite Hs in Hs'. discriminate Hs'. }
    assert (H2 : certificateController.verifyCertificate missing w
                 = (not_found, w)).
    { pose proof (verifyCertificate_cases missing w) as Hc.
      pose proof (find_issued_spec (certificates w) missing) as Hf.
      destruct (find _ (certificates w)) as [c'|]; [|exact Hc].
      destruct Hf as [Hin' [Hcode' _]]. exfalso.
      exact (Hmissing c' Hin' Hcode'). }
    split; [now rewrite H1, H2|exact H2].
Qed.

(** After an admin has deleted the user "u2", the issued certificate of
    that donor is still stored under its code, and its verification is
    answered with the server error. *)
Lemma C3_deleted_donor_sample :
  fst (deleteUser admin_user "u2" world_with_admins)
  = Accepted 200 "User deleted successfully" tt
  /\ In certificate_issued (certificates world_after_deletion)
  /\ Certificate.verificationCode certificate_issued = "LOJ2F5A89XK2M4PQ"
  /\ Certificate.status certificate_issued = "issued"
  /\ certificateController.verifyCertificate "LOJ2F5A89XK2M4PQ"
       world_after_deletion
     = (server_error, log "Verify certificate error:" world_after_deletion)
  /\ certificateController.verifyCertificate "LOJ2F5A89XK2M4PQ"
       world_with_admins
     = (mkResponse 200 true
          (Verified "Certificate verified successfully"
                    (public_view certificate_issued ravi)), world_with_admins)
  /\ certificateController.verifyCertificate "LO2J9QW4T7YB1C6D"
       world_after_deletion
     = certificateController.verifyCertificate "NOSUCHCODE"
         world_after_deletion.
Proof.
  assert (Hu : forall w, certificates w = [certificate_issued; certificate_revoked] ->
                         unique_codes w).
  { intros w E. unfold unique_codes. rewrite E. simpl. constructor.
    - simpl. intros [H|[]]. discriminate H.
    - constructor; [simpl; tauto|constructor]. }
  destruct (C3_verifyCertificate_fails_when_donor_is_gone world_after_deletion)
    as [_ [Hgone Halike]].
  destruct (C3_verifyCertificate_fails_when_donor_is_gone world_with_admins)
    as [_ [Hthere _]].
  split; [reflexivity|]. split; [left; reflexivity|].
  split; [reflexivity|]. split; [reflexivity|]. split; [|split].
  - exact (Hgone (Hu world_after_deletion eq_refl) "LOJ2F5A89XK2M4PQ"
                 certificate_issued (or_introl eq_refl) eq_refl eq_refl).
  - exact (Hthere (Hu world_with_admins eq_refl) "LOJ2F5A89XK2M4PQ"
                  certificate_issued (or_introl eq_refl) eq_refl eq_refl).
  - destruct (Halike (Hu world_after_deletion eq_refl)
                "LO2J9QW4T7YB1C6D" "NOSUCHCODE"
                certificate_revoked) as [Hsame _];
      [right; left; reflexivity|reflexivity|reflexivity| |exact Hsame].
    intros c' [<-|[<-|[]]]; simpl; discriminate.
Defined.

(** ** Notification fan-out *)

Section FanOut.
Variable transport : Email.t -> bool.
Variable bloodRequest : BloodRequest.t.

Lemma sendEmail_frame m w :
  let w' := snd (emailService.sendEmail transport m w) in
  users w' = users w /\ donors w' = donors w /\ requests w' = requests w
  /\ outbox w' = (outbox w ++ [m])%list
  /\ console w' = (console w ++ sendEmail_log transport m)%list.
Proof.
  unfold emailService.sendEmail, sendEmail_log.
  destruct (transport m);
    cbn [snd users donors requests outbox console log hand_over];
    repeat split; rewrite <- ?app_assoc; reflexivity.
Qed.

(** A donor whose user is [null]: the notification fails before any
    mail is built, and the [catch] callback fails in its turn, so the
    world is as it was. *)
Lemma notify_null_user donor w :
  Donor.populated_user donor = None ->
  fst (emailService.sendDonorNotification transport donor bloodRequest w)
  = false
  /\ requestController.notify transport bloodRequest donor w = w.
Proof.
  intro Hu.
  unfold requestController.notify, emailService.sendDonorNotification.
  rewrite Hu. split; reflexivity.
Qed.

Lemma notify_frame donor w :
  let w' := requestController.notify transport bloodRequest donor w in
  requests w' = requests w
  /\ outbox w' = (outbox w ++ notifications bloodRequest [donor])%list
  /\ console w'
     = (console w ++ notification_log transport bloodRequest donor)%list.
Proof.
  unfold notifications, notification_log. cbn [flat_map].
  rewrite app_nil_r.
  destruct (Donor.populated_user donor) as [u|] eqn:Eu.
  - unfold requestController.notify, emailService.sendDonorNotification.
    rewrite Eu.
    change (Email.mk (User.email u) _) with (donor_notification bloodRequest u).
    pose proof (sendEmail_frame (donor_notification bloodRequest u) w) as Hf.
    cbv zeta in Hf.
    assert (Hsent : fst (emailService.sendEmail transport
                           (donor_notification bloodRequest u) w)
                    = transport (donor_notification bloodRequest u)).
    { unfold emailService.sendEmail.
      destruct (transport (donor_notification bloodRequest u)); reflexivity. }
    destruct (emailService.sendEmail transport
                (donor_notification bloodRequest u) w) as [sent w1].
    cbn [fst snd] in Hf, Hsent. destruct Hf as [_ [_ [Hr [Ho Hc]]]].
    rewrite <- Hsent. destruct sent.
    + rewrite app_nil_r. now repeat split.
    + cbn [requests outbox console log]. rewrite Hc, <- app_assoc.
      now repeat split.
  - destruct (notify_null_user donor w Eu) as [_ ->].
    rewrite !app_nil_r. now repeat split.
Qed.

Lemma notifyDonors_frame l w :
  let w' := fold_left
              (fun w0 donor =>
                 requestController.notify transport bloodRequest donor w0)
              l w in
  requests w' = requests w
  /\ outbox w' = (outbox w ++ notifications bloodRequest l)%list
  /\ console w'
     = (console w ++ flat_map (notification_log transport bloodRequest) l)%list.
Proof.
  revert w. induction l as [|d l IH]; intro w; cbn [fold_left flat_map].
  - unfold notifications. cbn [flat_map]. rewrite !app_nil_r.
    now repeat split.
  - destruct (notify_frame d w) as [Hr [Ho Hc]].
    destruct (IH (requestController.notify transport bloodRequest d w))
      as [Hr' [Ho' Hc']].
    split; [now rewrite Hr', Hr|]. split.
    + rewrite Ho', Ho. unfold notifications. cbn [flat_map].
      rewrite app_nil_r, <- app_assoc. reflexivity.
    + rewrite Hc', Hc, <- app_assoc. reflexivity.
Qed.

Lemma notifications_length l :
  (List.length (notifications bloodRequest l) <= List.length l)%nat.
Proof.
  induction l as [|d l IH]; simpl; [lia|].
  destruct (Donor.populated_user d); simpl; lia.
Qed.

(** A failed notification to a donor whose user resolves is among the
    lines. *)
Lemma failed_notification_logged l donor u :
  In donor l -> Donor.populated_user donor = Some u ->
  transport (donor_notification bloodRequest u) = false ->
  In ("Failed to notify donor " ++ User.email u ++ ":")
     (flat_map (notification_log transport bloodRequest) l).
Proof.
  intros Hin Hu Ht. apply in_flat_map. exists donor. split; [exact Hin|].
  unfold notification_log. rewrite Hu, Ht. apply in_or_app. right.
  left. reflexivity.
Qed.
End FanOut.

Section NearestFirst.
Context {A : Type}.
Variable distance : Coordinates -> Coordinates -> Q.
Variable location : A -> Coordinates.
Variable centre : Coordinates.

Lemma nearer_total (a b : A) :
  nearer distance location centre a b = true
  \/ nearer distance location centre b a = true.
Proof.
  unfold nearer. rewrite !Qle_bool_iff.
  destruct (Qlt_le_dec (distance centre (location a))
                       (distance centre (location b))) as [H|H].
  - left. apply Qlt_le_weak, H.
  - right. exact H.
Qed.

Lemma nearer_trans (a b c : A) :
  nearer distance location centre a b = true ->
  nearer distance location centre b c = true ->
  nearer distance location centre a c = true.
Proof.
  unfold nearer. rewrite !Qle_bool_iff. apply Qle_trans.
Qed.

Lemma near_order_nearest_first (l : list A) :
  StronglySorted (fun a b => nearer distance location centre a b = true)
                 (near_order distance location centre l).
Proof.
  apply sort_by_sorted; [exact nearer_total|exact nearer_trans].
Qed.
End NearestFirst.

Lemma donor_findNearby_nearest_first distance users donors coordinates
      maxDistance bt :
  StronglySorted
    (fun a b => nearer distance Donor.location coordinates a b = true)
    (map Donor.doc
       (Donor.findNearby distance users donors coordinates maxDistance bt)).
Proof.
  unfold Donor.findNearby. rewrite map_map. simpl. rewrite map_id.
  apply near_order_nearest_first.
Qed.

(** C8.  A creation whose document passes validation is answered with
    the 201 success response whatever the mail transporter does.  The
    messages handed to the transporter are the requester's confirmation
    and then one notification for each of the first 20 donors of the
    nearest-first search whose user resolves, so at most 20 of them; a
    notification the transporter refuses is written to the console and
    changes nothing in the answer.  But the notification of a donor whose
    user is [null] fails before any mail is built, and the [catch]
    callback, which reads [donor.user.email], fails with it: that failure
    leaves no line on the console, which holds the lines of the
    confirmation and of the donors whose user resolves and nothing
    else (in whatever order the concurrent sends write them). *)
Theorem C8_createBloodRequest_failure_of_null_user_not_logged
  (distance : Coordinates -> Coordinates -> Q) (transport : Email.t -> bool)
  (now : Date) (newId : ObjectId) (req_user : User.t)
  (body : requestController.RequestBody) (w : World)
  (Hvalid : BloodRequest.validate now
              (requestController.new_request newId req_user body) = true) :
  let bloodRequest := requestController.new_request newId req_user body in
  let nearby :=
    Donor.findNearby distance (users w) (donors w)
      (requestController.b_location body) 50000
      (Some (requestController.b_bloodType body)) in
  let r := requestController.createBloodRequest distance transport now
             newId req_user body w in
  fst r = mkResponse 201 true
            (RequestCreated "Blood request created successfully"
               (BloodRequest.populate (users w) bloodRequest))
  /\ requests (snd r) = (requests w ++ [bloodRequest])%list
  /\ outbox (snd r)
     = (outbox w ++ request_confirmation req_user
                 :: notifications bloodRequest (firstn 20 nearby))%list
  /\ (List.length (notifications bloodRequest (firstn 20 nearby)) <= 20)%nat
  /\ StronglySorted
       (fun a b => nearer distance Donor.location
                     (requestController.b_location body) a b = true)
       (map Donor.doc nearby)
  /\ Permutation (console (snd r))
       (console w ++ confirmation_log transport req_user
                  ++ flat_map (notification_log transport bloodRequest)
                              (firstn 20 nearby))%list
  /\ (forall donor u,
        In donor (firstn 20 nearby) ->
        Donor.populated_user donor = Some u ->
        transport (donor_notification bloodRequest u) = false ->
        In ("Failed to notify donor " ++ User.email u ++ ":")
           (console (snd r)))
  /\ (forall donor,
        In donor (firstn 20 nearby) ->
        Donor.populated_user donor = None ->
        notification_log transport bloodRequest donor = []
        /\ forall w0,
             fst (emailService.sendDonorNotification transport donor
                    bloodRequest w0) = false
             /\ requestController.notify transport bloodRequest donor w0 = w0).
Proof.
  intros bloodRequest nearby r. subst r.
  unfold requestController.createBloodRequest.
  rewrite Hvalid. fold bloodRequest.
  set (w1 := with_requests (requests w ++ [bloodRequest])%list w).
  unfold emailService.sendRequestConfirmation.
  fold (request_confirmation req_user).
  pose proof (sendEmail_frame transport (request_confirmation req_user) w1)
    as Hframe.
  assert (Hsent : fst (emailService.sendEmail transport
                         (request_confirmation req_user) w1)
                  = transport (request_confirmation req_user)).
  { unfold emailService.sendEmail.
    destruct (transport (request_confirmation req_user)); reflexivity. }
  destruct (emailService.sendEmail transport (request_confirmation req_user) w1)
    as [confirmed w2].
  cbn [fst snd] in Hframe, Hsent. cbv zeta in Hframe.
  destruct Hframe as [Hu [Hd [Hr [Ho Hc]]]].
  set (w3 := if confirmed then w2
             else log "Failed to send confirmation email:" w2).
  assert (H3 : users w3 = users w /\ donors w3 = donors w
               /\ requests w3 = (requests w ++ [bloodRequest])%list
               /\ outbox w3 = (outbox w ++ [request_confirmation req_user])%list
               /\ console w3
                  = (console w ++ confirmation_log transport req_user)%list).
  { subst w3. unfold confirmation_log. rewrite <- Hsent.
    destruct confirmed; cbn [users donors requests outbox console log];
      rewrite Hu, Hd, Hr, Ho, Hc; rewrite ?app_nil_r, <- ?app_assoc;
      now repeat split. }
  destruct H3 as [Hu3 [Hd3 [Hr3 [Ho3 Hc3]]]].
  rewrite Hu3, Hd3.
  change (BloodRequest.location bloodRequest)
    with (requestController.b_location body).
  change (BloodRequest.bloodType bloodRequest)
    with (requestController.b_bloodType body).
  fold nearby. unfold requestController.notifyDonors.
  destruct (notifyDonors_frame transport bloodRequest (firstn 20 nearby) w3)
    as [Hreq [Hout Hcon]].
  cbn [fst snd]. split; [reflexivity|]. split; [now rewrite Hreq|]. split.
  { rewrite Hout, Ho3, <- app_assoc. reflexivity. }
  split.
  { eapply Nat.le_trans; [apply notifications_length|].
    apply firstn_le_length. }
  split; [apply donor_findNearby_nearest_first|].
  split; [rewrite Hcon, Hc3, <- app_assoc; apply Permutation_refl|].
  split.
  - intros donor u Hin Hdu Ht. rewrite Hcon. apply in_or_app. right.
    exact (failed_notification_logged transport bloodRequest _ donor u
             Hin Hdu Ht).
  - intros donor Hin Hdu. split.
    + unfold notification_log. rewrite Hdu. reflexivity.
    + intro w0. exact (notify_null_user transport bloodRequest donor w0 Hdu).
Qed.

(** After the user "u2" has been deleted, its donor profile is still the
    nearest available O- donor.  With the transporter down the creation
    is answered 201; the notification of that donor fails, and no line
    about it is on the console: the lines are those of the failed
    confirmation. *)
Lemma C8_deleted_user_sample :
  let r := requestController.createBloodRequest grid_metres transport_down
             sample_now "r9" asha sample_body world_after_deletion in
  statusCode (fst r) = 201
  /\ Donor.findNearby grid_metres (users world_after_deletion)
       (donors world_after_deletion) noida 50000 (Some "O-")
     = [Donor.mkPopulated donor_ravi None]
  /\ fst (emailService.sendDonorNotification transport_down
            (Donor.mkPopulated donor_ravi None)
            (requestController.new_request "r9" asha sample_body)
            world_after_deletion) = false
  /\ console (snd r)
     = confirmation_log transport_down asha
  /\ outbox (snd r) = [request_confirmation asha].
Proof.
  destruct (C8_createBloodRequest_failure_of_null_user_not_logged grid_metres
              transport_down sample_now "r9" asha sample_body
              world_after_deletion eq_refl)
    as [Hresponse [_ [Hout [_ [_ [_ [_ Hnull]]]]]]].
  assert (Hnear : Donor.findNearby grid_metres (users world_after_deletion)
                    (donors world_after_deletion) noida 50000 (Some "O-")
                  = [Donor.mkPopulated donor_ravi None])
    by (vm_compute; reflexivity).
  change (requestController.b_location sample_body) with noida in Hout, Hnull.
  change (requestController.b_bloodType sample_body) with "O-" in Hout, Hnull.
  rewrite Hnear in Hout, Hnull.
  destruct (Hnull (Donor.mkPopulated donor_ravi None) (or_introl eq_refl)
              eq_refl) as [_ Hfail].
  cbv zeta. split; [rewrite Hresponse; reflexivity|].
  split; [exact Hnear|]. split; [exact (proj1 (Hfail world_after_deletion))|].
  split; [reflexivity|].
  rewrite Hout. reflexivity.
Defined.

(** With the user stored, the refused notification is on the console. *)
Lemma fan_out_logged_sample :
  In "Failed to notify donor ravi@example.com:"
     (console
        (snd (requestController.createBloodRequest grid_metres
                transport_down sample_now "r9" asha sample_body
                sample_world))).
Proof. vm_compute. do 9 right. left. reflexivity. Qed.

(** With twenty-five donors in range, twenty notifications follow the
    confirmation, and the answer is the same with the transporter up or
    down. *)
Lemma fan_out_crowd_sample :
  List.length
    (outbox (snd (requestController.createBloodRequest grid_metres
                    transport_down sample_now "r9" asha sample_body
                    crowd_world))) = 21%nat
  /\ fst (requestController.createBloodRequest grid_metres transport_down
            sample_now "r9" asha sample_body crowd_world)
     = fst (requestController.createBloodRequest grid_metres transport_up
              sample_now "r9" asha sample_body crowd_world).
Proof. split; vm_compute; reflexivity. Qed.

(** A patient name of blanks is trimmed to the empty string and refused
    by the [required] validator. *)
Lemma blank_patientName_sample :
  statusCode
    (fst (requestController.createBloodRequest grid_metres transport_up
            sample_now "r9" asha
            (requestController.mkRequestBody "   " "O-" 2 (Some "high")
               (sample_now + 2 * msPerDay) noida)
            sample_world)) = 500
  /\ trim "  Patient Five  " = "Patient Five".
Proof. split; vm_compute; reflexivity. Qed.

(** * Further properties of the modelled code *)

(** ** The compatibility table *)

Lemma row_of_unknown_type (T : string) :
  ~ In T bloodTypes -> BloodRequest.getCompatibleBloodTypes T = [].
Proof.
  intro H. unfold BloodRequest.getCompatibleBloodTypes, BloodRequest.compatibility.
  simpl.
  repeat match goal with
         | |- context [String.eqb T ?k] =>
             destruct (String.eqb_spec T k) as [->|_];
             [exfalso; apply H; simpl; tauto|]
         end.
  reflexivity.
Qed.

Lemma rows_within_enum (a b : string) :
  In b (BloodRequest.getCompatibleBloodTypes a) ->
  In a bloodTypes /\ In b bloodTypes.
Proof.
  intro H.
  assert (Ha : In a bloodTypes).
  { destruct (in_dec string_dec a bloodTypes) as [Ha|Ha]; [exact Ha|].
    rewrite (row_of_unknown_type a Ha) in H. destruct H. }
  split; [exact Ha|].
  simpl in Ha.
  repeat (destruct Ha as [<-|Ha];
          [simpl in H; simpl; tauto|]).
  contradiction.
Qed.

Lemma gives_closed :
  forallb (fun a =>
     gives a a && gives a "AB+" && gives "O-" a
     && forallb (fun b =>
          forallb (fun c => implb (gives a b && gives b c) (gives a c))
                  bloodTypes) bloodTypes) bloodTypes = true.
Proof. vm_compute. reflexivity. Qed.

(** X1.  On the eight blood types the table of [getCompatibleBloodTypes]
    is reflexive and transitive, its rows hold blood types of the enum
    only, every row holds AB+ and the O- row holds every type. *)
Theorem X1_compatibility_table_preorder :
  (forall a, In a bloodTypes -> In a (BloodRequest.getCompatibleBloodTypes a))
  /\ (forall a b c,
        In b (BloodRequest.getCompatibleBloodTypes a) ->
        In c (BloodRequest.getCompatibleBloodTypes b) ->
        In c (BloodRequest.getCompatibleBloodTypes a))
  /\ (forall a b, In b (BloodRequest.getCompatibleBloodTypes a) ->
                  In a bloodTypes /\ In b bloodTypes)
  /\ (forall a, In a bloodTypes ->
                In "AB+" (BloodRequest.getCompatibleBloodTypes a)
                /\ In a (BloodRequest.getCompatibleBloodTypes "O-")).
Proof.
  pose proof gives_closed as H. rewrite forallb_forall in H.
  split; [|split; [|split]].
  - intros a Ha. specialize (H a Ha).
    rewrite !andb_true_iff in H. destruct H as [[[H _] _] _].
    now apply mongo_in_In in H.
  - intros a b c Hab Hbc.
    destruct (rows_within_enum a b Hab) as [Ha Hb].
    destruct (rows_within_enum b c Hbc) as [_ Hc].
    specialize (H a Ha). rewrite !andb_true_iff in H. destruct H as [_ H].
    rewrite forallb_forall in H. specialize (H b Hb).
    rewrite forallb_forall in H. specialize (H c Hc).
    apply mongo_in_In in Hab. apply mongo_in_In in Hbc.
    unfold gives in H. rewrite Hab, Hbc in H. simpl in H.
    now apply mongo_in_In.
  - exact rows_within_enum.
  - intros a Ha. specialize (H a Ha).
    rewrite !andb_true_iff in H. destruct H as [[[_ H1] H2] _].
    split; now apply mongo_in_In.
Qed.

Lemma X1_preorder_sample :
  In "A+" (BloodRequest.getCompatibleBloodTypes "A+")
  /\ In "AB+" (BloodRequest.getCompatibleBloodTypes "O+")
  /\ In "AB+" (BloodRequest.getCompatibleBloodTypes "A-")
  /\ In "B-" (BloodRequest.getCompatibleBloodTypes "O-").
Proof.
  destruct X1_compatibility_table_preorder as [Hrefl [Htrans [_ Hends]]].
  split; [apply Hrefl; simpl; tauto|].
  split; [apply (Htrans "O+" "A+" "AB+"); simpl; tauto|].
  split; [apply (Hends "A-"); simpl; tauto|].
  apply (Hends "B-"). simpl. tauto.
Defined.

(** ** Edges of the nearby searches *)

Lemma filter_none {A : Type} (f : A -> bool) (l : list A) :
  (forall x, In x l -> f x = false) -> filter f l = [].
Proof.
  induction l as [|x l IH]; simpl; intro H; [reflexivity|].
  rewrite (H x (or_introl eq_refl)). apply IH. intros y Hy. apply H. now right.
Qed.

(** X2.  A donor blood type that is a non-empty string outside the enum
    (and not a name every object inherits) matches no request at all:
    the search answers the empty list whatever is stored.  An empty
    string is treated like no blood type: no blood-type filter applies. *)
Theorem X2_findNearbyRequests_unknown_type_matches_nothing
  (distance : Coordinates -> Coordinates -> Q) (now : Date)
  (users : list User.t) (requests : list BloodRequest.t)
  (coordinates : Coordinates) (maxDistance : Z) (T : string)
  (Hnonempty : T <> "")
  (Hunknown : ~ In T bloodTypes)
  (Hplain : ~ In T object_prototype_keys) :
  BloodRequest.findNearby distance now users requests coordinates maxDistance
    (Some T) = []
  /\ BloodRequest.findNearby distance now users requests coordinates maxDistance
       (Some "")
     = BloodRequest.findNearby distance now users requests coordinates
         maxDistance None.
Proof.
  split; [|reflexivity].
  unfold BloodRequest.findNearby.
  rewrite (filter_none
             (BloodRequest.nearby_query distance now coordinates maxDistance
                (Some T)) requests); [reflexivity|].
  intros r _. unfold BloodRequest.nearby_query.
  apply String.eqb_neq in Hnonempty. simpl. rewrite Hnonempty. simpl.
  rewrite (row_of_unknown_type T Hunknown). simpl. apply andb_false_r.
Qed.

Lemma X2_unknown_type_sample :
  BloodRequest.findNearby grid_metres sample_now sample_users sample_requests
    delhi 50000 (Some "C+") = [].
Proof.
  apply (X2_findNearbyRequests_unknown_type_matches_nothing grid_metres
           sample_now sample_users sample_requests delhi 50000 "C+").
  - discriminate.
  - simpl. intros [H|[H|[H|[H|[H|[H|[H|[H|[]]]]]]]]]; discriminate H.
  - simpl.
    intros [H|[H|[H|[H|[H|[H|[H|[H|[H|[H|[H|[H|[]]]]]]]]]]]]]; discriminate H.
Defined.

(** X3.  The request search returns the stored requests that satisfy its
    filter, each as often as it is stored, none lost and none added, in
    the order of the sort key: descending byte order of the urgency
    string, and ascending [requiredBy] among requests of one urgency. *)
Theorem X3_findNearbyRequests_sorted_permutation_of_matches
  (distance : Coordinates -> Coordinates -> Q) (now : Date)
  (users : list User.t) (requests : list BloodRequest.t)
  (coordinates : Coordinates) (maxDistance : Z) (bt : option string) :
  let result := map BloodRequest.doc
                  (BloodRequest.findNearby distance now users requests
                     coordinates maxDistance bt) in
  Permutation result
    (filter (BloodRequest.nearby_query distance now coordinates maxDistance bt)
            requests)
  /\ StronglySorted code_before result
  /\ StronglySorted
       (fun a b => BloodRequest.urgency a = BloodRequest.urgency b ->
                   BloodRequest.requiredBy a <= BloodRequest.requiredBy b)
       result.
Proof.
  intro result.
  assert (Hs : StronglySorted code_before result)
    by apply findNearby_in_code_order.
  split; [|split; [exact Hs|]].
  - subst result. unfold BloodRequest.findNearby, near_order.
    rewrite map_map. simpl. rewrite map_id.
    eapply perm_trans; [apply Permutation_sym, sort_by_perm|].
    apply Permutation_sym, sort_by_perm.
  - induction Hs as [|a l Hs IH Hall]; constructor; [exact IH|].
    eapply Forall_impl; [|exact Hall].
    intros b Hab E. now apply code_before_equal_urgency.
Qed.

(** X4.  The donor search returns the stored donors that satisfy its
    filter, each as often as it is stored, nearest first. *)
Theorem X4_findNearbyDonors_nearest_first_permutation_of_matches
  (distance : Coordinates -> Coordinates -> Q)
  (users : list User.t) (donors : list Donor.t)
  (coordinates : Coordinates) (maxDistance : Z) (bt : option string) :
  let result := map Donor.doc
                  (Donor.findNearby distance users donors coordinates
                     maxDistance bt) in
  Permutation result
    (filter (Donor.nearby_query distance coordinates maxDistance bt) donors)
  /\ StronglySorted
       (fun a b => (distance coordinates (Donor.location a)
                    <= distance coordinates (Donor.location b))%Q)
       result.
Proof.
  intro result. split.
  - subst result. unfold Donor.findNearby, near_order.
    rewrite map_map. simpl. rewrite map_id.
    apply Permutation_sym, sort_by_perm.
  - pose proof (donor_findNearby_nearest_first distance users donors
                  coordinates maxDistance bt) as Hs.
    fold result in Hs.
    induction Hs as [|a l Hs IH Hall]; constructor; [exact IH|].
    eapply Forall_impl; [|exact Hall].
    intros b Hab. unfold nearer in Hab. now apply Qle_bool_iff in Hab.
Qed.

(** ** Eligibility and availability of a donor *)

Lemma isEligibleToDonate_iff LocalTZA now d :
  Donor.isEligibleToDonate LocalTZA now d = true
  <-> Donor.isAvailable d = true
      /\ match Donor.lastDonationDate d with
         | None => True
         | Some lastDonation =>
             setDate_getDate_plus LocalTZA 56 lastDonation <= now
         end.
Proof.
  unfold Donor.isEligibleToDonate, Donor.nextEligibleDonationDate.
  destruct (Donor.isAvailable d); simpl.
  - destruct (Donor.lastDonationDate d) as [l|].
    + rewrite Z.leb_le. tauto.
    + tauto.
  - split; [discriminate|]. intros [H _]. discriminate H.
Qed.

(** X5.  Eligibility only grows with time: a donor eligible at one
    moment is eligible at every later one.  An available donor with a
    last donation is eligible exactly from the date that lies 56
    calendar days after it in the host's local time; in a zone whose
    offsets differ by at most [h], the donor is eligible once 56 times
    24 hours and [h] have passed, and not before 56 times 24 hours less
    [h] have.  [updateAvailability] never switches a donor on, and
    recomputing at a later time never changes what an earlier
    recomputation stored: a donor it has switched off stays off, however
    much time passes. *)
Theorem X5_eligibility_monotone_and_updateAvailability_only_lowers
  (LocalTZA : Z -> bool -> Z)
  (now later : Date) (d : Donor.t) (Hlater : now <= later) :
  (Donor.isEligibleToDonate LocalTZA now d = true ->
   Donor.isEligibleToDonate LocalTZA later d = true)
  /\ (forall lastDonation,
        Donor.isAvailable d = true ->
        Donor.lastDonationDate d = Some lastDonation ->
        (Donor.isEligibleToDonate LocalTZA now d = true
         <-> setDate_getDate_plus LocalTZA 56 lastDonation <= now)
        /\ forall h,
             (forall a b x y, Z.abs (LocalTZA a x - LocalTZA b y) <= h) ->
             (lastDonation + 56 * msPerDay + h <= now ->
              Donor.isEligibleToDonate LocalTZA now d = true)
             /\ (now < lastDonation + 56 * msPerDay - h ->
                 Donor.isEligibleToDonate LocalTZA now d = false))
  /\ (Donor.isAvailable (Donor.updateAvailability LocalTZA now d) = true ->
      Donor.isAvailable d = true)
  /\ Donor.updateAvailability LocalTZA later
       (Donor.updateAvailability LocalTZA now d)
     = Donor.updateAvailability LocalTZA now d.
Proof.
  assert (Hmono : Donor.isEligibleToDonate LocalTZA now d = true ->
                  Donor.isEligibleToDonate LocalTZA later d = true).
  { rewrite !isEligibleToDonate_iff. intros [Ha Hl]. split; [exact Ha|].
    destruct (Donor.lastDonationDate d); [lia|exact I]. }
  split; [exact Hmono|]. split; [|split].
  - intros l Ha Hl.
    assert (Hiff : Donor.isEligibleToDonate LocalTZA now d = true
                   <-> setDate_getDate_plus LocalTZA 56 l <= now).
    { rewrite isEligibleToDonate_iff, Ha, Hl. tauto. }
    split; [exact Hiff|]. intros h Hh.
    pose proof (setDate_getDate_plus_bounds LocalTZA 56 l h Hh) as Hb.
    split.
    + intro H. apply Hiff. lia.
    + intro H.
      destruct (Donor.isEligibleToDonate LocalTZA now d); [|reflexivity].
      pose proof (proj1 Hiff eq_refl). lia.
  - unfold Donor.updateAvailability. simpl. intro H.
    now apply isEligibleToDonate_iff in H.
  - unfold Donor.updateAvailability at 1.
    assert (E : Donor.isEligibleToDonate LocalTZA later
                  (Donor.updateAvailability LocalTZA now d)
                = Donor.isEligibleToDonate LocalTZA now d).
    { destruct (Donor.isEligibleToDonate LocalTZA now d) eqn:En.
      - apply isEligibleToDonate_iff. unfold Donor.updateAvailability.
        rewrite En. simpl. split; [reflexivity|].
        specialize (Hmono eq_refl). apply isEligibleToDonate_iff in Hmono.
        tauto.
      - unfold Donor.isEligibleToDonate, Donor.updateAvailability.
        rewrite En. reflexivity. }
    rewrite E. unfold Donor.updateAvailability. reflexivity.
Qed.

(** On a host in New York, a donor who gave on 15 October 2023 is not
    yet eligible when 56 times 24 hours have passed, because the clocks
    went back in between, and is eligible one hour later and from then
    on. *)
Lemma X5_eligibility_sample :
  Donor.isEligibleToDonate new_york (sample_now + 26 * msPerDay) donor_october
  = false
  /\ Donor.isEligibleToDonate new_york (sample_now + 26 * msPerDay + msPerHour)
       donor_october = true
  /\ Donor.isEligibleToDonate new_york (sample_now + 100 * msPerDay)
       donor_october = true
  /\ Donor.isEligibleToDonate utc (sample_now + 26 * msPerDay) donor_october
     = true.
Proof.
  assert (Hlater : sample_now + 26 * msPerDay + msPerHour
                   <= sample_now + 100 * msPerDay)
    by (vm_compute; discriminate).
  destruct (X5_eligibility_monotone_and_updateAvailability_only_lowers new_york
              (sample_now + 26 * msPerDay + msPerHour)
              (sample_now + 100 * msPerDay) donor_october Hlater)
    as [Hmono [Hdate _]].
  destruct (Hdate (sample_now - 30 * msPerDay) eq_refl eq_refl) as [Hiff _].
  assert (Hhour : Donor.isEligibleToDonate new_york
                    (sample_now + 26 * msPerDay + msPerHour) donor_october
                  = true)
    by (apply Hiff; vm_compute; discriminate).
  split; [reflexivity|]. split; [exact Hhour|].
  split; [exact (Hmono Hhour)|reflexivity].
Defined.

(** ** Status of a blood request *)

Lemma validate_deadline now r :
  BloodRequest.validate now r = true -> now < BloodRequest.requiredBy r.
Proof.
  unfold BloodRequest.validate. intro H.
  apply andb_prop in H. destruct H as [H _].
  apply andb_prop in H. destruct H as [_ H].
  now apply Z.ltb_lt.
Qed.

Lemma validate_set_status now r s :
  BloodRequest.validate now r = true ->
  In s ["active"; "partially_fulfilled"; "fulfilled"; "expired"; "cancelled"] ->
  BloodRequest.validate now (BloodRequest.set_status s r) = true.
Proof.
  unfold BloodRequest.validate, BloodRequest.set_status.
  cbn [BloodRequest.patientName BloodRequest.bloodType
       BloodRequest.unitsNeeded BloodRequest.urgency BloodRequest.requiredBy
       BloodRequest.status].
  intros H Hs. apply andb_prop in H. destruct H as [H _]. rewrite H.
  apply mongo_in_In. exact Hs.
Qed.

Lemma validate_past_deadline now r :
  BloodRequest.requiredBy r <= now -> BloodRequest.validate now r = false.
Proof.
  intro H. unfold BloodRequest.validate.
  replace (now <? BloodRequest.requiredBy r) with false
    by (symmetry; apply Z.ltb_ge; exact H).
  rewrite andb_false_r. reflexivity.
Qed.

(** The assignment of [updateStatus] touches [status] only. *)
Lemma updateStatus_status_set now r :
  BloodRequest.updateStatus_status now r
  = BloodRequest.set_status
      (BloodRequest.status (BloodRequest.updateStatus_status now r)) r.
Proof.
  unfold BloodRequest.updateStatus_status.
  destruct (BloodRequest.isExpired now r
            && String.eqb (BloodRequest.status r) "active"); [reflexivity|].
  destruct (BloodRequest.unitsNeeded r <=? BloodRequest.unitsFulfilled r);
    [reflexivity|].
  destruct (0 <? BloodRequest.unitsFulfilled r); [reflexivity|].
  destruct r; reflexivity.
Qed.

Lemma updateStatus_status_before_deadline now r :
  now < BloodRequest.requiredBy r ->
  BloodRequest.status (BloodRequest.updateStatus_status now r)
  = if BloodRequest.unitsNeeded r <=? BloodRequest.unitsFulfilled r
    then "fulfilled"
    else if 0 <? BloodRequest.unitsFulfilled r then "partially_fulfilled"
    else BloodRequest.status r.
Proof.
  intro H. unfold BloodRequest.updateStatus_status, BloodRequest.isExpired.
  replace (BloodRequest.requiredBy r <? now) with false
    by (symmetry; apply Z.ltb_ge; lia).
  cbn [andb].
  destruct (BloodRequest.unitsNeeded r <=? BloodRequest.unitsFulfilled r);
    [reflexivity|].
  destruct (0 <? BloodRequest.unitsFulfilled r); reflexivity.
Qed.

Lemma validate_updateStatus_status now r :
  BloodRequest.validate now r = true ->
  BloodRequest.validate now (BloodRequest.updateStatus_status now r) = true.
Proof.
  intro H. rewrite updateStatus_status_set.
  apply validate_set_status; [exact H|].
  rewrite (updateStatus_status_before_deadline now r (validate_deadline now r H)).
  destruct (BloodRequest.unitsNeeded r <=? BloodRequest.unitsFulfilled r);
    [simpl; tauto|].
  destruct (0 <? BloodRequest.unitsFulfilled r); [simpl; tauto|].
  unfold BloodRequest.validate in H. apply andb_prop in H.
  destruct H as [_ H]. now apply mongo_in_In.
Qed.

Lemma save_stored now r requests stored :
  BloodRequest.save now r requests = Some stored ->
  BloodRequest.validate now r = true
  /\ stored = map (fun x => if String.eqb (BloodRequest._id x)
                                          (BloodRequest._id r)
                            then r else x) requests.
Proof.
  unfold BloodRequest.save.
  destruct (BloodRequest.validate now r); intro H; [|discriminate H].
  injection H as <-. now split.
Qed.

Lemma save_valid now r requests :
  BloodRequest.validate now r = true ->
  exists stored, BloodRequest.save now r requests = Some stored.
Proof.
  intro H. unfold BloodRequest.save. rewrite H. eexists. reflexivity.
Qed.

(** X7.  [updateStatus] ends in [save], which runs the validators again,
    the one of [requiredBy] among them.  So for a request whose deadline
    has been reached the method throws and stores nothing, and the
    branch that assigns ['expired'] never reaches the store.  When the
    method succeeds, the deadline is still ahead, the stored request
    differs from the loaded one in [status] only, and the status is
    ['fulfilled'], ['partially_fulfilled'] or as it was: ['expired'] is
    stored only where it was stored before.  On a request that passes
    the validators the method does succeed. *)
Theorem X7_updateStatus_never_stores_expired
  (now : Date) (r : BloodRequest.t) (requests : list BloodRequest.t) :
  (BloodRequest.requiredBy r <= now ->
   BloodRequest.updateStatus now r requests = None)
  /\ (forall r' stored,
        BloodRequest.updateStatus now r requests = Some (r', stored) ->
        now < BloodRequest.requiredBy r
        /\ r' = BloodRequest.set_status (BloodRequest.status r') r
        /\ stored = map (fun x => if String.eqb (BloodRequest._id x)
                                                (BloodRequest._id r)
                                  then r' else x) requests
        /\ In (BloodRequest.status r')
              ["fulfilled"; "partially_fulfilled"; BloodRequest.status r]
        /\ (BloodRequest.status r' = "expired" ->
            BloodRequest.status r = "expired"))
  /\ (BloodRequest.validate now r = true ->
      exists r' stored,
        BloodRequest.updateStatus now r requests = Some (r', stored)).
Proof.
  assert (Hfields : BloodRequest.requiredBy (BloodRequest.updateStatus_status now r)
                    = BloodRequest.requiredBy r
                    /\ BloodRequest._id (BloodRequest.updateStatus_status now r)
                       = BloodRequest._id r).
  { rewrite updateStatus_status_set. split; reflexivity. }
  destruct Hfields as [Hdeadline Hid].
  split; [|split].
  - intro Hpast. unfold BloodRequest.updateStatus, BloodRequest.save.
    rewrite validate_past_deadline; [reflexivity|].
    rewrite Hdeadline. exact Hpast.
  - intros r' stored H. unfold BloodRequest.updateStatus in H.
    destruct (BloodRequest.save now (BloodRequest.updateStatus_status now r)
                requests) as [stored'|] eqn:Es; [|discriminate H].
    injection H as <- <-.
    apply save_stored in Es. destruct Es as [Hv ->].
    apply validate_deadline in Hv. rewrite Hdeadline in Hv.
    pose proof (updateStatus_status_before_deadline now r Hv) as Hs.
    split; [exact Hv|]. split; [apply updateStatus_status_set|].
    split; [rewrite Hid; reflexivity|]. rewrite Hs.
    destruct (BloodRequest.unitsNeeded r <=? BloodRequest.unitsFulfilled r);
      [split; [simpl; tauto|discriminate]|].
    destruct (0 <? BloodRequest.unitsFulfilled r);
      [split; [simpl; tauto|discriminate]|].
    split; [simpl; tauto|auto].
  - intro Hv. unfold BloodRequest.updateStatus.
    destruct (save_valid now (BloodRequest.updateStatus_status now r) requests
                (validate_updateStatus_status now r Hv)) as [stored ->].
    eexists. eexists. reflexivity.
Qed.

(** An active request one day past its deadline cannot be marked
    expired by [updateStatus]. *)
Lemma updateStatus_past_deadline_sample :
  BloodRequest.status
    (BloodRequest.updateStatus_status (sample_now + 2 * msPerDay)
       request_critical) = "expired"
  /\ BloodRequest.updateStatus (sample_now + 2 * msPerDay) request_critical
       sample_requests = None.
Proof. split; vm_compute; reflexivity. Qed.

(** ** Completing a donation *)

Lemma donation_findById_save donations id d d' :
  Donation.findById donations id = Some d -> Donation._id d' = Donation._id d ->
  Donation.findById (Donation.save d' donations) id = Some d'.
Proof.
  intros H Hi.
  assert (Hd : Donation._id d = id).
  { apply find_some in H. destruct H as [_ H]. now apply String.eqb_eq in H. }
  assert (Hd' : Donation._id d' = id) by congruence.
  unfold Donation.findById, Donation.save in *. rewrite Hd'. clear Hi Hd.
  induction donations as [|a l IH]; simpl in *; [discriminate H|].
  destruct (String.eqb (Donation._id a) id) eqn:Ea.
  - rewrite Hd', String.eqb_refl. reflexivity.
  - rewrite Ea. apply IH, H.
Qed.

Lemma request_findById_save now requests stored id r r' :
  BloodRequest.findById requests id = Some r ->
  BloodRequest._id r' = BloodRequest._id r ->
  BloodRequest.save now r' requests = Some stored ->
  BloodRequest.findById stored id = Some r'.
Proof.
  intros H Hi Hs. apply save_stored in Hs. destruct Hs as [_ ->].
  assert (Hd : BloodRequest._id r = id).
  { apply find_some in H. destruct H as [_ H]. now apply String.eqb_eq in H. }
  assert (Hd' : BloodRequest._id r' = id) by congruence.
  unfold BloodRequest.findById in *. rewrite Hd'. clear Hi Hd.
  induction requests as [|a l IH]; simpl in *; [discriminate H|].
  destruct (String.eqb (BloodRequest._id a) id) eqn:Ea.
  - rewrite Hd', String.eqb_refl. reflexivity.
  - rewrite Ea. apply IH, H.
Qed.

Lemma In_request_save now r r' requests stored :
  BloodRequest.save now r' requests = Some stored ->
  In r stored ->
  r = r' \/ (In r requests /\ BloodRequest._id r <> BloodRequest._id r').
Proof.
  intro Hs. apply save_stored in Hs. destruct Hs as [_ ->].
  rewrite in_map_iff. intros [a [E Ha]].
  destruct (String.eqb_spec (BloodRequest._id a) (BloodRequest._id r')) as [Hi|Hi].
  - left. now symmetry.
  - right. subst a. now split.
Qed.

Lemma advanced_fields now r :
  BloodRequest._id (advanced now r) = BloodRequest._id r
  /\ BloodRequest.unitsFulfilled (advanced now r)
     = BloodRequest.unitsFulfilled r + 1
  /\ BloodRequest.requiredBy (advanced now r) = BloodRequest.requiredBy r.
Proof.
  unfold advanced. rewrite updateStatus_status_set. now repeat split.
Qed.

Lemma validate_advanced now r :
  BloodRequest.validate now r = true ->
  BloodRequest.validate now (advanced now r) = true.
Proof.
  intro H. unfold advanced. apply validate_updateStatus_status.
  unfold BloodRequest.validate, BloodRequest.set_unitsFulfilled in *.
  exact H.
Qed.

Lemma completeDonation_reaches_request LocalTZA now id w found donor request :
  Donation.findById (donations w) id = Some found ->
  String.eqb (Donation.status found) "completed" = false ->
  Donor.findById (donors w) (Donation.donor found) = Some donor ->
  BloodRequest.findById (requests w) (Donation.bloodRequest found)
  = Some request ->
  donationController.completeDonation LocalTZA now id w
  = match BloodRequest.save now (advanced now request) (requests w) with
    | Some stored =>
        (mkResponse 200 true
           (DonationCompleted "Donation completed successfully"
              (Donation.mkPopulated (Donation.set_status "completed" found)
                 (Some (credited LocalTZA now found donor))
                 (Some (advanced now request)))),
         with_requests stored
           (completeDonation_before_request LocalTZA now w found donor))
    | None =>
        (failure 500 "Server error while completing donation",
         log "Complete donation error:"
           (completeDonation_before_request LocalTZA now w found donor))
    end.
Proof.
  intros Hf Hs Hd Hr. unfold donationController.completeDonation.
  rewrite Hf, Hs.
  cbn [Donation.populate Donation.populated_donor
       Donation.populated_bloodRequest].
  rewrite Hd, Hr. unfold BloodRequest.updateStatus.
  fold (advanced now request).
  cbn [requests with_donors with_donations].
  destruct (BloodRequest.save now (advanced now request) (requests w));
    reflexivity.
Qed.

Lemma completeDonation_again LocalTZA now id w found :
  Donation.findById (donations w) id = Some found ->
  Donation.status found = "completed" ->
  donationController.completeDonation LocalTZA now id w
  = (failure 400 "Donation is already completed", w).
Proof.
  intros Hf Hs. unfold donationController.completeDonation.
  rewrite Hf, Hs. reflexivity.
Qed.

(** X8.  When the donation, its donor and its request are all stored,
    the donation is not yet completed and the request passes its
    validators at that time (its deadline is ahead), [completeDonation]
    answers 200, credits the donor with one donation and the donated
    volume and the request with one unit, and a repeated call, at any
    time, is answered 400 and writes nothing: a donation is counted
    once. *)
Theorem X8_completeDonation_counts_once
  (LocalTZA : Z -> bool -> Z) (now : Date) (id : ObjectId) (w : World)
  (found : Donation.t) (donor : Donor.t) (request : BloodRequest.t)
  (Hfound : Donation.findById (donations w) id = Some found)
  (Hopen : String.eqb (Donation.status found) "completed" = false)
  (Hdonor : Donor.findById (donors w) (Donation.donor found) = Some donor)
  (Hrequest : BloodRequest.findById (requests w) (Donation.bloodRequest found)
              = Some request)
  (Hvalid : BloodRequest.validate now request = true) :
  let r := donationController.completeDonation LocalTZA now id w in
  statusCode (fst r) = 200
  /\ (exists donor',
        Donor.findById (donors (snd r)) (Donation.donor found) = Some donor'
        /\ Donor.donationCount donor' = Donor.donationCount donor + 1
        /\ Donor.totalVolumeDonated donor'
           = Donor.totalVolumeDonated donor + Donation.volumeDonated found)
  /\ (exists stored,
        Donation.findById (donations (snd r)) id = Some stored
        /\ Donation.status stored = "completed")
  /\ (exists request',
        BloodRequest.findById (requests (snd r)) (Donation.bloodRequest found)
        = Some request'
        /\ BloodRequest.unitsFulfilled request'
           = BloodRequest.unitsFulfilled request + 1)
  /\ (forall later,
        donationController.completeDonation LocalTZA later id (snd r)
        = (failure 400 "Donation is already completed", snd r)).
Proof.
  intro r. subst r.
  rewrite (completeDonation_reaches_request LocalTZA now id w found donor
             request Hfound Hopen Hdonor Hrequest).
  destruct (save_valid now (advanced now request) (requests w)
              (validate_advanced now request Hvalid)) as [stored Hsave].
  rewrite Hsave.
  cbn [fst snd statusCode donors donations requests with_requests
       completeDonation_before_request with_donors with_donations].
  assert (Hstored :
            Donation.findById
              (Donation.save (Donation.set_status "completed" found)
                             (donations w)) id
            = Some (Donation.set_status "completed" found)).
  { apply donation_findById_save with (d := found); [exact Hfound|reflexivity]. }
  destruct (advanced_fields now request) as [Hid [Hunits _]].
  split; [reflexivity|]. split; [|split; [|split]].
  - exists (credited LocalTZA now found donor). split; [|split; reflexivity].
    apply findById_save with (d := donor); [exact Hdonor|reflexivity].
  - eexists. split; [exact Hstored|reflexivity].
  - exists (advanced now request). split; [|exact Hunits].
    exact (request_findById_save now (requests w) stored _ request _
             Hrequest Hid Hsave).
  - intro later. apply completeDonation_again with
      (found := Donation.set_status "completed" found); [exact Hstored|reflexivity].
Qed.

Lemma X8_counts_once_sample :
  statusCode (fst (donationController.completeDonation utc sample_now "n1"
                     sample_world)) = 200
  /\ donationController.completeDonation utc (sample_now + msPerDay) "n1"
       (snd (donationController.completeDonation utc sample_now "n1"
               sample_world))
     = (failure 400 "Donation is already completed",
        snd (donationController.completeDonation utc sample_now "n1"
               sample_world)).
Proof.
  destruct (X8_completeDonation_counts_once utc sample_now "n1" sample_world
              donation_today donor_ravi request_critical
              eq_refl eq_refl eq_refl eq_refl eq_refl)
    as [H200 [_ [_ [_ Hagain]]]].
  split; [exact H200|apply Hagain].
Defined.

(** X9.  [completeDonation] saves the donation as completed before it
    reads the donor.  For a donation whose donor reference is dangling the
    answer is 500, yet the donation is stored as completed, no donor and
    no request is written, and every later call is answered 400: the
    donation can no longer be credited.  With a stored donor and a
    dangling request reference the answer is 500 too, after the donor
    has been credited. *)
Theorem X9_completeDonation_partial_write_on_dangling_reference
  (LocalTZA : Z -> bool -> Z)
  (now : Date) (id : ObjectId) (w : World) (found : Donation.t)
  (Hfound : Donation.findById (donations w) id = Some found)
  (Hopen : String.eqb (Donation.status found) "completed" = false) :
  let r := donationController.completeDonation LocalTZA now id w in
  (Donor.findById (donors w) (Donation.donor found) = None ->
   statusCode (fst r) = 500
   /\ donors (snd r) = donors w /\ requests (snd r) = requests w
   /\ Donation.findById (donations (snd r)) id
      = Some (Donation.set_status "completed" found)
   /\ forall later,
        donationController.completeDonation LocalTZA later id (snd r)
        = (failure 400 "Donation is already completed", snd r))
  /\ (forall donor,
        Donor.findById (donors w) (Donation.donor found) = Some donor ->
        BloodRequest.findById (requests w) (Donation.bloodRequest found) = None ->
        statusCode (fst r) = 500
        /\ requests (snd r) = requests w
        /\ Donor.findById (donors (snd r)) (Donation.donor found)
           = Some (credited LocalTZA now found donor)).
Proof.
  intro r. subst r.
  assert (Hstored :
            Donation.findById
              (Donation.save (Donation.set_status "completed" found)
                             (donations w)) id
            = Some (Donation.set_status "completed" found)).
  { apply donation_findById_save with (d := found); [exact Hfound|reflexivity]. }
  unfold donationController.completeDonation. rewrite Hfound, Hopen. simpl.
  split.
  - intro Hd. rewrite Hd. simpl.
    split; [reflexivity|]. split; [reflexivity|]. split; [reflexivity|].
    split; [exact Hstored|].
    intro later. simpl. rewrite Hstored. reflexivity.
  - intros donor Hd Hr. rewrite Hd, Hr. simpl.
    split; [reflexivity|]. split; [reflexivity|].
    apply findById_save with (d := donor); [exact Hd|reflexivity].
Qed.

Lemma X9_dangling_donor_sample :
  let w := with_donors [] sample_world in
  statusCode (fst (donationController.completeDonation utc sample_now "n1" w))
  = 500
  /\ Donation.findById
       (donations (snd (donationController.completeDonation utc sample_now
                          "n1" w)))
       "n1"
     = Some (Donation.set_status "completed" donation_today).
Proof.
  destruct (X9_completeDonation_partial_write_on_dangling_reference utc
              sample_now "n1" (with_donors [] sample_world) donation_today
              eq_refl eq_refl) as [Hdangling _].
  destruct (Hdangling eq_refl) as [H500 [_ [_ [Hstored _]]]].
  split; [exact H500|exact Hstored].
Defined.

(** X10.  When [completeDonation] runs on a donation that brings its
    request to the number of units needed, and the request passes its
    validators at that time, the request is stored with one more unit
    fulfilled and with status ['fulfilled'], and from then on no call of
    the request search returns it. *)
Theorem X10_completeDonation_last_unit_closes_request
  (LocalTZA : Z -> bool -> Z) (now : Date) (id : ObjectId) (w : World)
  (found : Donation.t) (donor : Donor.t) (request : BloodRequest.t)
  (Hfound : Donation.findById (donations w) id = Some found)
  (Hopen : String.eqb (Donation.status found) "completed" = false)
  (Hdonor : Donor.findById (donors w) (Donation.donor found) = Some donor)
  (Hrequest : BloodRequest.findById (requests w) (Donation.bloodRequest found)
              = Some request)
  (Hvalid : BloodRequest.validate now request = true)
  (Hlast : BloodRequest.unitsNeeded request
           <= BloodRequest.unitsFulfilled request + 1) :
  let w' := snd (donationController.completeDonation LocalTZA now id w) in
  (exists request',
     BloodRequest.findById (requests w') (Donation.bloodRequest found)
     = Some request'
     /\ BloodRequest.unitsFulfilled request'
        = BloodRequest.unitsFulfilled request + 1
     /\ BloodRequest.status request' = "fulfilled")
  /\ (forall distance later users coordinates maxDistance bt p,
        In p (BloodRequest.findNearby distance later users (requests w')
                coordinates maxDistance bt) ->
        BloodRequest._id (BloodRequest.doc p) <> Donation.bloodRequest found).
Proof.
  intro w'. subst w'.
  rewrite (completeDonation_reaches_request LocalTZA now id w found donor
             request Hfound Hopen Hdonor Hrequest).
  destruct (save_valid now (advanced now request) (requests w)
              (validate_advanced now request Hvalid)) as [stored Hsave].
  rewrite Hsave. cbn [snd requests with_requests].
  assert (Hid : BloodRequest._id request = Donation.bloodRequest found).
  { apply find_some in Hrequest. destruct Hrequest as [_ H].
    now apply String.eqb_eq in H. }
  destruct (advanced_fields now request) as [Hsame [Hunits _]].
  assert (Hstatus : BloodRequest.status (advanced now request) = "fulfilled").
  { unfold advanced. rewrite updateStatus_status_before_deadline.
    - cbn [BloodRequest.unitsNeeded BloodRequest.unitsFulfilled
           BloodRequest.set_unitsFulfilled].
      replace (BloodRequest.unitsNeeded request
               <=? BloodRequest.unitsFulfilled request + 1) with true
        by (symmetry; apply Z.leb_le; exact Hlast).
      reflexivity.
    - exact (validate_deadline now request Hvalid). }
  split.
  - exists (advanced now request). split; [|split; assumption].
    exact (request_findById_save now (requests w) stored _ request _
             Hrequest Hsame Hsave).
  - intros distance later users coordinates maxDistance bt p Hp Heq.
    apply In_request_findNearby in Hp. destruct Hp as [r [-> [Hin Hq]]].
    simpl in Heq.
    apply (In_request_save now _ _ _ _ Hsave) in Hin.
    destruct Hin as [->|[_ Hne]].
    + unfold BloodRequest.nearby_query in Hq.
      apply andb_prop in Hq. destruct Hq as [Hq _].
      apply andb_prop in Hq. destruct Hq as [Hq _].
      apply andb_prop in Hq. destruct Hq as [_ Hq].
      apply mongo_in_In in Hq. rewrite Hstatus in Hq.
      destruct Hq as [Hq|[Hq|[]]]; discriminate Hq.
    + apply Hne. congruence.
Qed.

Lemma X10_last_unit_sample :
  exists request',
    BloodRequest.findById
      (requests (snd (donationController.completeDonation utc sample_now "n2"
                        sample_world))) "r2" = Some request'
    /\ BloodRequest.unitsFulfilled request' = 1
    /\ BloodRequest.status request' = "fulfilled".
Proof.
  assert (Hlast : BloodRequest.unitsNeeded request_medium
                  <= BloodRequest.unitsFulfilled request_medium + 1)
    by (vm_compute; discriminate).
  destruct (X10_completeDonation_last_unit_closes_request utc sample_now "n2"
              sample_world donation_old donor_ravi request_medium
              eq_refl eq_refl eq_refl eq_refl eq_refl Hlast) as [Hclosed _].
  exact Hclosed.
Defined.

(** X12.  When the request's deadline has been reached, the [save] at
    the end of [updateStatus] is refused.  [completeDonation] has by
    then stored the donation as completed and credited the donor: it
    answers 500, the request is left as it was, and every later call is
    answered 400, so the unit is never counted on the request. *)
Theorem X12_completeDonation_after_deadline_credits_donor_only
  (LocalTZA : Z -> bool -> Z) (now : Date) (id : ObjectId) (w : World)
  (found : Donation.t) (donor : Donor.t) (request : BloodRequest.t)
  (Hfound : Donation.findById (donations w) id = Some found)
  (Hopen : String.eqb (Donation.status found) "completed" = false)
  (Hdonor : Donor.findById (donors w) (Donation.donor found) = Some donor)
  (Hrequest : BloodRequest.findById (requests w) (Donation.bloodRequest found)
              = Some request)
  (Hpast : BloodRequest.requiredBy request <= now) :
  let r := donationController.completeDonation LocalTZA now id w in
  fst r = failure 500 "Server error while completing donation"
  /\ requests (snd r) = requests w
  /\ Donor.findById (donors (snd r)) (Donation.donor found)
     = Some (credited LocalTZA now found donor)
  /\ Donation.findById (donations (snd r)) id
     = Some (Donation.set_status "completed" found)
  /\ (forall later,
        donationController.completeDonation LocalTZA later id (snd r)
        = (failure 400 "Donation is already completed", snd r)).
Proof.
  intro r. subst r.
  rewrite (completeDonation_reaches_request LocalTZA now id w found donor
             request Hfound Hopen Hdonor Hrequest).
  assert (Hsave : BloodRequest.save now (advanced now request) (requests w)
                  = None).
  { unfold BloodRequest.save. rewrite validate_past_deadline; [reflexivity|].
    destruct (advanced_fields now request) as [_ [_ ->]]. exact Hpast. }
  rewrite Hsave.
  cbn [fst snd donors donations requests log
       completeDonation_before_request with_donors with_donations].
  assert (Hstored :
            Donation.findById
              (Donation.save (Donation.set_status "completed" found)
                             (donations w)) id
            = Some (Donation.set_status "completed" found)).
  { apply donation_findById_save with (d := found); [exact Hfound|reflexivity]. }
  split; [reflexivity|]. split; [reflexivity|]. split; [|split].
  - apply findById_save with (d := donor); [exact Hdonor|reflexivity].
  - exact Hstored.
  - intro later. apply completeDonation_again with
      (found := Donation.set_status "completed" found); [exact Hstored|reflexivity].
Qed.

Lemma X12_after_deadline_sample :
  fst (donationController.completeDonation utc (sample_now + 2 * msPerDay)
         "n1" sample_world)
  = failure 500 "Server error while completing donation"
  /\ option_map Donor.donationCount
       (Donor.findById
          (donors (snd (donationController.completeDonation utc
                          (sample_now + 2 * msPerDay) "n1" sample_world)))
          "d1") = Some 1
  /\ requests (snd (donationController.completeDonation utc
                      (sample_now + 2 * msPerDay) "n1" sample_world))
     = sample_requests.
Proof.
  assert (Hpast : BloodRequest.requiredBy request_critical
                  <= sample_now + 2 * msPerDay)
    by (vm_compute; discriminate).
  destruct (X12_completeDonation_after_deadline_credits_donor_only utc
              (sample_now + 2 * msPerDay) "n1" sample_world donation_today
              donor_ravi request_critical eq_refl eq_refl eq_refl eq_refl Hpast)
    as [H500 [Hrequests [Hdonor _]]].
  split; [exact H500|]. split; [|exact Hrequests].
  exact (f_equal (option_map Donor.donationCount) Hdonor).
Defined.

(** ** Issuing a certificate *)

(** The handler gives [Certificate.create] neither identifier. *)
Lemma create_without_identifiers now newId random5 random8 i certificates :
  Certificate.in_certificateId i = None
  \/ Certificate.in_verificationCode i = None ->
  Certificate.create now newId random5 random8 i certificates = None.
Proof.
  unfold Certificate.create, Certificate.validate.
  intros [H|H]; rewrite H; cbn [truthy andb];
    [reflexivity|rewrite andb_false_r; reflexivity].
Qed.

(** X11.  [generateCertificate] never issues a certificate.  It hands
    [Certificate.create] a document without [certificateId] and without
    a verification code; both paths are required, and the validators run
    before the middleware that would generate them.  So no call is
    answered with success: users, donors, requests, donations and
    certificates are left as they were and no mail is handed over; and
    for a completed, safe donation of the requester that has no
    certificate yet the answer is the 500 server error.  In the model of
    [Certificate.create] itself, a document is stored only when both
    identifiers were given, and it is stored with the identifiers
    given: neither generated form ever reaches the collection. *)
Theorem X11_generateCertificate_never_issues
  (transport : Email.t -> bool) (now : Date) (newId : ObjectId)
  (random5 random8 : string) (frontendUrl : option string)
  (req_user : User.t) (id : ObjectId) (w : World) :
  let r := donationController.generateCertificate transport now newId random5
             random8 frontendUrl req_user id w in
  success (fst r) = false
  /\ statusCode (fst r) <> 201
  /\ users (snd r) = users w /\ donors (snd r) = donors w
  /\ requests (snd r) = requests w /\ donations (snd r) = donations w
  /\ certificates (snd r) = certificates w /\ outbox (snd r) = outbox w
  /\ (forall donation donor,
        Donation.findById (donations w) id = Some donation ->
        Donor.findById (donors w) (Donation.donor donation) = Some donor ->
        Donor.user donor = User._id req_user ->
        Donation.status donation = "completed" ->
        Donation.overallResult donation = "safe" ->
        Certificate.findOneByDonation (certificates w) (Donation._id donation)
        = None ->
        r = (failure 500 "Server error while generating certificate",
             log "Generate certificate error:" w))
  /\ (forall i cs c stored,
        Certificate.create now newId random5 random8 i cs = Some (c, stored) ->
        Certificate.in_certificateId i = Some (Certificate.certificateId c)
        /\ Certificate.in_verificationCode i
           = Some (Certificate.verificationCode c)
        /\ stored = (cs ++ [c])%list).
Proof.
  intro r.
  assert (Hcases :
            r = (failure 404 "Donation not found", w)
            \/ r = (failure 500 "Server error while generating certificate",
                    log "Generate certificate error:" w)
            \/ r = (failure 403
                      "Not authorized to generate certificate for this donation",
                    w)
            \/ r = (failure 400
                      "Certificate can only be generated for completed and safe donations",
                    w)
            \/ r = (failure 400 "Certificate already exists for this donation",
                    w)).
  { subst r. unfold donationController.generateCertificate.
    destruct (Donation.findById (donations w) id) as [donation|]; [|tauto].
    cbn [Donation.populate Donation.populated_donor].
    destruct (Donor.findById (donors w) (Donation.donor donation)) as [donor|];
      [|tauto].
    destruct (negb (String.eqb (Donor.user donor) (User._id req_user)));
      [tauto|].
    destruct (negb (String.eqb (Donation.status donation) "completed")
              || negb (String.eqb (Donation.overallResult donation) "safe"));
      [tauto|].
    destruct (Certificate.findOneByDonation (certificates w)
                (Donation._id donation)); [tauto|].
    rewrite create_without_identifiers; [tauto|left; reflexivity]. }
  split; [|split; [|split; [|split; [|split; [|split; [|split; [|split]]]]]]];
    try (destruct Hcases as [->|[->|[->|[->| ->]]]]; try reflexivity;
         discriminate).
  split.
  - intros donation donor Hf Hd Hu Hs Ho Hc. subst r.
    unfold donationController.generateCertificate. rewrite Hf.
    cbn [Donation.populate Donation.populated_donor].
    rewrite Hd, Hu, Hs, Ho, !String.eqb_refl. cbn [negb orb]. rewrite Hc.
    rewrite create_without_identifiers; [reflexivity|left; reflexivity].
  - intros i cs c stored H. unfold Certificate.create in H.
    destruct (Certificate.validate i) eqn:Ev; [|discriminate H].
    unfold Certificate.validate in Ev.
    apply andb_prop in Ev. destruct Ev as [Ev Hcode].
    apply andb_prop in Ev. destruct Ev as [Ev _].
    apply andb_prop in Ev. destruct Ev as [Ev _].
    apply andb_prop in Ev. destruct Ev as [Hid _].
    cbv zeta in H.
    destruct (Certificate.violates_unique _ cs); [discriminate H|].
    injection H as <- <-.
    cbn [Certificate.certificateId Certificate.verificationCode].
    unfold Certificate.pre_save_certificateId,
      Certificate.pre_save_verificationCode.
    rewrite Hid, Hcode.
    destruct (Certificate.in_certificateId i); [|discriminate Hid].
    destruct (Certificate.in_verificationCode i); [|discriminate Hcode].
    now repeat split.
Qed.

(** The donor's request for a certificate of a completed, safe donation
    that has none is answered with the server error. *)
Lemma generateCertificate_refused_sample :
  donationController.generateCertificate transport_up sample_now
    "c9" "7QK2M" "X4P9T1ZB" None ravi "n3" sample_world
  = (failure 500 "Server error while generating certificate",
     log "Generate certificate error:" sample_world).
Proof. reflexivity. Qed.

(** ** Deleting a user *)

Lemma user_find_absent users id :
  ~ In id (map User._id users) -> User.findById users id = None.
Proof.
  unfold User.findById. induction users as [|a l IH]; simpl; intro H;
    [reflexivity|].
  destruct (String.eqb_spec (User._id a) id) as [E|_]; [tauto|].
  apply IH. tauto.
Qed.

Lemma deleteOne_user_gone users id :
  NoDup (map User._id users) ->
  User.findById (deleteOne (fun u => String.eqb (User._id u) id) users) id
  = None.
Proof.
  induction users as [|a l IH]; simpl; intro Hnd; [reflexivity|].
  inversion Hnd as [|x l' Hnotin Hnd']; subst.
  destruct (String.eqb_spec (User._id a) id) as [E|E].
  - apply user_find_absent. now rewrite <- E.
  - unfold User.findById. simpl. apply String.eqb_neq in E. rewrite E.
    apply IH, Hnd'.
Qed.

Lemma deleteOne_user_others users id id' :
  id' <> id ->
  User.findById (deleteOne (fun u => String.eqb (User._id u) id) users) id'
  = User.findById users id'.
Proof.
  intro Hne. unfold User.findById.
  induction users as [|a l IH]; simpl; [reflexivity|].
  destruct (String.eqb_spec (User._id a) id) as [E|E]; simpl.
  - destruct (String.eqb_spec (User._id a) id') as [E'|_]; [congruence|].
    reflexivity.
  - destruct (String.eqb (User._id a) id'); [reflexivity|exact IH].
Qed.

(** X6.  [deleteUser] refuses (403) to delete an admin other than the
    requester and writes nothing; any other stored user, the requesting
    admin included, is deleted: with unique ids that user is no longer
    found and every other user is found as before.  The user's donor
    profile, donations and certificates are left in place, so their
    references to the user dangle. *)
Theorem X6_deleteUser_guard_and_effect
  (req_user : User.t) (id : ObjectId) (w : World) (user : User.t)
  (Hfound : User.findById (users w) id = Some user) :
  let r := deleteUser req_user id w in
  (User.role user = "admin" /\ User._id req_user <> id ->
   r = (Refused 403 "Cannot delete another admin user", w))
  /\ (User.role user <> "admin" \/ User._id req_user = id ->
      reply_status (fst r) = 200
      /\ donors (snd r) = donors w /\ donations (snd r) = donations w
      /\ certificates (snd r) = certificates w /\ requests (snd r) = requests w
      /\ (NoDup (map User._id (users w)) ->
          User.findById (users (snd r)) id = None)
      /\ (forall id', id' <> id ->
                      User.findById (users (snd r)) id'
                      = User.findById (users w) id')).
Proof.
  intro r. subst r.
  assert (Hid : User._id user = id).
  { apply find_some in Hfound. destruct Hfound as [_ H].
    now apply String.eqb_eq in H. }
  unfold deleteUser. rewrite Hfound, Hid. split.
  - intros [Hrole Hother]. apply String.eqb_neq in Hother.
    rewrite Hrole, Hother. reflexivity.
  - intro Hallowed.
    assert (E : String.eqb (User.role user) "admin"
                && negb (String.eqb (User._id req_user) id) = false).
    { destruct Hallowed as [H|H].
      - apply String.eqb_neq in H. rewrite H. reflexivity.
      - rewrite H, String.eqb_refl. apply andb_false_r. }
    rewrite E. simpl. repeat (split; [reflexivity|]). split.
    + apply deleteOne_user_gone.
    + intros id' Hne. now apply deleteOne_user_others.
Qed.

Lemma X6_deleteUser_sample :
  deleteUser admin_user "u8" world_with_admins
  = (Refused 403 "Cannot delete another admin user", world_with_admins)
  /\ reply_status (fst (deleteUser admin_user "u9" world_with_admins)) = 200
  /\ User.findById (users (snd (deleteUser admin_user "u2" world_with_admins)))
       "u2" = None.
Proof.
  destruct (X6_deleteUser_guard_and_effect admin_user "u8" world_with_admins
              second_admin eq_refl) as [Hguard _].
  destruct (X6_deleteUser_guard_and_effect admin_user "u9" world_with_admins
              admin_user eq_refl) as [_ Hself].
  destruct (X6_deleteUser_guard_and_effect admin_user "u2" world_with_admins
              ravi eq_refl) as [_ Hplain].
  split; [apply Hguard; split; [reflexivity|discriminate]|].
  split; [apply Hself; right; reflexivity|].
  destruct Hplain as [_ [_ [_ [_ [_ [Hgone _]]]]]]; [left; discriminate|].
  apply Hgone. simpl.
  repeat (constructor; [simpl; intuition discriminate|]). constructor.
Defined.

(** X13.  Once a user has been deleted, the public verification of an
    issued certificate of theirs no longer succeeds: the lookup still
    finds the certificate, its donor populates to [null], and the answer
    is the 500 server error. *)
Theorem X13_verify_after_deleteUser_is_server_error
  (req_user : User.t) (id : ObjectId) (w : World) (c : Certificate.t)
  (code : string)
  (Hids : NoDup (map User._id (users w)))
  (Hcodes : unique_codes w)
  (Hstored : In c (certificates w))
  (Hcode : Certificate.verificationCode c = code)
  (Hstatus : Certificate.status c = "issued")
  (Hdonor : Certificate.donor c = id)
  (Hdeleted : reply_status (fst (deleteUser req_user id w)) = 200) :
  statusCode
    (fst (certificateController.verifyCertificate code
            (snd (deleteUser req_user id w)))) = 500.
Proof.
  assert (Hw : certificates (snd (deleteUser req_user id w)) = certificates w
               /\ User.findById (users (snd (deleteUser req_user id w))) id
                  = None).
  { unfold deleteUser in *.
    destruct (User.findById (users w) id) as [user|] eqn:Hf;
      [|discriminate Hdeleted].
    assert (Hid : User._id user = id).
    { apply find_some in Hf. destruct Hf as [_ H]. now apply String.eqb_eq in H. }
    destruct (String.eqb (User.role user) "admin"
              && negb (String.eqb (User._id req_user) (User._id user)));
      [discriminate Hdeleted|].
    simpl. split; [reflexivity|]. rewrite Hid. now apply deleteOne_user_gone. }
  destruct Hw as [Hcerts Hgone].
  pose proof (verifyCertificate_cases code (snd (deleteUser req_user id w)))
    as Hcases.
  pose proof (find_issued_spec (certificates (snd (deleteUser req_user id w)))
                code) as Hfind.
  rewrite Hcerts in Hcases, Hfind.
  destruct (find _ (certificates w)) as [c'|].
  - destruct Hfind as [Hin' [Hcode' _]].
    assert (c' = c).
    { apply (NoDup_map_injective Certificate.verificationCode (certificates w));
        [exact Hcodes|exact Hin'|exact Hstored|congruence]. }
    subst c'. rewrite Hdonor, Hgone in Hcases. rewrite Hcases. reflexivity.
  - exfalso. exact (Hfind c Hstored Hcode Hstatus).
Qed.

Lemma X13_verify_after_delete_sample :
  statusCode
    (fst (certificateController.verifyCertificate "LOJ2F5A89XK2M4PQ"
            (snd (deleteUser admin_user "u2" world_with_admins)))) = 500.
Proof.
  apply (X13_verify_after_deleteUser_is_server_error admin_user "u2"
           world_with_admins certificate_issued "LOJ2F5A89XK2M4PQ").
  - simpl. repeat (constructor; [simpl; intuition discriminate|]). constructor.
  - unfold unique_codes. simpl.
    repeat (constructor; [simpl; intuition discriminate|]). constructor.
  - left. reflexivity.
  - reflexivity.
  - reflexivity.
  - reflexivity.
  - reflexivity.
Defined.

(** ** Inventory records, beyond the save middleware *)

(** X16.  A record that [BloodInventory.create] accepts is appended with
    the status the middleware computes, and that status is never
    ['Expired']: it is ['Out of Stock'] exactly when no unit is
    available, otherwise ['Low Stock'] exactly when the units do not
    exceed the threshold, otherwise ['Reserved'] or ['Available']
    according to whether any unit is reserved. *)
Theorem X16_create_never_stores_expired
  (now : Date) (i : BloodInventory.t) (inventory stored : list BloodInventory.t)
  (Hcreated : BloodInventory.create now i inventory = Some stored) :
  let s := BloodInventory.status (BloodInventory.pre_save now i) in
  stored = (inventory ++ [BloodInventory.pre_save now i])%list
  /\ s <> "Expired"
  /\ (s = "Out of Stock" <-> BloodInventory.unitsAvailable i = 0)
  /\ (s = "Low Stock"
      <-> 0 < BloodInventory.unitsAvailable i
              <= BloodInventory.minimumThreshold i)
  /\ (s = "Reserved"
      <-> BloodInventory.minimumThreshold i < BloodInventory.unitsAvailable i
          /\ 0 < BloodInventory.unitsReserved i)
  /\ (s = "Available"
      <-> BloodInventory.minimumThreshold i < BloodInventory.unitsAvailable i
          /\ BloodInventory.unitsReserved i = 0).
Proof.
  intro s. subst s. unfold BloodInventory.create in Hcreated.
  destruct (BloodInventory.validate now i) eqn:Hv; [|discriminate Hcreated].
  injection Hcreated as <-. split; [reflexivity|].
  unfold BloodInventory.validate in Hv.
  repeat (apply andb_prop in Hv; destruct Hv as [Hv ?]).
  repeat match goal with
         | H : (_ <=? _) = true |- _ => apply Z.leb_le in H
         | H : (_ <? _) = true |- _ => apply Z.ltb_lt in H
         end.
  unfold BloodInventory.pre_save.
  destruct (Z.leb_spec (BloodInventory.expiryDate i) now); [lia|].
  destruct (Z.eqb_spec (BloodInventory.unitsAvailable i) 0);
    [simpl; repeat split; intros; try discriminate; try lia; try reflexivity|].
  destruct (Z.leb_spec (BloodInventory.unitsAvailable i)
                       (BloodInventory.minimumThreshold i));
    [simpl; repeat split; intros; try discriminate; try lia; try reflexivity|].
  destruct (Z.ltb_spec 0 (BloodInventory.unitsReserved i));
    simpl; repeat split; intros; try discriminate; try lia; try reflexivity.
Qed.

Lemma X16_create_sample :
  exists stored,
    BloodInventory.create sample_now stock_held [stock_free] = Some stored
    /\ BloodInventory.status (BloodInventory.pre_save sample_now stock_held)
       = "Reserved".
Proof.
  exists ([stock_free] ++ [BloodInventory.pre_save sample_now stock_held])%list.
  destruct (X16_create_never_stores_expired sample_now stock_held [stock_free]
              ([stock_free] ++ [BloodInventory.pre_save sample_now stock_held])
              eq_refl) as [_ [_ [_ [_ [Hreserved _]]]]].
  split; [reflexivity|].
  apply Hreserved. split; vm_compute; reflexivity.
Defined.

Lemma inventory_find_updated inventory id u i :
  inventory_findById inventory id = Some i ->
  inventory_findById
    (map (fun j => if String.eqb (BloodInventory._id j) id
                   then BloodInventory.apply_update u j else j) inventory) id
  = Some (BloodInventory.apply_update u i).
Proof.
  unfold inventory_findById.
  induction inventory as [|a l IH]; simpl; intro H; [discriminate H|].
  destruct (String.eqb (BloodInventory._id a) id) eqn:Ea.
  - injection H as ->. simpl. rewrite Ea. reflexivity.
  - rewrite Ea. apply IH, H.
Qed.

(** X17.  [findByIdAndUpdate], for an update document over the units,
    the threshold, the expiry date and the notes (one that does not name
    [status] itself), writes those paths and nothing else: the record
    found under the id afterwards carries the new quantities and the
    status it had before, which the save middleware would not have kept
    when the quantities call for another one.  An update that fails a
    validator stores nothing. *)
Theorem X17_findByIdAndUpdate_leaves_status_stale
  (now : Date) (id : ObjectId) (u : BloodInventory.update)
  (inventory : list BloodInventory.t) (i : BloodInventory.t)
  (Hfound : inventory_findById inventory id = Some i) :
  (BloodInventory.validate_update now u = false ->
   BloodInventory.findByIdAndUpdate now id u inventory = None)
  /\ (BloodInventory.validate_update now u = true ->
      exists stored,
        BloodInventory.findByIdAndUpdate now id u inventory = Some stored
        /\ List.length stored = List.length inventory
        /\ inventory_findById stored id
           = Some (BloodInventory.apply_update u i)
        /\ BloodInventory.status (BloodInventory.apply_update u i)
           = BloodInventory.status i
        /\ forall a, BloodInventory.set_unitsAvailable u = Some a ->
                     BloodInventory.unitsAvailable
                       (BloodInventory.apply_update u i) = a).
Proof.
  unfold BloodInventory.findByIdAndUpdate. split; intro Hv; rewrite Hv.
  - reflexivity.
  - eexists. split; [reflexivity|]. split; [apply length_map|].
    split; [now apply inventory_find_updated|]. split; [reflexivity|].
    intros a Ha. simpl. rewrite Ha. reflexivity.
Qed.

Lemma X17_stale_status_sample :
  (exists stored,
     BloodInventory.findByIdAndUpdate sample_now "i1" sell_out [stock_free]
     = Some stored
     /\ inventory_findById stored "i1"
        = Some (BloodInventory.apply_update sell_out stock_free))
  /\ BloodInventory.status (BloodInventory.apply_update sell_out stock_free)
     = "Available"
  /\ BloodInventory.status
       (BloodInventory.pre_save sample_now
          (BloodInventory.apply_update sell_out stock_free))
     = "Out of Stock".
Proof.
  destruct (X17_findByIdAndUpdate_leaves_status_stale sample_now "i1" sell_out
              [stock_free] stock_free eq_refl) as [_ Hok].
  destruct (Hok eq_refl) as [stored [Hs [_ [Hf [Hstatus _]]]]].
  split; [exists stored; split; assumption|].
  split; [rewrite Hstatus; reflexivity|reflexivity].
Defined.

(** X18.  The schema default of [status] and the save middleware test
    the same conditions in a different order, and only the middleware
    knows ['Reserved'].  On a record that has not expired and has no
    unit reserved the two agree; a record built with the default alone
    (as the seeding script's [insertMany] builds them) is never
    ['Reserved']: with units above a non-negative threshold and some
    reserved it is ['Available'] where the middleware says ['Reserved'];
    and an expired record with no unit available is ['Out of Stock'] by
    the default and ['Expired'] by the middleware. *)
Theorem X18_default_status_against_pre_save
  (now : Date) (i : BloodInventory.t) :
  (now < BloodInventory.expiryDate i ->
   BloodInventory.unitsReserved i <= 0 ->
   default_status now i
   = BloodInventory.status (BloodInventory.pre_save now i))
  /\ default_status now i <> "Reserved"
  /\ (BloodInventory.expiryDate i <= now ->
      BloodInventory.unitsAvailable i = 0 ->
      default_status now i = "Out of Stock"
      /\ BloodInventory.status (BloodInventory.pre_save now i) = "Expired")
  /\ (now < BloodInventory.expiryDate i ->
      0 <= BloodInventory.minimumThreshold i < BloodInventory.unitsAvailable i ->
      0 < BloodInventory.unitsReserved i ->
      default_status now i = "Available"
      /\ BloodInventory.status (BloodInventory.pre_save now i) = "Reserved").
Proof.
  unfold default_status, BloodInventory.pre_save.
  destruct (Z.leb_spec (BloodInventory.expiryDate i) now);
    destruct (Z.eqb_spec (BloodInventory.unitsAvailable i) 0);
    destruct (Z.leb_spec (BloodInventory.unitsAvailable i)
                         (BloodInventory.minimumThreshold i));
    destruct (Z.ltb_spec 0 (BloodInventory.unitsReserved i));
    simpl; repeat split; intros; try discriminate; try lia; try reflexivity.
Qed.

Lemma X18_default_sample :
  default_status sample_now stock_held = "Available"
  /\ BloodInventory.status (BloodInventory.pre_save sample_now stock_held)
     = "Reserved".
Proof.
  destruct (X18_default_status_against_pre_save sample_now stock_held)
    as [_ [_ [_ H]]].
  apply H; [vm_compute; reflexivity|split; vm_compute; [discriminate|reflexivity]
           |vm_compute; reflexivity].
Defined.

(** ** Pages of a donor's donations *)









(** The edges of [getMyDonations]: a user without a donor profile
    gets 200 with no donations and zero pages, whatever the page asked
    for; an absent, non-numeric or zero page is page 1 and an absent,
    non-numeric or zero limit is 10; and a negative page with a positive
    limit, which makes the skip negative, is answered 500. *)
Theorem getMyDonations_edges
  (req_user : User.t) (page limit : option Z) (w : World) :
  (Donor.findOneByUser (donors w) (User._id req_user) = None ->
   getMyDonations req_user page limit w
   = (Accepted 200 ""
        ([], mkPagination (or_default page 1) 0 0 false false), w))
  /\ getMyDonations req_user None limit w
     = getMyDonations req_user (Some 1) limit w
  /\ getMyDonations req_user (Some 0) limit w
     = getMyDonations req_user (Some 1) limit w
  /\ getMyDonations req_user page None w
     = getMyDonations req_user page (Some 10) w
  /\ getMyDonations req_user page (Some 0) w
     = getMyDonations req_user page (Some 10) w
  /\ (forall donor p l,
        Donor.findOneByUser (donors w) (User._id req_user) = Some donor ->
        p < 0 -> 0 < l ->
        reply_status (fst (getMyDonations req_user (Some p) (Some l) w)) = 500).
Proof.
  split; [|repeat (split; [reflexivity|])].
  - intro Hnone. unfold getMyDonations. rewrite Hnone. reflexivity.
  - intros donor p l Hf Hp Hl. unfold getMyDonations, or_default. rewrite Hf.
    replace (p =? 0) with false by (symmetry; apply Z.eqb_neq; lia).
    replace (l =? 0) with false by (symmetry; apply Z.eqb_neq; lia).
    replace ((p - 1) * l <? 0) with true by (symmetry; apply Z.ltb_lt; nia).
    reflexivity.
Qed.

Lemma getMyDonations_edges_sample :
  getMyDonations asha (Some 3) None sample_world
  = (Accepted 200 "" ([], mkPagination 3 0 0 false false), sample_world)
  /\ reply_status (fst (getMyDonations ravi (Some (-1)) (Some 5) sample_world))
     = 500.
Proof.
  destruct (getMyDonations_edges asha (Some 3) None sample_world)
    as [Hnone _].
  destruct (getMyDonations_edges ravi None None sample_world)
    as [_ [_ [_ [_ [_ Hneg]]]]].
  split; [apply Hnone; reflexivity|].
  apply (Hneg donor_ravi); [reflexivity|reflexivity|reflexivity].
Defined.

(** ** Who may read a donation *)

(** X21.  For a donation whose donor, donor's user and blood request are
    all stored, [getDonation] answers 200 exactly when the requesting
    user is the donor's user, or the requester of the blood request, or
    has the role ['admin'], and 403 otherwise; nothing is written.  When
    the donor's user is no longer stored the answer is 500 for everybody,
    an admin included, because the ownership test is evaluated first. *)
Theorem X21_getDonation_access
  (req_user : User.t) (id : ObjectId) (w : World)
  (donation : Donation.t) (donor : Donor.t)
  (Hfound : Donation.findById (donations w) id = Some donation)
  (Hdonor : Donor.findById (donors w) (Donation.donor donation) = Some donor) :
  let r := getDonation req_user id w in
  (forall owner bloodRequest,
     User.findById (users w) (Donor.user donor) = Some owner ->
     BloodRequest.findById (requests w) (Donation.bloodRequest donation)
     = Some bloodRequest ->
     snd r = w
     /\ (reply_status (fst r) = 200
         <-> User._id owner = User._id req_user
             \/ BloodRequest.requester bloodRequest = User._id req_user
             \/ User.role req_user = "admin")
     /\ (reply_status (fst r) = 403
         <-> ~ (User._id owner = User._id req_user
                \/ BloodRequest.requester bloodRequest = User._id req_user
                \/ User.role req_user = "admin")))
  /\ (User.findById (users w) (Donor.user donor) = None ->
      reply_status (fst r) = 500).
Proof.
  intro r. subst r. unfold getDonation. rewrite Hfound, Hdonor. split.
  - intros owner bloodRequest Ho Hr. rewrite Ho, Hr.
    destruct (String.eqb_spec (User._id owner) (User._id req_user));
      destruct (String.eqb_spec (BloodRequest.requester bloodRequest)
                                (User._id req_user));
      destruct (String.eqb_spec (User.role req_user) "admin");
      simpl; (split; [reflexivity|]); split; split; intro H;
      try reflexivity; try discriminate H; try tauto;
      try (exfalso; tauto).
  - intro Ho. rewrite Ho. reflexivity.
Qed.

Lemma X21_getDonation_sample :
  reply_status (fst (getDonation ravi "n1" sample_world)) = 200
  /\ reply_status (fst (getDonation asha "n1" sample_world)) = 200
  /\ reply_status (fst (getDonation meera "n1" sample_world)) = 403.
Proof.
  destruct (X21_getDonation_access ravi "n1" sample_world donation_today
              donor_ravi eq_refl eq_refl) as [Hravi _].
  destruct (X21_getDonation_access asha "n1" sample_world donation_today
              donor_ravi eq_refl eq_refl) as [Hasha _].
  destruct (X21_getDonation_access meera "n1" sample_world donation_today
              donor_ravi eq_refl eq_refl) as [Hmeera _].
  destruct (Hravi ravi request_critical eq_refl eq_refl) as [_ [H1 _]].
  destruct (Hasha ravi request_critical eq_refl eq_refl) as [_ [H2 _]].
  destruct (Hmeera ravi request_critical eq_refl eq_refl) as [_ [_ H3]].
  split; [apply H1; left; reflexivity|].
  split; [apply H2; right; left; reflexivity|].
  apply H3. intros [H|[H|H]]; discriminate H.
Defined.

(** ** The owner's operations on a blood request *)



Lemma request_deleteOne_gone requests id :
  NoDup (map BloodRequest._id requests) ->
  forall r, In r (deleteOne (fun x => String.eqb (BloodRequest._id x) id)
                            requests) ->
            In r requests /\ BloodRequest._id r <> id.
Proof.
  induction requests as [|a l IH]; simpl; intros Hnd r Hin; [contradiction|].
  inversion Hnd as [|x l' Hnotin Hnd']; subst.
  destruct (String.eqb_spec (BloodRequest._id a) id) as [E|E].
  - split; [now right|]. intro Hr. apply Hnotin. rewrite E, <- Hr.
    now apply in_map.
  - destruct Hin as [<-|Hin]; [split; [now left|exact E]|].
    destruct (IH Hnd' r Hin) as [H1 H2]. split; [now right|exact H2].
Qed.

(** X19.  [deleteBloodRequest] obeys only the user who posted the
    request: anyone else, an admin included, is answered 403 and nothing
    is written.  For its requester the request is removed, whatever its
    status; with unique ids it is no longer stored under its id and no
    later search returns it, and donors, donations and certificates are
    left as they were. *)
Theorem X19_deleteBloodRequest_owner_only_and_gone
  (req_user : User.t) (id : ObjectId) (w : World) (request : BloodRequest.t)
  (Hfound : BloodRequest.findById (requests w) id = Some request)
  (Hids : NoDup (map BloodRequest._id (requests w))) :
  let r := deleteBloodRequest req_user id w in
  (BloodRequest.requester request <> User._id req_user ->
   r = (Refused 403 "Not authorized to delete this request", w))
  /\ (BloodRequest.requester request = User._id req_user ->
      reply_status (fst r) = 200
      /\ donors (snd r) = donors w /\ donations (snd r) = donations w
      /\ certificates (snd r) = certificates w
      /\ (forall x, In x (requests (snd r)) ->
                    In x (requests w) /\ BloodRequest._id x <> id)
      /\ (forall distance now users coordinates maxDistance bt p,
            In p (BloodRequest.findNearby distance now users
                    (requests (snd r)) coordinates maxDistance bt) ->
            BloodRequest._id (BloodRequest.doc p) <> id)).
Proof.
  intro r. subst r. unfold deleteBloodRequest. rewrite Hfound.
  assert (Hid : BloodRequest._id request = id).
  { apply find_some in Hfound. destruct Hfound as [_ H].
    now apply String.eqb_eq in H. }
  destruct (String.eqb_spec (BloodRequest.requester request) (User._id req_user))
    as [Eu|Eu]; simpl.
  - split; [intro H; contradiction|]. intros _.
    repeat (split; [reflexivity|]). rewrite Hid. split.
    + now apply request_deleteOne_gone.
    + intros distance now users coordinates maxDistance bt p Hp.
      apply In_request_findNearby in Hp. destruct Hp as [x [-> [Hin _]]].
      simpl. now apply (request_deleteOne_gone (requests w) id Hids x).
  - split; [reflexivity|]. intro H. contradiction.
Qed.

Lemma X19_deleteBloodRequest_sample :
  deleteBloodRequest admin_user "r1" sample_world
  = (Refused 403 "Not authorized to delete this request", sample_world)
  /\ reply_status (fst (deleteBloodRequest asha "r1" sample_world)) = 200.
Proof.
  assert (Hids : NoDup (map BloodRequest._id (requests sample_world))).
  { simpl. repeat (constructor; [simpl; intuition discriminate|]). constructor. }
  destruct (X19_deleteBloodRequest_owner_only_and_gone admin_user "r1"
              sample_world request_critical eq_refl Hids) as [Hother _].
  destruct (X19_deleteBloodRequest_owner_only_and_gone asha "r1"
              sample_world request_critical eq_refl Hids) as [_ Howner].
  split; [apply Hother; discriminate|].
  apply Howner. reflexivity.
Defined.

(** ** Sending a certificate by mail *)

(** X23.  [sendCertificateEmailEndpoint], for a stored certificate whose
    donor resolves: a requester who is neither that donor nor an admin is
    answered 403 and no mail leaves.  Otherwise exactly one mail is handed
    to the transporter, addressed to the certificate's donor (also when an
    admin asks); the answer is 200 when the transporter accepts it and
    500 when it does not, because the send is awaited outside any inner
    [try]; and no collection is written. *)
Theorem X23_sendCertificateEmailEndpoint_owner_or_admin
  (transport : Email.t -> bool) (req_user : User.t) (id : ObjectId)
  (w : World) (certificate : Certificate.t) (donor : User.t)
  (Hfound : certificate_findById (certificates w) id = Some certificate)
  (Hdonor : User.findById (users w) (Certificate.donor certificate)
            = Some donor) :
  let r := sendCertificateEmailEndpoint transport req_user id w in
  let m := Email.mk (User.email donor)
                    "🏆 Your Blood Donation Certificate is Ready!" in
  (User._id donor <> User._id req_user -> User.role req_user <> "admin" ->
   r = (Refused 403 "Not authorized to send this certificate", w))
  /\ (User._id donor = User._id req_user \/ User.role req_user = "admin" ->
      outbox (snd r) = (outbox w ++ [m])%list
      /\ reply_status (fst r) = (if transport m then 200 else 500)
      /\ users (snd r) = users w /\ donors (snd r) = donors w
      /\ requests (snd r) = requests w /\ donations (snd r) = donations w
      /\ certificates (snd r) = certificates w).
Proof.
  intros r m. subst r. unfold sendCertificateEmailEndpoint.
  rewrite Hfound, Hdonor.
  unfold emailService.sendCertificateEmail, emailService.sendEmail.
  fold m.
  destruct (String.eqb_spec (User._id donor) (User._id req_user)) as [Eu|Eu];
    destruct (String.eqb_spec (User.role req_user) "admin") as [Ea|Ea];
    cbn [negb andb].
  1-3: split; [intros H1 H2; contradiction|]; intros _;
       destruct (transport m); cbn; repeat split; reflexivity.
  split; [reflexivity|]. intros [H|H]; contradiction.
Qed.

Lemma X23_sendCertificateEmail_sample :
  sendCertificateEmailEndpoint transport_down meera "c1"
    world_with_certificates
  = (Refused 403 "Not authorized to send this certificate",
     world_with_certificates)
  /\ reply_status
       (fst (sendCertificateEmailEndpoint transport_down ravi "c1"
               world_with_certificates)) = 500
  /\ outbox (snd (sendCertificateEmailEndpoint transport_up admin_user "c1"
                    world_with_certificates))
     = [Email.mk "ravi@example.com"
                 "🏆 Your Blood Donation Certificate is Ready!"].
Proof.
  destruct (X23_sendCertificateEmailEndpoint_owner_or_admin transport_down
              meera "c1" world_with_certificates certificate_issued ravi
              eq_refl eq_refl) as [Hother _].
  destruct (X23_sendCertificateEmailEndpoint_owner_or_admin transport_down
              ravi "c1" world_with_certificates certificate_issued ravi
              eq_refl eq_refl) as [_ Hdown].
  destruct (X23_sendCertificateEmailEndpoint_owner_or_admin transport_up
              admin_user "c1" world_with_certificates certificate_issued ravi
              eq_refl eq_refl) as [_ Hadmin].
  split; [apply Hother; discriminate|]. split.
  - destruct Hdown as [_ [Hs _]]; [left; reflexivity|exact Hs].
  - destruct Hadmin as [Ho _]; [right; reflexivity|exact Ho].
Defined.

(** ** A created request in later searches *)

Lemma createBloodRequest_requests
  (distance : Coordinates -> Coordinates -> Q) (transport : Email.t -> bool)
  now newId req_user body w :
  BloodRequest.validate now (requestController.new_request newId req_user body)
  = true ->
  requests (snd (requestController.createBloodRequest distance transport now
                   newId req_user body w))
  = (requests w ++ [requestController.new_request newId req_user body])%list.
Proof.
  intro Hv. unfold requestController.createBloodRequest. rewrite Hv.
  unfold emailService.sendRequestConfirmation.
  set (m := Email.mk _ _). set (w1 := with_requests _ w).
  pose proof (sendEmail_frame transport m w1) as Hf. cbv zeta in Hf.
  destruct (emailService.sendEmail transport m w1) as [confirmed w2].
  cbn [snd] in *. destruct Hf as [_ [_ [Hr _]]].
  unfold requestController.notifyDonors.
  match goal with
  | |- requests (fold_left _ ?l ?w0) = _ =>
      destruct (notifyDonors_frame transport
                  (requestController.new_request newId req_user body) l w0)
        as [Hr' _]
  end.
  rewrite Hr'. destruct confirmed; cbn [requests log]; rewrite Hr; reflexivity.
Qed.

(** X15.  A request that [createBloodRequest] accepts is stored behind
    the requests already there, and every later [findNearby] issued
    before its deadline, around a point within the radius of its
    location, returns it: with no donor blood type (or the empty one),
    and with every donor type whose compatibility row holds the
    request's type.  Mail failures during the creation do not matter. *)
Theorem X15_created_request_is_found_nearby
  (distance : Coordinates -> Coordinates -> Q) (transport : Email.t -> bool)
  (now later : Date) (newId : ObjectId) (req_user : User.t)
  (body : requestController.RequestBody) (w : World)
  (coordinates : Coordinates) (maxDistance : Z)
  (Hvalid : BloodRequest.validate now
              (requestController.new_request newId req_user body) = true)
  (Hlater : later < requestController.b_requiredBy body)
  (Hnear : (distance coordinates (requestController.b_location body)
            <= inject_Z maxDistance)%Q) :
  let bloodRequest := requestController.new_request newId req_user body in
  let w' := snd (requestController.createBloodRequest distance transport now
                   newId req_user body w) in
  let found bt :=
    In (BloodRequest.populate (users w') bloodRequest)
       (BloodRequest.findNearby distance later (users w') (requests w')
          coordinates maxDistance bt) in
  requests w' = (requests w ++ [bloodRequest])%list
  /\ found None /\ found (Some "")
  /\ (forall T, In (requestController.b_bloodType body)
                   (BloodRequest.getCompatibleBloodTypes T) ->
                found (Some T)).
Proof.
  intros bloodRequest w' found.
  assert (Hreq : requests w' = (requests w ++ [bloodRequest])%list)
    by exact (createBloodRequest_requests distance transport now newId
                req_user body w Hvalid).
  assert (Hbase : forall bt,
             (if truthy bt
              then match bt with
                   | Some b => mongo_in (BloodRequest.bloodType bloodRequest)
                                 (BloodRequest.getCompatibleBloodTypes b)
                   | None => true
                   end
              else true) = true -> found bt).
  { intros bt Hbt. unfold found. apply In_request_findNearby.
    exists bloodRequest. split; [reflexivity|]. split.
    - rewrite Hreq. apply in_or_app. right. left. reflexivity.
    - unfold BloodRequest.nearby_query. rewrite Hbt.
      replace (within distance BloodRequest.location coordinates maxDistance
                 bloodRequest) with true
        by (symmetry; apply Qle_bool_iff; exact Hnear).
      replace (later <? BloodRequest.requiredBy bloodRequest) with true
        by (symmetry; apply Z.ltb_lt; exact Hlater).
      reflexivity. }
  split; [exact Hreq|]. split; [apply Hbase; reflexivity|].
  split; [apply Hbase; reflexivity|].
  intros T HT. apply Hbase. cbn [truthy].
  destruct (negb (T =? "")%string); [|reflexivity].
  apply mongo_in_In. exact HT.
Qed.

Lemma X15_created_request_sample :
  In (BloodRequest.populate sample_users
        (requestController.new_request "r9" asha sample_body))
     (BloodRequest.findNearby grid_metres (sample_now + msPerDay)
        (users (snd (requestController.createBloodRequest grid_metres
                       transport_down sample_now "r9" asha sample_body
                       sample_world)))
        (requests (snd (requestController.createBloodRequest grid_metres
                          transport_down sample_now "r9" asha sample_body
                          sample_world)))
        delhi 50000 (Some "O-")).
Proof.
  assert (Hnear : (grid_metres delhi
                     (requestController.b_location sample_body)
                   <= inject_Z 50000)%Q).
  { apply Qle_bool_iff. vm_compute. reflexivity. }
  destruct (X15_created_request_is_found_nearby grid_metres transport_down
              sample_now (sample_now + msPerDay) "r9" asha sample_body
              sample_world delhi 50000 eq_refl eq_refl Hnear)
    as [_ [_ [_ Hfound]]].
  apply (Hfound "O-"). simpl. tauto.
Defined.

(** ** Deleting a donor profile *)

Lemma donor_deleteOne_In donors id d :
  In d (deleteOne (fun x => String.eqb (Donor._id x) id) donors) ->
  In d donors.
Proof.
  induction donors as [|a l IH]; simpl; [tauto|].
  destruct (String.eqb (Donor._id a) id); [now right|].
  intros [<-|H]; [now left|right; exact (IH H)].
Qed.

Lemma donor_deleteOne_gone donors id :
  NoDup (map Donor._id donors) ->
  forall d, In d (deleteOne (fun x => String.eqb (Donor._id x) id) donors) ->
            Donor._id d <> id.
Proof.
  induction donors as [|a l IH]; simpl; intros Hnd d Hin; [contradiction|].
  inversion Hnd as [|x l' Hnotin Hnd']; subst.
  destruct (String.eqb_spec (Donor._id a) id) as [E|E].
  - intro Hd. apply Hnotin. rewrite E, <- Hd. now apply in_map.
  - destruct Hin as [<-|Hin]; [exact E|]. exact (IH Hnd' d Hin).
Qed.

Lemma donor_deleteOne_others donors id d :
  In d donors -> Donor._id d <> id ->
  In d (deleteOne (fun x => String.eqb (Donor._id x) id) donors).
Proof.
  induction donors as [|a l IH]; simpl; [tauto|].
  intros [->|Hin] Hd.
  - destruct (String.eqb_spec (Donor._id d) id); [contradiction|now left].
  - destruct (String.eqb (Donor._id a) id); [exact Hin|right; now apply IH].
Qed.

Lemma key_determines {A : Type} (key : A -> string) (l : list A) a b :
  NoDup (map key l) -> In a l -> In b l -> key a = key b -> a = b.
Proof.
  induction l as [|x l IH]; simpl; intros Hnd Ha Hb E; [contradiction|].
  inversion Hnd as [|y l' Hnotin Hnd']; subst.
  destruct Ha as [->|Ha], Hb as [->|Hb].
  - reflexivity.
  - exfalso. apply Hnotin. rewrite E. now apply in_map.
  - exfalso. apply Hnotin. rewrite <- E. now apply in_map.
  - exact (IH Hnd' Ha Hb E).
Qed.

(** X24.  [deleteDonor] deletes the requester's own donor profile and
    nothing else.  With unique donor ids and the unique index on [user],
    afterwards the requester has no profile (a second call is answered
    404), no donor search returns a profile of theirs, and every other
    profile is stored as before.  The donations that refer to the
    profile stay stored, yet [getMyDonations] now answers the requester
    an empty list with a total of zero. *)
Theorem X24_deleteDonor_own_profile_only
  (req_user : User.t) (w : World) (donor : Donor.t)
  (Hfound : Donor.findOneByUser (donors w) (User._id req_user) = Some donor)
  (Hids : NoDup (map Donor._id (donors w)))
  (Husers : NoDup (map Donor.user (donors w))) :
  let r := deleteDonor req_user w in
  reply_status (fst r) = 200
  /\ users (snd r) = users w /\ requests (snd r) = requests w
  /\ donations (snd r) = donations w /\ certificates (snd r) = certificates w
  /\ (forall d, In d (donors (snd r)) <->
                In d (donors w) /\ Donor.user d <> User._id req_user)
  /\ deleteDonor req_user (snd r) = (Refused 404 "Donor profile not found", snd r)
  /\ (forall distance users coordinates maxDistance bt p,
        In p (Donor.findNearby distance users (donors (snd r)) coordinates
                maxDistance bt) ->
        Donor.user (Donor.doc p) <> User._id req_user)
  /\ (forall page limit,
        getMyDonations req_user page limit (snd r)
        = (Accepted 200 ""
             ([], mkPagination (or_default page 1) 0 0 false false), snd r)).
Proof.
  intro r.
  set (rest := deleteOne (fun d => String.eqb (Donor._id d) (Donor._id donor))
                         (donors w)).
  assert (Hr : r = (Accepted 200 "Donor profile deleted successfully" tt,
                    with_donors rest w)).
  { subst r. unfold deleteDonor. rewrite Hfound. reflexivity. }
  rewrite Hr. clear Hr r. cbn [fst snd reply_status].
  change (donors (with_donors rest w)) with rest.
  assert (Hin : In donor (donors w) /\ Donor.user donor = User._id req_user).
  { apply find_some in Hfound. destruct Hfound as [H1 H2].
    split; [exact H1|now apply String.eqb_eq in H2]. }
  destruct Hin as [Hin Huser].
  assert (Hrest : forall d, In d rest <->
                    In d (donors w) /\ Donor.user d <> User._id req_user).
  { intro d. split.
    - intro Hd. split; [exact (donor_deleteOne_In _ _ _ Hd)|].
      intro E. apply (donor_deleteOne_gone _ _ Hids d Hd).
      f_equal. apply (key_determines Donor.user (donors w)); try assumption.
      + exact (donor_deleteOne_In _ _ _ Hd).
      + congruence.
    - intros [Hd Hu]. apply donor_deleteOne_others; [exact Hd|].
      intro E. apply Hu. rewrite <- Huser.
      f_equal. apply (key_determines Donor._id (donors w)); assumption. }
  assert (Hnone : Donor.findOneByUser rest (User._id req_user) = None).
  { unfold Donor.findOneByUser.
    destruct (find _ rest) as [d|] eqn:Ef; [|reflexivity].
    apply find_some in Ef. destruct Ef as [Hd Hu].
    apply String.eqb_eq in Hu. apply Hrest in Hd. tauto. }
  split; [reflexivity|]. repeat (split; [reflexivity|]).
  split; [exact Hrest|]. split.
  - unfold deleteDonor. change (donors (with_donors rest w)) with rest.
    rewrite Hnone. reflexivity.
  - split.
    + intros distance users0 coordinates maxDistance bt p Hp.
      apply In_donor_findNearby in Hp. destruct Hp as [d [-> [Hd _]]].
      cbn [Donor.doc Donor.populate]. apply Hrest in Hd. tauto.
    + intros page limit. unfold getMyDonations.
      change (donors (with_donors rest w)) with rest.
      rewrite Hnone. reflexivity.
Qed.

Lemma X24_deleteDonor_sample :
  reply_status (fst (deleteDonor ravi sample_world)) = 200
  /\ donations (snd (deleteDonor ravi sample_world)) = sample_donations
  /\ getMyDonations ravi None None (snd (deleteDonor ravi sample_world))
     = (Accepted 200 "" ([], mkPagination 1 0 0 false false),
        snd (deleteDonor ravi sample_world)).
Proof.
  assert (Hids : NoDup (map Donor._id (donors sample_world))).
  { simpl. repeat (constructor; [simpl; intuition discriminate|]). constructor. }
  assert (Husers : NoDup (map Donor.user (donors sample_world))).
  { simpl. repeat (constructor; [simpl; intuition discriminate|]). constructor. }
  destruct (X24_deleteDonor_own_profile_only ravi sample_world donor_ravi
              eq_refl Hids Husers)
    as [Hs [_ [_ [Hd [_ [_ [_ [_ Hmine]]]]]]]].
  split; [exact Hs|]. split; [exact Hd|]. exact (Hmine None None).
Defined.
